(** * Bus ticket booking: booking store, validation rules and boarding planner

    A shallow embedding of the booking domain engine of the bus ticket
    booking system: [utils/validation.js] (field rules and the form
    validator), [utils/boardingAlgorithm.js] (the back-to-front boarding
    planner and its time estimates) and [utils/localStorage.js] (the
    persisted store, booking identifiers, save and delete).

    Conventions of the embedding.
    - JavaScript numbers that the code only uses as counts, row numbers and
      sequence numbers are exact integers ([Z]); the single division of the
      code ([calculateTimeSavings]) yields a [Js.number], an exact rational,
      [NaN] or an infinity.
    - JavaScript strings are [string]s (sequences of 8-bit code units).
    - An object used as a dictionary ([errors]) is a [gmap string string].
    - Functions that read or write the persistence surface thread a
      [Storage.World] explicitly. *)

From Stdlib Require Import ZArith Ascii QArith.QArith_base QArith.Qround.
From Stdlib Require Import Decimal DecimalString DecimalPos DecimalZ.
From stdpp Require Import base option list strings gmap sorting.

#[local] Open Scope Z_scope.
#[local] Set Warnings "-register-all".

(** ** The host language: strings and numbers *)

Module Js.

(** [\d] of a regular expression: ASCII digits only. *)
Definition is_digit (c : ascii) : bool :=
  let n := N_of_ascii c in ((48 <=? n) && (n <=? 57))%N.

(** [\s] of a regular expression, on 8-bit code units: tab, line feed,
    vertical tab, form feed, carriage return, space, no-break space. *)
Definition is_space (c : ascii) : bool :=
  let n := N_of_ascii c in
  (((9 <=? n) && (n <=? 13)) || (n =? 32) || (n =? 160))%N.

Definition is_dash (c : ascii) : bool := (N_of_ascii c =? 45)%N.

(** [s.replace(/.../g, '')] for a character class: drop every character
    of the class. *)
Fixpoint remove_chars (p : ascii -> bool) (s : string) : string :=
  match s with
  | "" => ""
  | String c r => if p c then remove_chars p r else String c (remove_chars p r)
  end.

Fixpoint all_chars (p : ascii -> bool) (s : string) : bool :=
  match s with
  | "" => true
  | String c r => p c && all_chars p r
  end.

(** The Number value for an integer: the nearest double, a tie going to
    the even significand. Integers up to 2^53 in magnitude are exact;
    the model covers magnitudes below 2^1024, beyond which the host has
    [Infinity]. *)
Definition double (n : Z) : Z :=
  let a := Z.abs n in
  let e := Z.log2 a - 52 in
  if e <=? 0 then n
  else
    let q := Z.shiftr a e in
    let r := Z.land a (Z.ones e) in
    let half := Z.shiftl 1 (e - 1) in
    let q' := if (r <? half) || ((r =? half) && Z.even q) then q else q + 1 in
    Z.sgn n * Z.shiftl q' e.

(** [Number.MAX_SAFE_INTEGER] *)
Definition MAX_SAFE_INTEGER : Z := 9007199254740991.

(** [a - b] of two integer-valued numbers. *)
Definition minus (a b : Z) : Z := double (a - b).

(** The longest prefix of digits. *)
Fixpoint take_digits (s : string) : string :=
  match s with
  | "" => ""
  | String c r => if is_digit c then String c (take_digits r) else ""
  end.

(** [s.match(/\d+/)]: the first maximal run of digits, if any. *)
Fixpoint match_digits (s : string) : option string :=
  match s with
  | "" => None
  | String c r =>
      if is_digit c then Some (String c (take_digits r)) else match_digits r
  end.

Fixpoint drop_spaces (s : string) : string :=
  match s with
  | "" => ""
  | String c r => if is_space c then drop_spaces r else s
  end.

(** The value of a string of decimal digits. *)
Definition digits_value (s : string) : Z :=
  match NilEmpty.uint_of_string s with
  | Some u => Z.of_uint u
  | None => 0
  end.

(** [parseInt(s, 10)]: leading white space is skipped, a sign is
    accepted, then the longest run of digits is read and its value is
    returned as a number; [None] is [NaN]. *)
Definition parseInt (s : string) : option Z :=
  let t := drop_spaces s in
  let '(neg, u) :=
    match t with
    | String "-"%char r => (true, r)
    | String "+"%char r => (false, r)
    | _ => (false, t)
    end in
  match take_digits u with
  | "" => None
  | ds => Some (double (if neg : bool then - digits_value ds else digits_value ds))
  end.

(** [String(n)] for an integer [n]. *)
Definition Z_to_string (z : Z) : string :=
  NilEmpty.string_of_int (Z.to_int z).

(** [s.padStart(n, '0')]. *)
Definition padStart0 (n : nat) (s : string) : string :=
  String.concat "" (replicate (n - String.length s)%nat "0") +:+ s.

(** [s.split('-')]: the segments between dashes (never an empty list). *)
Fixpoint split_dash (s : string) : list string :=
  match s with
  | "" => [""]
  | String c r =>
      if is_dash c then "" :: split_dash r
      else match split_dash r with
           | h :: t => String c h :: t
           | [] => [String c ""]
           end
  end.

(** [s.startsWith(p)]. *)
Fixpoint starts_with (p s : string) : bool :=
  match p, s with
  | "", _ => true
  | String a p', String b s' => Ascii.eqb a b && starts_with p' s'
  | String _ _, "" => false
  end.

Fixpoint drop_chars (n : nat) (s : string) : string :=
  match n, s with
  | O, _ => s
  | S n', String _ r => drop_chars n' r
  | S _, "" => ""
  end.

(** [s.replace(pat, by)] with a string pattern: the first occurrence
    only; [by] holds no [$] here. *)
Fixpoint replace_first (pat by_ s : string) : string :=
  if starts_with pat s then by_ +:+ drop_chars (String.length pat) s
  else match s with
       | "" => ""
       | String c r => String c (replace_first pat by_ r)
       end.

(** [a.localeCompare(b)]: the collation of the host's locale. For two
    strings the host decides whether the result is negative, zero or
    positive; it is not the order of code units (the host puts "a"
    before "B") and it may be zero for two different strings. *)
Class Collation := localeCompare : string -> string -> Z.

(** [xs.join(sep)]. *)
Definition join (sep : string) (xs : list string) : string :=
  String.concat sep xs.

(** [xs.includes(x)]. *)
Definition includes (xs : list string) (x : string) : bool :=
  bool_decide (x ∈ xs).

(** The result of a division of two integers. *)
Inductive number :=
| Fin (q : Q)
| NaN
| Infinity (negative : bool).

Definition div (a b : Z) : number :=
  if b =? 0 then
    if a =? 0 then NaN else Infinity (a <? 0)
  else Fin (Qdiv (inject_Z a) (inject_Z b)).

Definition mul (x : number) (k : Z) : number :=
  match x with
  | Fin q => Fin (Qmult q (inject_Z k))
  | NaN => NaN
  | Infinity neg =>
      if k =? 0 then NaN else Infinity (if k <? 0 then negb neg else neg)
  end.

(** The integer [n] for which [n - x] is as close to zero as possible,
    the larger one of two. *)
Definition nearest_integer (x : Q) : Z :=
  Qfloor (Qplus x (Qmake 1 2)).

(** [x.toFixed(0)]. *)
Definition toFixed0 (x : number) : string :=
  match x with
  | NaN => "NaN"
  | Infinity neg => if neg then "-Infinity" else "Infinity"
  | Fin q =>
      if Qnum q <? 0 then "-" +:+ Z_to_string (nearest_integer (Qopp q))
      else Z_to_string (nearest_integer q)
  end.

(** [xs.sort(cmp)]: the sort is stable; for a consistent comparator its
    result is the stable sorted arrangement, computed here by insertion. *)
Section Sort.
Context {A : Type} (cmp : A -> A -> Z).

Fixpoint sort_insert (x : A) (l : list A) : list A :=
  match l with
  | [] => [x]
  | y :: l' => if cmp x y <=? 0 then x :: l else y :: sort_insert x l'
  end.

Definition sort (l : list A) : list A := foldr sort_insert [] l.

(** The comparator places [a] no later than [b]. *)
Definition no_later (a b : A) : Prop := cmp a b <= 0.

(** A consistent comparator, which [sort] expects and which [localeCompare]
    is required to be: swapping the arguments swaps the sign, and being
    placed no later is transitive. *)
Definition consistent : Prop :=
  (forall a b, Z.sgn (cmp b a) = - Z.sgn (cmp a b))
  /\ (forall a b c, cmp a b <= 0 -> cmp b c <= 0 -> cmp a c <= 0).
End Sort.

End Js.

(** ** The record model *)

(** A booking as [handleCreateBooking] builds it and the store persists it. *)
Record Booking := mkBooking {
  travelDate : string;
  mobileNumber : string;
  seats : list string;
  bookingId : string;
  bookingTime : string;
  boardingStatus : string;
}.

(** ** The boarding planner ([utils/boardingAlgorithm.js]) *)

Module Boarding.

(** [{...booking, farthestRow, totalSeats, seatsInFarthestRow}] *)
Record BookingWithMetadata := mkMeta {
  booking : Booking;
  farthestRow : Z;
  totalSeats : Z;
  seatsInFarthestRow : Z;
}.

(** [{...booking, sequenceNumber}] *)
Record SequencedBooking := mkSequenced {
  withMetadata : BookingWithMetadata;
  sequenceNumber : Z;
}.

Definition extractRowNumber (seat : string) : Z :=
  match seat with
  | "" => 0
  | _ =>
      match Js.match_digits seat with
      | Some run => default 0 (Js.parseInt run)
      | None => 0
      end
  end.

(** [Math.max(...xs)] of a non-empty argument list. *)
Definition math_max (x : Z) (xs : list Z) : Z := foldl Z.max x xs.

Definition findFarthestRow (seats : list string) : Z :=
  match extractRowNumber <$> seats with
  | [] => 0
  | r :: rs => math_max r rs
  end.

Definition countSeatsInRow (seats : list string) (row : Z) : Z :=
  match seats with
  | [] => 0
  | _ => Z.of_nat (length (filter (λ seat, extractRowNumber seat = row) seats))
  end.

Definition addMetadata (b : Booking) : BookingWithMetadata :=
  {| booking := b;
     farthestRow := findFarthestRow (seats b);
     totalSeats := Z.of_nat (length (seats b));
     seatsInFarthestRow := countSeatsInRow (seats b) (findFarthestRow (seats b)) |}.

Section Collated.
Context {collation : Js.Collation}.

(** The comparator handed to [sort]. *)
Definition compareBookings (a b : BookingWithMetadata) : Z :=
  if negb (farthestRow b =? farthestRow a)
  then Js.minus (farthestRow b) (farthestRow a)
  else if negb (seatsInFarthestRow b =? seatsInFarthestRow a)
       then Js.minus (seatsInFarthestRow b) (seatsInFarthestRow a)
  else if negb (totalSeats b =? totalSeats a)
       then Js.minus (totalSeats b) (totalSeats a)
  else Js.localeCompare (bookingId (booking a)) (bookingId (booking b)).

Definition calculateOptimalBoardingSequence (bookings : list Booking)
  : list SequencedBooking :=
  match bookings with
  | [] => []
  | _ =>
      let bookingsWithMetadata := addMetadata <$> bookings in
      let sortedBookings := Js.sort compareBookings bookingsWithMetadata in
      imap (λ index b, {| withMetadata := b;
                          sequenceNumber := Z.of_nat index + 1 |})
           sortedBookings
  end.

(** The order of the planner's output: descending by the tuple
    [(farthestRow, seatsInFarthestRow, totalSeats)], then by [bookingId]
    as the host's collation places the identifiers. *)
Definition boards_no_later (a b : BookingWithMetadata) : Prop :=
  farthestRow b < farthestRow a
  ∨ (farthestRow a = farthestRow b
     ∧ (seatsInFarthestRow b < seatsInFarthestRow a
        ∨ (seatsInFarthestRow a = seatsInFarthestRow b
           ∧ (totalSeats b < totalSeats a
              ∨ (totalSeats a = totalSeats b
                 ∧ Js.localeCompare (bookingId (booking a))
                     (bookingId (booking b)) <= 0))))).

End Collated.







Record BoardingTime := mkBoardingTime {
  optimalTimeSeconds : Z;
  optimalTimeMinutes : Z;
  optimalTimeMessage : string;
}.

(** Only the length of [bookings] is read, so the element type is free. *)
Definition calculateBoardingTime {A} (bookings : list A) : BoardingTime :=
  match bookings with
  | [] => {| optimalTimeSeconds := 0;
             optimalTimeMinutes := 0;
             optimalTimeMessage := "0 seconds" |}
  | _ =>
      let optimalTimeSeconds := 60 in
      let optimalTimeMinutes := optimalTimeSeconds / 60 in
      let remainingSeconds := Z.rem optimalTimeSeconds 60 in
      let optimalTimeMessage :=
        if (0 <? optimalTimeMinutes) && (0 <? remainingSeconds) then
          Js.Z_to_string optimalTimeMinutes +:+ " min " +:+
          Js.Z_to_string remainingSeconds +:+ " sec"
        else if 0 <? optimalTimeMinutes then
          Js.Z_to_string optimalTimeMinutes +:+ " minute" +:+
          (if 1 <? optimalTimeMinutes then "s" else "")
        else Js.Z_to_string remainingSeconds +:+ " seconds" in
      {| optimalTimeSeconds := optimalTimeSeconds;
         optimalTimeMinutes := optimalTimeMinutes;
         optimalTimeMessage := optimalTimeMessage |}
  end.

Definition calculateNaturalOrderTime {A} (bookings : list A) : Z :=
  match bookings with
  | [] => 0
  | _ =>
      let totalGroups := Z.of_nat (length bookings) in
      totalGroups * 60
  end.

Record TimeSavings := mkTimeSavings {
  savingsSeconds : Z;
  savingsMinutes : Z;
  savingsMessage : string;
  savingsPercentage : string;
}.

Definition calculateTimeSavings (naturalTimeSeconds optimalTimeSeconds : Z)
  : TimeSavings :=
  let savingsSeconds := naturalTimeSeconds - optimalTimeSeconds in
  let savingsMinutes := savingsSeconds / 60 in
  let remainingSeconds := Z.rem savingsSeconds 60 in
  let savingsMessage :=
    if (0 <? savingsMinutes) && (0 <? remainingSeconds) then
      Js.Z_to_string savingsMinutes +:+ "m " +:+
      Js.Z_to_string remainingSeconds +:+ "s"
    else if 0 <? savingsMinutes then Js.Z_to_string savingsMinutes +:+ "m"
    else Js.Z_to_string remainingSeconds +:+ "s" in
  let savingsPercentage :=
    Js.toFixed0 (Js.mul (Js.div savingsSeconds naturalTimeSeconds) 100) in
  {| savingsSeconds := savingsSeconds;
     savingsMinutes := savingsMinutes;
     savingsMessage := savingsMessage;
     savingsPercentage := savingsPercentage |}.

(** [r] is [num / den] rounded to the nearest integer, a half rounded up
    ([den] positive). *)
Definition rounds_to (num den r : Z) : Prop :=
  2 * r * den <= 2 * num + den < 2 * (r + 1) * den.

End Boarding.

(** ** The validation engine ([utils/validation.js]) *)

Module Validation.

Definition MAX_SEATS_PER_BOOKING : Z := 6.

Definition MOBILE_ERROR : string :=
  "Please enter a valid 10-digit mobile number starting with 6-9".

Module ERROR_MESSAGES.
Definition INVALID_MOBILE : string := MOBILE_ERROR.
Definition PAST_DATE : string := "Travel date cannot be in the past.".
Definition NO_SEATS_SELECTED : string := "Please select at least one seat.".
Definition SEAT_LIMIT : string :=
  "You cannot book more than " +:+ Js.Z_to_string MAX_SEATS_PER_BOOKING +:+
  " seats.".
Definition SAME_MOBILE_LIMIT : string :=
  "This mobile number has already booked {booked} seats for this date. You can book {remaining} more seats.".
End ERROR_MESSAGES.

(** A result object [{isValid, error, ...}]: [Valid] carries the further
    fields of a success (its [error] is [null]), [Invalid] the message and
    the further fields of a failure. *)
Inductive Outcome (V I : Type) :=
| Valid (more : V)
| Invalid (message : string) (more : I).
Arguments Valid {V I} more.
Arguments Invalid {V I} message more.

Definition isValid {V I} (o : Outcome V I) : bool :=
  match o with Valid _ => true | Invalid _ _ => false end.

Definition error {V I} (o : Outcome V I) : option string :=
  match o with Valid _ => None | Invalid e _ => Some e end.

(** [MOBILE_PATTERN = /^[6-9]\d{9}$/] and its [test]. *)
Definition MOBILE_PATTERN_test (s : string) : bool :=
  match s with
  | "" => false
  | String c r =>
      (let n := N_of_ascii c in ((54 <=? n) && (n <=? 57))%N)
      && bool_decide (String.length r = 9%nat)
      && Js.all_chars Js.is_digit r
  end.

(** The success carries [cleanedNumber]. *)
Definition validateMobileNumber (mobileNumber : string) : Outcome string unit :=
  match mobileNumber with
  | "" => Invalid "Mobile number is required." ()
  | _ =>
      let cleanedNumber :=
        Js.remove_chars (λ c, Js.is_space c || Js.is_dash c) mobileNumber in
      if negb (bool_decide (String.length cleanedNumber = 10%nat)) then
        Invalid "Mobile number must be exactly 10 digits." ()
      else if negb (MOBILE_PATTERN_test cleanedNumber) then
        Invalid ERROR_MESSAGES.INVALID_MOBILE ()
      else Valid cleanedNumber
  end.

Definition validateSeatSelectionMax (selectedSeats : list string) (maxSeats : Z)
  : Outcome unit unit :=
  match selectedSeats with
  | [] => Invalid ERROR_MESSAGES.NO_SEATS_SELECTED ()
  | _ =>
      if maxSeats <? Z.of_nat (length selectedSeats) then
        Invalid ERROR_MESSAGES.SEAT_LIMIT ()
      else Valid ()
  end.

(** The default argument [maxSeats = MAX_SEATS_PER_BOOKING]. *)
Definition validateSeatSelection (selectedSeats : list string) : Outcome unit unit :=
  validateSeatSelectionMax selectedSeats MAX_SEATS_PER_BOOKING.

(** Both results carry [duplicates]. *)
Definition checkDuplicateSeats (selectedSeats bookedSeats : list string)
  : Outcome (list string) (list string) :=
  let duplicates := filter (λ seat, Js.includes bookedSeats seat) selectedSeats in
  if 0 <? Z.of_nat (length duplicates) then
    Invalid ("The following seats are already booked: " +:+ Js.join ", " duplicates)
            duplicates
  else Valid [].

(** Both results carry [remainingSeats]. *)
Definition checkSeatLimitForMobile (mobileNumber date : string)
    (selectedSeatsCount alreadyBookedCount : Z) : Outcome Z Z :=
  let totalSeats := selectedSeatsCount + alreadyBookedCount in
  if MAX_SEATS_PER_BOOKING <? totalSeats then
    let remainingSeats := MAX_SEATS_PER_BOOKING - alreadyBookedCount in
    Invalid
      (Js.replace_first "{remaining}"
         (Js.Z_to_string (if 0 <? remainingSeats then remainingSeats else 0))
         (Js.replace_first "{booked}" (Js.Z_to_string alreadyBookedCount)
            ERROR_MESSAGES.SAME_MOBILE_LIMIT))
      remainingSeats
  else Valid (MAX_SEATS_PER_BOOKING - totalSeats).

(** The candidate handed to the form validator; [bookingId] and
    [currentSeats] are [undefined] while a new booking is entered. *)
Record FormData := mkFormData {
  mobileNumber : string;
  travelDate : string;
  seats : list string;
  bookingId : option string;
  currentSeats : option (list string);
}.

Definition set_mobileNumber (v : string) (formData : FormData) : FormData :=
  {| mobileNumber := v;
     travelDate := travelDate formData;
     seats := seats formData;
     bookingId := bookingId formData;
     currentSeats := currentSeats formData |}.

(** A string is truthy unless it is empty; [undefined] is falsy. *)
Definition truthy (s : option string) : bool :=
  match s with
  | Some (String _ _) => true
  | _ => false
  end.

Record FormValidation := mkFormValidation {
  formIsValid : bool;
  errors : gmap string string;
}.

(** [Object.keys(errors).length === 0] *)
Definition no_errors (errors : gmap string string) : bool :=
  bool_decide (size errors = 0%nat).

Definition set_error {V I} (field : string) (o : Outcome V I)
    (errors : gmap string string) : gmap string string :=
  match o with
  | Valid _ => errors
  | Invalid e _ => <[field := e]> errors
  end.

Section Clock.

(** The host clock and date parser: whether [new Date(dateString)], set to
    midnight, lies before today's midnight. *)
Context (isBeforeToday : string -> bool).

Definition validateTravelDate (dateString : string) : Outcome unit unit :=
  match dateString with
  | "" => Invalid "Travel date is required." ()
  | _ =>
      if isBeforeToday dateString then Invalid ERROR_MESSAGES.PAST_DATE ()
      else Valid ()
  end.

(** The validator assigns to [formData.mobileNumber]; the candidate after
    the call is returned next to the result. *)
Definition validateBookingForm (formData : FormData) (bookedSeats : list string)
    (existingSeatsCount : Z) : FormValidation * FormData :=
  let errors : gmap string string := ∅ in
  let mobileValidation := validateMobileNumber (mobileNumber formData) in
  let '(errors, formData) :=
    match mobileValidation with
    | Invalid e _ => (<["mobileNumber" := e]> errors, formData)
    | Valid cleanedNumber => (errors, set_mobileNumber cleanedNumber formData)
    end in
  let dateValidation := validateTravelDate (travelDate formData) in
  let errors := set_error "travelDate" dateValidation errors in
  let seatValidation := validateSeatSelection (seats formData) in
  let errors := set_error "seats" seatValidation errors in
  let errors :=
    if no_errors errors && truthy (bookingId formData) then
      let excludeSeats :=
        filter (λ seat, Is_true match currentSeats formData with
                                | None => true
                                | Some cs => negb (Js.includes cs seat)
                                end) bookedSeats in
      let duplicateCheck := checkDuplicateSeats (seats formData) excludeSeats in
      set_error "seats" duplicateCheck errors
    else if no_errors errors && negb (truthy (bookingId formData)) then
      let duplicateCheck := checkDuplicateSeats (seats formData) bookedSeats in
      set_error "seats" duplicateCheck errors
    else errors in
  let errors :=
    if no_errors errors then
      let limitCheck :=
        checkSeatLimitForMobile (mobileNumber formData) (travelDate formData)
          (Z.of_nat (length (seats formData))) existingSeatsCount in
      set_error "seats" limitCheck errors
    else errors in
  ({| formIsValid := no_errors errors; errors := errors |}, formData).

End Clock.

(** The seats a selection is checked against: when a booking is edited,
    the booked seats without the current seats of that booking; otherwise
    all booked seats. *)
Definition conflictSet (formData : FormData) (bookedSeats : list string)
  : list string :=
  if truthy (bookingId formData) then
    filter (λ seat, Is_true match currentSeats formData with
                            | None => true
                            | Some cs => negb (Js.includes cs seat)
                            end) bookedSeats
  else bookedSeats.

(** The candidate after the mobile rule has run. *)
Definition normalized (formData : FormData) : FormData :=
  match validateMobileNumber (mobileNumber formData) with
  | Valid cleanedNumber => set_mobileNumber cleanedNumber formData
  | Invalid _ _ => formData
  end.

(** The entries of the three rules that look at one field each. *)
Definition fieldErrors (isBeforeToday : string -> bool) (formData : FormData)
  : gmap string string :=
  set_error "seats" (validateSeatSelection (seats formData))
    (set_error "travelDate" (validateTravelDate isBeforeToday (travelDate formData))
       (set_error "mobileNumber" (validateMobileNumber (mobileNumber formData)) ∅)).

Definition fieldRulesHold (isBeforeToday : string -> bool) (formData : FormData)
  : bool :=
  isValid (validateMobileNumber (mobileNumber formData))
  && isValid (validateTravelDate isBeforeToday (travelDate formData))
  && isValid (validateSeatSelection (seats formData)).

(** The entries of the two rules that look at the repository facts. *)
Definition bookingErrors (formData : FormData) (bookedSeats : list string)
    (existingSeatsCount : Z) : gmap string string :=
  match checkDuplicateSeats (seats formData) (conflictSet formData bookedSeats) with
  | Invalid e _ => {["seats" := e]}
  | Valid _ =>
      set_error "seats"
        (checkSeatLimitForMobile (mobileNumber (normalized formData))
           (travelDate formData) (Z.of_nat (length (seats formData)))
           existingSeatsCount) ∅
  end.

End Validation.

(** ** The booking repository ([utils/localStorage.js]) *)

Module Storage.

Definition BOOKING_ID_PREFIX : string := "BK".

(** A JSON value: what [JSON.parse] returns and [JSON.stringify] prints.
    Numbers are the integer-valued ones. *)
Inductive json :=
| JNull
| JBool (b : bool)
| JNum (n : Z)
| JStr (s : string)
| JArr (items : list json)
| JObj (members : list (string * json)).

(** [!v] *)
Definition falsy (v : json) : bool :=
  match v with
  | JNull | JBool false | JNum 0 | JStr "" => true
  | _ => false
  end.

Definition typeof (v : json) : string :=
  match v with
  | JBool _ => "boolean"
  | JNum _ => "number"
  | JStr _ => "string"
  | JNull | JArr _ | JObj _ => "object"
  end.

Fixpoint assoc (k : string) (ms : list (string * json)) : option json :=
  match ms with
  | [] => None
  | (k', v) :: ms' => if bool_decide (k' = k) then Some v else assoc k ms'
  end.

(** [v.k] for a key that is no built-in property; [None] is [undefined].
    Reading a property of [null] throws and is handled where it can occur. *)
Definition get (v : json) (k : string) : option json :=
  match v with
  | JObj ms => assoc k ms
  | _ => None
  end.

(** [Array.isArray(v)] of a property that may be [undefined]. *)
Definition isArray (v : option json) : bool :=
  match v with Some (JArr _) => true | _ => false end.

Definition typeof_opt (v : option json) : string :=
  match v with Some x => typeof x | None => "undefined" end.

(** The JSON value of a booking object, keys in the order in which
    [handleCreateBooking] sets them. *)
Definition booking_to_json (b : Booking) : json :=
  JObj [("travelDate", JStr (travelDate b));
        ("mobileNumber", JStr (mobileNumber b));
        ("seats", JArr (JStr <$> seats b));
        ("bookingId", JStr (bookingId b));
        ("bookingTime", JStr (bookingTime b));
        ("boardingStatus", JStr (boardingStatus b))].

Definition str_of (v : option json) : option string :=
  match v with Some (JStr s) => Some s | _ => None end.

Definition strs_of (v : option json) : option (list string) :=
  match v with
  | Some (JArr xs) => mapM (λ x, str_of (Some x)) xs
  | _ => None
  end.

(** Reading the six fields of a stored booking back. *)
Definition booking_of_json (v : json) : option Booking :=
  d ← str_of (get v "travelDate");
  m ← str_of (get v "mobileNumber");
  ss ← strs_of (get v "seats");
  i ← str_of (get v "bookingId");
  t ← str_of (get v "bookingTime");
  st ← str_of (get v "boardingStatus");
  Some (mkBooking d m ss i t st).

(** [{ bookings, lastBookingNumber }]; further keys of a parsed object are
    never read and are left out. *)
Record Store := mkStore {
  bookings : list json;
  lastBookingNumber : Z;
}.

Definition emptyStore : Store := {| bookings := []; lastBookingNumber := 0 |}.

Definition store_to_json (data : Store) : json :=
  JObj [("bookings", JArr (bookings data));
        ("lastBookingNumber", JNum (lastBookingNumber data))].

(** A string held by [localStorage], told apart by what the code can see
    of it: the empty string, a string that [JSON.parse] rejects, or a
    string that parses to a value. [JSON.stringify v] is [JsonText v]. *)
Inductive Item :=
| EmptyText
| NotJson
| JsonText (v : json).

Inductive LogEntry :=
| Warn (msg : string)
| Error (msg : string).

(** The state the module works on: the cached probe result, whether the
    host's [localStorage] accepts the probe, the item under
    [STORAGE_KEYS.BOOKINGS], the in-memory fallback and the console. *)
Record World := mkWorld {
  _localStorageAvailable : option bool;
  localStorageWorks : bool;
  busBookings : option Item;
  _inMemoryStore : Store;
  console : list LogEntry;
}.

Definition log (e : LogEntry) (w : World) : World :=
  {| _localStorageAvailable := _localStorageAvailable w;
     localStorageWorks := localStorageWorks w;
     busBookings := busBookings w;
     _inMemoryStore := _inMemoryStore w;
     console := console w ++ [e] |}.

Definition set_available (b : bool) (w : World) : World :=
  {| _localStorageAvailable := Some b;
     localStorageWorks := localStorageWorks w;
     busBookings := busBookings w;
     _inMemoryStore := _inMemoryStore w;
     console := console w |}.

Definition set_item (i : option Item) (w : World) : World :=
  {| _localStorageAvailable := _localStorageAvailable w;
     localStorageWorks := localStorageWorks w;
     busBookings := i;
     _inMemoryStore := _inMemoryStore w;
     console := console w |}.

Definition set_inMemoryStore (s : Store) (w : World) : World :=
  {| _localStorageAvailable := _localStorageAvailable w;
     localStorageWorks := localStorageWorks w;
     busBookings := busBookings w;
     _inMemoryStore := s;
     console := console w |}.

Definition isLocalStorageAvailable (w : World) : bool * World :=
  match _localStorageAvailable w with
  | Some b => (b, w)
  | None =>
      if localStorageWorks w then (true, set_available true w)
      else
        (false,
         set_available false
           (log (Warn "Local storage unavailable, falling back to in-memory store.") w))
  end.

(** The structure test on the parsed value; [Some] is the value returned
    as the store. *)
Definition well_shaped (parsed : json) : option Store :=
  if falsy parsed
     || negb (bool_decide (typeof parsed = "object"))
     || negb (isArray (get parsed "bookings"))
     || negb (bool_decide (typeof_opt (get parsed "lastBookingNumber") = "number"))
  then None
  else
    match get parsed "bookings", get parsed "lastBookingNumber" with
    | Some (JArr bs), Some (JNum n) => Some {| bookings := bs; lastBookingNumber := n |}
    | _, _ => None
    end.

Definition getBookingsFromStorage (w : World) : Store * World :=
  let '(available, w) := isLocalStorageAvailable w in
  if negb available then (_inMemoryStore w, w)
  else
    match busBookings w with
    | None | Some EmptyText => (emptyStore, w)
    | Some NotJson =>
        (emptyStore, log (Error "Error reading from local storage:") w)
    | Some (JsonText parsed) =>
        match well_shaped parsed with
        | Some data => (data, w)
        | None =>
            (emptyStore,
             set_item None
               (log (Warn "Unexpected bookings storage format detected, resetting. Value:") w))
        end
    end.

(** [writeOk] tells whether the host accepts this [localStorage.setItem]
    (it throws when, for instance, the quota is exceeded). *)
Definition saveBookingsToStorage (writeOk : bool) (data : Store) (w : World)
  : bool * World :=
  let '(available, w) := isLocalStorageAvailable w in
  if negb available then (true, set_inMemoryStore data w)
  else if writeOk then (true, set_item (Some (JsonText (store_to_json data))) w)
  else (false, log (Error "Error saving to local storage in saveBookingsToStorage:") w).

(** [b.bookingId === bookingId] for a stored element [b] that is not
    [null]. *)
Definition has_bookingId (b : json) (id : string) : bool :=
  match get b "bookingId" with
  | Some (JStr s) => bool_decide (s = id)
  | _ => false
  end.

(** [bookings.findIndex((b) => b.bookingId === bookingId)]; the outer
    [None] is the [TypeError] of reading a property of [null]. *)
Fixpoint findIndex_bookingId (bs : list json) (id : string) : option (option nat) :=
  match bs with
  | [] => Some None
  | JNull :: _ => None
  | b :: bs' =>
      if has_bookingId b id then Some (Some 0%nat)
      else (λ i : option nat, S <$> i) <$> findIndex_bookingId bs' id
  end.

(** [bookings.filter((booking) => booking.bookingId !== bookingId)], with
    the same [TypeError]. *)
Fixpoint filter_out_bookingId (bs : list json) (id : string) : option (list json) :=
  match bs with
  | [] => Some []
  | JNull :: _ => None
  | b :: bs' =>
      match filter_out_bookingId bs' id with
      | None => None
      | Some r => Some (if has_bookingId b id then r else b :: r)
      end
  end.

Record SaveResult := mkSaveResult {
  success : bool;
  message : string;
  resultBooking : option Booking;
}.

(** [parseInt(bookingId.split('-').pop(), 10)] *)
Definition bookingNumberOf (bookingId : string) : option Z :=
  Js.parseInt (default "" (last (Js.split_dash bookingId))).

(** In the in-memory mode [data.bookings] is the very array of
    [_inMemoryStore]; no statement between the update of the array and
    [saveBookingsToStorage] can throw, and that call always stores [data]
    in this mode, so the store after the call is the same as with a copy. *)
Definition saveBooking (writeOk : bool) (booking : Booking) (w : World)
  : SaveResult * World :=
  let '(data, w) := getBookingsFromStorage w in
  match findIndex_bookingId (bookings data) (bookingId booking) with
  | None =>
      ({| success := false;
          message := "Unable to save booking. Please try again.";
          resultBooking := None |},
       log (Error "Error saving booking (exception thrown):") w)
  | Some existingIndex =>
      let data :=
        match existingIndex with
        | Some i =>
            {| bookings := <[i := booking_to_json booking]> (bookings data);
               lastBookingNumber := lastBookingNumber data |}
        | None =>
            let bookingNumber := bookingNumberOf (bookingId booking) in
            {| bookings := bookings data ++ [booking_to_json booking];
               lastBookingNumber :=
                 match bookingNumber with
                 | Some n =>
                     if lastBookingNumber data <? n then n
                     else lastBookingNumber data
                 | None => lastBookingNumber data
                 end |}
        end in
      let '(ok, w) := saveBookingsToStorage writeOk data w in
      if negb ok then
        ({| success := false;
            message := "Unable to save booking. Please try again.";
            resultBooking := None |},
         log (Error "saveBooking failed because saveBookingsToStorage returned false") w)
      else
        ({| success := true;
            message := match existingIndex with
                       | Some _ => "Booking updated successfully!"
                       | None => "Booking created successfully!"
                       end;
            resultBooking := Some booking |}, w)
  end.

Record DeleteResult := mkDeleteResult {
  deleted : bool;
  deleteMessage : string;
}.

Definition deleteBooking (writeOk : bool) (bookingId : string) (w : World)
  : DeleteResult * World :=
  let '(data, w) := getBookingsFromStorage w in
  let initialLength := length (bookings data) in
  match filter_out_bookingId (bookings data) bookingId with
  | None =>
      ({| deleted := false;
          deleteMessage := "Unable to cancel booking. Please try again." |},
       log (Error "Error deleting booking:") w)
  | Some remaining =>
      let data := {| bookings := remaining;
                     lastBookingNumber := lastBookingNumber data |} in
      if bool_decide (length (bookings data) = initialLength) then
        ({| deleted := false; deleteMessage := "Booking not found." |}, w)
      else
        let '(ok, w) := saveBookingsToStorage writeOk data w in
        ({| deleted := ok;
            deleteMessage := if ok then "Booking cancelled successfully!"
                             else "Unable to cancel booking." |}, w)
  end.

Definition getNextBookingNumber (w : World) : Z * World :=
  let '(data, w) := getBookingsFromStorage w in
  (Js.double (lastBookingNumber data + 1), w).

Definition generateBookingId (date : string) (w : World) : string * World :=
  let datePart := Js.remove_chars Js.is_dash date in
  let '(next, w) := getNextBookingNumber w in
  let sequenceNumber := Js.padStart0 6 (Js.Z_to_string next) in
  (BOOKING_ID_PREFIX +:+ "-" +:+ datePart +:+ "-" +:+ sequenceNumber, w).

(** [handleCreateBooking] of the booking context when no booking is being
    edited: a fresh identifier, then [saveBooking]. [now] is
    [new Date().toISOString()]. *)
Definition createBooking (writeOk : bool) (date mobile : string)
    (selectedSeats : list string) (now : string) (w : World)
  : SaveResult * World :=
  let '(id, w) := generateBookingId date w in
  saveBooking writeOk
    {| travelDate := date;
       mobileNumber := mobile;
       seats := selectedSeats;
       bookingId := id;
       bookingTime := now;
       boardingStatus := "not_boarded" |} w.

(** The store as the next read sees it. *)
Definition currentStore (w : World) : Store := (getBookingsFromStorage w).1.

(** Sequences of repository operations. *)
Inductive Op :=
| Create (writeOk : bool) (date mobile : string) (selectedSeats : list string)
         (now : string)
| Save (writeOk : bool) (booking : Booking)
| Delete (writeOk : bool) (bookingId : string).

(** One operation; the second component is the identifier of the booking
    that a successful [Create] has stored. *)
Definition step (op : Op) (w : World) : World * option string :=
  match op with
  | Create writeOk date mobile selectedSeats now =>
      let '(r, w') := createBooking writeOk date mobile selectedSeats now w in
      (w', if success r then bookingId <$> resultBooking r else None)
  | Save writeOk booking => ((saveBooking writeOk booking w).2, None)
  | Delete writeOk bookingId => ((deleteBooking writeOk bookingId w).2, None)
  end.

Fixpoint run (ops : list Op) (w : World) : World * list string :=
  match ops with
  | [] => (w, [])
  | op :: ops' =>
      let '(w1, created) := step op w in
      let '(w2, ids) := run ops' w1 in
      (w2, from_option (λ id, [id]) [] created ++ ids)
  end.

(** Whether the module works on [localStorage] (or on the in-memory
    fallback). *)
Definition usesLocalStorage (w : World) : bool := (isLocalStorageAvailable w).1.

(** The store after [saveBooking] has updated it in memory, for the value
    [existingIndex] of the search. *)
Definition upserted (data : Store) (booking : Booking) (existingIndex : option nat)
  : Store :=
  match existingIndex with
  | Some i =>
      {| bookings := <[i := booking_to_json booking]> (bookings data);
         lastBookingNumber := lastBookingNumber data |}
  | None =>
      {| bookings := bookings data ++ [booking_to_json booking];
         lastBookingNumber :=
           match bookingNumberOf (bookingId booking) with
           | Some n =>
               if lastBookingNumber data <? n then n else lastBookingNumber data
           | None => lastBookingNumber data
           end |}
  end.

(** The counter of the store as the next read sees it. *)
Definition lastSequenceNumber (w : World) : Z :=
  lastBookingNumber (currentStore w).

(** No stored booking carries a number above the counter. *)
Definition suffixes_bounded (data : Store) : Prop :=
  ∀ b id k, b ∈ bookings data → get b "bookingId" = Some (JStr id) →
            bookingNumberOf id = Some k → k <= lastBookingNumber data.

Definition store_ok (data : Store) : Prop :=
  0 <= lastBookingNumber data ∧ suffixes_bounded data.

(** A parsed value of the wrong shape: not an object, or its [bookings]
    is not an array, or its [lastBookingNumber] is not a number. *)
Definition malformed (parsed : json) : Prop :=
  (∀ ms, parsed ≠ JObj ms)
  ∨ (∀ bs, get parsed "bookings" ≠ Some (JArr bs))
  ∨ (∀ n, get parsed "lastBookingNumber" ≠ Some (JNum n)).

Definition freshWorld (works : bool) : World :=
  {| _localStorageAvailable := None;
     localStorageWorks := works;
     busBookings := None;
     _inMemoryStore := emptyStore;
     console := [] |}.

End Storage.

(** ** More of the host language *)

Module JsText.

Fixpoint take_chars (n : nat) (s : string) : string :=
  match n, s with
  | O, _ => ""
  | S n', String c r => String c (take_chars n' r)
  | S _, "" => ""
  end.

(** [s.slice(from, to)] for [0 <= from <= to]. *)
Definition slice (from to : nat) (s : string) : string :=
  take_chars (to - from) (Js.drop_chars from s).

(** [s.slice(from)] for [0 <= from]. *)
Definition slice_from (from : nat) (s : string) : string := Js.drop_chars from s.

(** [toLowerCase] of one 8-bit code unit: A-Z and the capital letters of
    Latin-1 move up by 32. *)
Definition toLowerChar (c : ascii) : ascii :=
  let n := N_of_ascii c in
  if (((65 <=? n) && (n <=? 90))
      || ((192 <=? n) && (n <=? 222) && negb (n =? 215)))%N
  then ascii_of_N (n + 32) else c.

Fixpoint toLowerCase (s : string) : string :=
  match s with
  | "" => ""
  | String c r => String (toLowerChar c) (toLowerCase r)
  end.

Fixpoint trimEnd (s : string) : string :=
  match s with
  | "" => ""
  | String c r =>
      match trimEnd r with
      | "" => if Js.is_space c then "" else String c ""
      | r' => String c r'
      end
  end.

(** [s.trim()] *)
Definition trim (s : string) : string := trimEnd (Js.drop_spaces s).

(** [s.includes(pat)] for strings: [pat] occurs somewhere in [s]. *)
Fixpoint includes (pat s : string) : bool :=
  Js.starts_with pat s
  || match s with
     | "" => false
     | String _ r => includes pat r
     end.

(** The comparison of [xs.sort()] without a comparator: by code units. *)
Definition defaultCompare (a b : string) : Z :=
  match String.compare a b with
  | Lt => -1
  | Eq => 0
  | Gt => 1
  end.

(** [Math.round(x)]: the nearest integer, a half rounded up. *)
Definition round (x : Js.number) : Js.number :=
  match x with
  | Js.Fin q => Js.Fin (inject_Z (Qfloor (Qplus q (Qmake 1 2))))
  | other => other
  end.

End JsText.

(** ** Display helpers ([utils/validation.js]) and form handlers *)

Module Formatting.

Definition formatMobileNumber (mobileNumber : string) : string :=
  if bool_decide (mobileNumber = "")
     || negb (bool_decide (String.length mobileNumber = 10%nat))
  then mobileNumber
  else JsText.slice 0 3 mobileNumber +:+ "-" +:+
       JsText.slice 3 6 mobileNumber +:+ "-" +:+
       JsText.slice_from 6 mobileNumber.

Definition parseMobileNumber (formattedNumber : string) : string :=
  match formattedNumber with
  | "" => ""
  | _ => Js.remove_chars (λ c, Js.is_space c || Js.is_dash c) formattedNumber
  end.

Definition formatSeatsForDisplay (seats : list string) : string :=
  match seats with
  | [] => ""
  | _ => Js.join ", " (Js.sort JsText.defaultCompare seats)
  end.

(** [handleMobileChange] of the booking form: the value it stores in the
    form's [mobileNumber]. *)
Definition handleMobileChange (value : string) : string :=
  let numericValue := Js.remove_chars (λ c, negb (Js.is_digit c)) value in
  let truncatedValue := JsText.slice 0 10 numericValue in
  truncatedValue.

(** The state update of [handleSeatSelect] of the booking context: the
    new selection, and the error it reports at the limit. *)
Definition handleSeatSelect (seat : string) (prevSeats : list string)
  : list string * option string :=
  if Js.includes prevSeats seat then
    (filter (λ s, s ≠ seat) prevSeats, None)
  else if 6 <=? Z.of_nat (length prevSeats) then
    (prevSeats, Some "Maximum 6 seats allowed per booking")
  else (prevSeats ++ [seat], None).

End Formatting.

(** ** Views of the day's bookings ([utils/boardingAlgorithm.js]) *)

Module BoardingQueries.

(** What the table functions read of an element: the fields of a booking
    and, where the element has one, its [sequenceNumber]. *)
Class BookingLike (A : Type) := {
  bookingOf : A -> Booking;
  sequenceNumberOf : A -> option Z;
}.

#[global] Instance plain_booking : BookingLike Booking :=
  {| bookingOf := λ b, b; sequenceNumberOf := λ _, None |}.

#[global] Instance sequenced_booking : BookingLike Boarding.SequencedBooking :=
  {| bookingOf := λ s, Boarding.booking (Boarding.withMetadata s);
     sequenceNumberOf := λ s, Some (Boarding.sequenceNumber s) |}.

(** [x || 0] for a number or [undefined]. *)
Definition orZero (x : option Z) : Z :=
  match x with
  | Some n => n
  | None => 0
  end.

Section Queries.
Context {collation : Js.Collation} {A : Type} `{BookingLike A}.

(** The case ['seats']: the first seats of the two sorted seat lists.
    [undefined?.localeCompare(..)] is [undefined], and [|| 0] makes it 0;
    [x.localeCompare(undefined)] compares with the text "undefined". *)
Definition firstSeatComparison (a b : Booking) : Z :=
  let aSeats := Js.sort JsText.defaultCompare (seats a) in
  let bSeats := Js.sort JsText.defaultCompare (seats b) in
  match head aSeats with
  | None => 0
  | Some x => Js.localeCompare x (default "undefined" (head bSeats))
  end.

(** The [switch] on the column. *)
Definition columnComparison (column : string) (a b : A) : Z :=
  if bool_decide (column = "sequence") then
    orZero (sequenceNumberOf a) - orZero (sequenceNumberOf b)
  else if bool_decide (column = "bookingId") then
    Js.localeCompare (bookingId (bookingOf a)) (bookingId (bookingOf b))
  else if bool_decide (column = "seats") then
    firstSeatComparison (bookingOf a) (bookingOf b)
  else if bool_decide (column = "mobile") then
    Js.localeCompare (mobileNumber (bookingOf a)) (mobileNumber (bookingOf b))
  else 0.

Definition sortBookingsByColumn (bookings : list A) (column direction : string)
  : list A :=
  match bookings with
  | [] => []
  | _ =>
      Js.sort (λ a b, let comparison := columnComparison column a b in
                      if bool_decide (direction = "desc") then - comparison
                      else comparison)
              bookings
  end.

Definition filterBookingsBySearch (bookings : list A) (searchTerm : string)
  : list A :=
  if bool_decide (searchTerm = "") || bool_decide (JsText.trim searchTerm = "")
  then bookings
  else
    let lowerSearchTerm := JsText.trim (JsText.toLowerCase searchTerm) in
    filter (λ b, Is_true
                   (JsText.includes lowerSearchTerm
                      (JsText.toLowerCase (bookingId (bookingOf b)))
                    || JsText.includes lowerSearchTerm
                         (mobileNumber (bookingOf b))))
           bookings.

Definition areAllPassengersBoarded (bookings : list A) : bool :=
  match bookings with
  | [] => true
  | _ => forallb (λ b, bool_decide (boardingStatus (bookingOf b) = "boarded"))
                 bookings
  end.

(** [a.sequenceNumber - b.sequenceNumber]; with an [undefined] operand the
    difference is [NaN], which [sort] takes as 0. *)
Definition sequenceDifference (a b : A) : Z :=
  match sequenceNumberOf a, sequenceNumberOf b with
  | Some x, Some y => x - y
  | _, _ => 0
  end.

Definition getNextPassengerToBoard (bookings : list A) : option A :=
  match bookings with
  | [] => None
  | _ =>
      let sortedBySequence := Js.sort sequenceDifference bookings in
      head (filter (λ b, boardingStatus (bookingOf b) ≠ "boarded") sortedBySequence)
  end.

End Queries.

Record BoardingStatistics := mkStatistics {
  totalBookings : Z;
  totalPassengers : Z;
  boardedPassengers : Z;
  notBoardedPassengers : Z;
  boardingProgress : Js.number;
}.

(** [bookings.reduce((sum, booking) => sum + booking.seats.length, 0)] *)
Definition passengers (bookings : list Booking) : Z :=
  foldl (λ sum booking, sum + Z.of_nat (length (seats booking))) 0 bookings.

Definition calculateBoardingStatistics (bookings : list Booking)
  : BoardingStatistics :=
  match bookings with
  | [] => {| totalBookings := 0;
             totalPassengers := 0;
             boardedPassengers := 0;
             notBoardedPassengers := 0;
             boardingProgress := Js.Fin (inject_Z 0) |}
  | _ =>
      let totalBookings := Z.of_nat (length bookings) in
      let totalPassengers := passengers bookings in
      let boardedBookings :=
        filter (λ b, boardingStatus b = "boarded") bookings in
      let boardedPassengers := passengers boardedBookings in
      let notBoardedPassengers := totalPassengers - boardedPassengers in
      let boardingProgress :=
        if 0 <? totalPassengers
        then Js.mul (Js.div boardedPassengers totalPassengers) 100
        else Js.Fin (inject_Z 0) in
      {| totalBookings := totalBookings;
         totalPassengers := totalPassengers;
         boardedPassengers := boardedPassengers;
         notBoardedPassengers := notBoardedPassengers;
         boardingProgress := JsText.round boardingProgress |}
  end.

End BoardingQueries.

(** ** Reading and changing the repository ([utils/localStorage.js]) *)

Module StorageQueries.
Import Storage.

(** [b.k === s] for a string [s] and an element [b] that is not [null]. *)
Definition has_string (k : string) (b : json) (s : string) : bool :=
  match get b k with
  | Some (JStr x) => bool_decide (x = s)
  | _ => false
  end.

(** [bs.filter(p)] for a callback that reads properties of its argument:
    [None] is the [TypeError] at an element that is [null]. *)
Fixpoint filter_elements (p : json -> bool) (bs : list json) : option (list json) :=
  match bs with
  | [] => Some []
  | JNull :: _ => None
  | b :: bs' =>
      match filter_elements p bs' with
      | None => None
      | Some r => Some (if p b then b :: r else r)
      end
  end.

(** [b.bookingId !== excludeBookingId]; [None] is the default [null]. *)
Definition not_excluded (excludeBookingId : option string) (b : json) : bool :=
  match excludeBookingId with
  | None => match get b "bookingId" with Some JNull => false | _ => true end
  | Some id => negb (has_string "bookingId" b id)
  end.

Definition getBookingsByDate (date : string) (w : World) : list json * World :=
  let '(data, w) := getBookingsFromStorage w in
  match filter_elements (λ booking, has_string "travelDate" booking date)
          (bookings data) with
  | Some found => (found, w)
  | None => ([], log (Error "Error getting bookings by date:") w)
  end.

(** The guard [!data || !Array.isArray(data.bookings)] never holds for
    what [getBookingsFromStorage] returns. *)
Definition getBookingsByMobileAndDate (mobileNumber date : string)
    (excludeBookingId : option string) (w : World) : list json * World :=
  let '(data, w) := getBookingsFromStorage w in
  match filter_elements
          (λ booking, has_string "mobileNumber" booking mobileNumber
                      && has_string "travelDate" booking date
                      && not_excluded excludeBookingId booking)
          (bookings data) with
  | Some found => (found, w)
  | None => ([], log (Error "Error getting bookings by mobile and date:") w)
  end.

(** The values [flatMap((booking) => booking.seats)] adds for one booking:
    the items of an array, or the one value itself; [None] is
    [undefined]. *)
Definition seats_items (booking : json) : list (option json) :=
  match get booking "seats" with
  | Some (JArr items) => Some <$> items
  | other => [other]
  end.

Definition getBookedSeatsByDate (date : string) (excludeBookingId : option string)
    (w : World) : list (option json) * World :=
  let '(bookings, w) := getBookingsByDate date w in
  match filter_elements (not_excluded excludeBookingId) bookings with
  | Some others => (others ≫= seats_items, w)
  | None => ([], log (Error "Error getting booked seats:") w)
  end.

(** A number, [NaN] or a text: the values the sum of the seat counts can
    take. *)
Inductive Total :=
| Count (n : Z)
| NotANumber
| Text (s : string).

(** [String(v)] *)
Fixpoint toText (v : json) : string :=
  match v with
  | JNull => "null"
  | JBool true => "true"
  | JBool false => "false"
  | JNum n => Js.Z_to_string n
  | JStr s => s
  | JArr items =>
      String.concat ","
        ((λ item, match item with JNull => "" | _ => toText item end) <$> items)
  | JObj _ => "[object Object]"
  end.

Definition totalText (total : Total) : string :=
  match total with
  | Count n => Js.Z_to_string n
  | NotANumber => "NaN"
  | Text s => s
  end.

(** [total + v]; [None] is [undefined]. *)
Definition plus (total : Total) (v : option json) : Total :=
  match total, v with
  | Text s, None => Text (s +:+ "undefined")
  | Text s, Some x => Text (s +:+ toText x)
  | _, Some (JStr _ as x) | _, Some (JArr _ as x) | _, Some (JObj _ as x) =>
      Text (totalText total +:+ toText x)
  | Count n, Some (JNum m) => Count (n + m)
  | Count n, Some JNull => Count n
  | Count n, Some (JBool b) => Count (n + (if b then 1 else 0))
  | Count _, None => NotANumber
  | NotANumber, _ => NotANumber
  end.

(** [booking.seats.length]; the outer [None] is the [TypeError] of
    reading [length] of [undefined] or [null], the inner one is
    [undefined]. *)
Definition seats_length (booking : json) : option (option json) :=
  match get booking "seats" with
  | None | Some JNull => None
  | Some (JArr items) => Some (Some (JNum (Z.of_nat (length items))))
  | Some (JStr s) => Some (Some (JNum (Z.of_nat (String.length s))))
  | Some (JObj members) => Some (assoc "length" members)
  | Some (JNum _) | Some (JBool _) => Some None
  end.

(** [bookings.reduce((total, booking) => total + booking.seats.length, 0)] *)
Fixpoint sum_seats (total : Total) (bookings : list json) : option Total :=
  match bookings with
  | [] => Some total
  | booking :: rest =>
      match seats_length booking with
      | None => None
      | Some n => sum_seats (plus total n) rest
      end
  end.

Definition getSeatsCountByMobileAndDate (mobileNumber date : string)
    (excludeBookingId : option string) (w : World) : Total * World :=
  let '(bookings, w) :=
    getBookingsByMobileAndDate mobileNumber date excludeBookingId w in
  match sum_seats (Count 0) bookings with
  | Some total => (total, w)
  | None => (Count 0, log (Error "Error getting seats count:") w)
  end.

(** [o.k = v] on an object: the member is replaced where it is, or added
    at the end. *)
Fixpoint set_member (k : string) (v : json) (members : list (string * json))
  : list (string * json) :=
  match members with
  | [] => [(k, v)]
  | (k', v') :: rest =>
      if bool_decide (k' = k) then (k, v) :: rest
      else (k', v') :: set_member k v rest
  end.

Definition set_property (k : string) (v : json) (o : json) : json :=
  match o with
  | JObj members => JObj (set_member k v members)
  | other => other
  end.

Record UpdateResult := mkUpdateResult {
  updated : bool;
  updateMessage : string;
  updatedBooking : option json;
}.

(** The booking found is an element of [data.bookings]; assigning to its
    [boardingStatus] changes that element in place. *)
Definition updateBoardingStatus (writeOk : bool) (bookingId status : string)
    (w : World) : UpdateResult * World :=
  let '(data, w) := getBookingsFromStorage w in
  match findIndex_bookingId (bookings data) bookingId with
  | None =>
      ({| updated := false;
          updateMessage := "Unable to update status. Please try again.";
          updatedBooking := None |},
       log (Error "Error updating boarding status:") w)
  | Some None =>
      ({| updated := false;
          updateMessage := "Booking not found.";
          updatedBooking := None |}, w)
  | Some (Some i) =>
      let booking :=
        set_property "boardingStatus" (JStr status)
          (default JNull (bookings data !! i)) in
      let data := {| bookings := <[i := booking]> (bookings data);
                     lastBookingNumber := lastBookingNumber data |} in
      let '(ok, w) := saveBookingsToStorage writeOk data w in
      ({| updated := ok;
          updateMessage := if ok then "Boarding status updated!"
                           else "Unable to update status.";
          updatedBooking := Some booking |}, w)
  end.

(** [removeOk] tells whether the host accepts this
    [localStorage.removeItem]; the function does not look at the cached
    probe and does not touch the in-memory store. *)
Definition clearAllBookings (removeOk : bool) (w : World) : bool * World :=
  if removeOk then (true, set_item None w)
  else (false, log (Error "Error clearing bookings:") w).

(** [handleToggleBoardingStatus] of the booking context: the other one of
    the two statuses is stored. What the handler then does to the page
    (reloading the bookings, or showing the message) is left out. *)
Definition handleToggleBoardingStatus (writeOk : bool)
    (bookingId currentStatus : string) (w : World) : UpdateResult * World :=
  let newStatus :=
    if bool_decide (currentStatus = "boarded") then "not_boarded" else "boarded" in
  updateBoardingStatus writeOk bookingId newStatus w.

(** [handleCreateBooking] of the booking context while a booking is
    edited: the identifier, the booking time and the boarding status of
    that booking are kept, then [saveBooking]. *)
Definition updateBooking (writeOk : bool) (editingBooking : Booking)
    (date mobile : string) (selectedSeats : list string) (w : World)
  : SaveResult * World :=
  saveBooking writeOk
    {| travelDate := date;
       mobileNumber := mobile;
       seats := selectedSeats;
       bookingId := bookingId editingBooking;
       bookingTime := bookingTime editingBooking;
       boardingStatus := boardingStatus editingBooking |} w.

(** The store holds exactly these bookings, as booking objects. *)
Definition holds (data : Store) (stored : list Booking) : Prop :=
  bookings data = booking_to_json <$> stored.

(** The booking with another boarding status. *)
Definition with_status (status : string) (b : Booking) : Booking :=
  {| travelDate := travelDate b;
     mobileNumber := mobileNumber b;
     seats := seats b;
     bookingId := bookingId b;
     bookingTime := bookingTime b;
     boardingStatus := status |}.

End StorageQueries.

(** ** The seat map ([components/SeatMap/SeatMap.jsx]) *)

Module SeatMap.

Definition SEAT_ROWS : Z := 15.
Definition SEAT_COLUMNS : list string := ["A"; "B"; "C"; "D"].
Definition TOTAL_SEATS : Z := SEAT_ROWS * Z.of_nat (length SEAT_COLUMNS).

(** The template literal that names the seat of column [col] in [row]. *)
Definition seatId (col : nat) (row : Z) : string :=
  default "undefined" (SEAT_COLUMNS !! col) +:+ Js.Z_to_string row.

(** The seat identifiers of one row in the order in which they are
    rendered: the two left of the aisle, then the others. *)
Definition rowSeatIds (row : Z) : list string :=
  ((λ col, seatId col row) <$> seq 0 2)
  ++ ((λ col, seatId col row) <$> seq 2 (length SEAT_COLUMNS - 2)).

(** [generateSeatRows], as the identifiers of the seats it renders, row
    by row from 1 to [SEAT_ROWS]. *)
Definition generateSeatRows : list (list string) :=
  rowSeatIds <$> (Z.of_nat <$> seq 1 (Z.to_nat SEAT_ROWS)).

End SeatMap.

(** ** Sample data *)

Module Samples.

(** A clock for which no date lies in the past. *)
Definition anyDay : string -> bool := λ _, false.

(** A new booking with a mobile number of five digits that selects seat A5. *)
Definition shortMobileSeatA5 : Validation.FormData :=
  {| Validation.mobileNumber := "12345";
     Validation.travelDate := "2030-01-01";
     Validation.seats := ["A5"];
     Validation.bookingId := None;
     Validation.currentSeats := None |}.

(** A new booking with a well-formed mobile number, typed with a space,
    and no seat selected. *)
Definition spacedMobileNoSeat : Validation.FormData :=
  {| Validation.mobileNumber := "98765 43210";
     Validation.travelDate := "2030-01-01";
     Validation.seats := [];
     Validation.bookingId := None;
     Validation.currentSeats := None |}.

(** A new booking that selects seat A5. *)
Definition newSeatA5 : Validation.FormData :=
  {| Validation.mobileNumber := "9876543210";
     Validation.travelDate := "2030-01-01";
     Validation.seats := ["A5"];
     Validation.bookingId := None;
     Validation.currentSeats := None |}.

(** The booking that owns seat A5, edited and selecting A5 again. *)
Definition editOwnSeatA5 : Validation.FormData :=
  {| Validation.mobileNumber := "9876543210";
     Validation.travelDate := "2030-01-01";
     Validation.seats := ["A5"];
     Validation.bookingId := Some "BK-20300101-000001";
     Validation.currentSeats := Some ["A5"] |}.

Definition aBooking (id : string) (seats : list string) : Booking :=
  {| travelDate := "2030-01-01";
     mobileNumber := "9876543210";
     seats := seats;
     bookingId := id;
     bookingTime := "2029-12-31T10:00:00.000Z";
     boardingStatus := "not_boarded" |}.

(** Farthest rows 3, 10 (one seat there), 10 (two seats there) and 15. *)
Definition fourBookings : list Booking :=
  [aBooking "BK-20300101-000001" ["A3"; "B2"];
   aBooking "BK-20300101-000002" ["A10"; "B9"];
   aBooking "BK-20300101-000003" ["C10"; "D10"];
   aBooking "BK-20300101-000004" ["D15"]].

Definition fiveBookings : list Booking :=
  fourBookings ++ [aBooking "BK-20300101-000005" ["A1"]].

(** A host with a working [localStorage] that holds an object whose
    [bookings] is a string. *)
Definition corruptWorld : Storage.World :=
  {| Storage._localStorageAvailable := None;
     Storage.localStorageWorks := true;
     Storage.busBookings :=
       Some (Storage.JsonText
               (Storage.JObj [("bookings", Storage.JStr "none");
                              ("lastBookingNumber", Storage.JNum 3)]));
     Storage._inMemoryStore := Storage.emptyStore;
     Storage.console := [] |}.


(** A host with a working [localStorage] that holds the four bookings of
    the sample day. *)
Definition dayWorld : Storage.World :=
  {| Storage._localStorageAvailable := None;
     Storage.localStorageWorks := true;
     Storage.busBookings :=
       Some (Storage.JsonText
               (Storage.store_to_json
                  {| Storage.bookings := Storage.booking_to_json <$> fourBookings;
                     Storage.lastBookingNumber := 4 |}));
     Storage._inMemoryStore := Storage.emptyStore;
     Storage.console := [] |}.

(** The second booking of the sample day, edited: seat B9 is given up
    for A11 and the mobile number is another one. *)
Definition editSecondBooking : Validation.FormData :=
  {| Validation.mobileNumber := "9123456780";
     Validation.travelDate := "2030-01-01";
     Validation.seats := ["A10"; "A11"];
     Validation.bookingId := Some "BK-20300101-000002";
     Validation.currentSeats := Some ["A10"; "B9"] |}.

(** A collation that compares code units. *)
Definition byCodeUnits : Js.Collation := JsText.defaultCompare.






(** Seat A5 is held by one booking on 2 January and by another one on
    1 January. *)
Definition twoDays : list Booking :=
  [{| travelDate := "2030-01-02";
      mobileNumber := "9123456780";
      seats := ["A5"];
      bookingId := "BK-20300102-000001";
      bookingTime := "2029-12-31T09:00:00.000Z";
      boardingStatus := "not_boarded" |};
   aBooking "BK-20300101-000002" ["A5"]].

Definition twoDaysWorld : Storage.World :=
  {| Storage._localStorageAvailable := None;
     Storage.localStorageWorks := true;
     Storage.busBookings :=
       Some (Storage.JsonText
               (Storage.store_to_json
                  {| Storage.bookings := Storage.booking_to_json <$> twoDays;
                     Storage.lastBookingNumber := 2 |}));
     Storage._inMemoryStore := Storage.emptyStore;
     Storage.console := [] |}.

(** The booking of 1 January, edited: it is moved to 2 January and keeps
    seat A5. *)
Definition movedToSecondDay : Validation.FormData :=
  {| Validation.mobileNumber := "9876543210";
     Validation.travelDate := "2030-01-02";
     Validation.seats := ["A5"];
     Validation.bookingId := Some "BK-20300101-000002";
     Validation.currentSeats := Some ["A5"] |}.

(** A new booking of two free seats for another mobile number. *)
Definition newSeatsA7B7 : Validation.FormData :=
  {| Validation.mobileNumber := "9123456780";
     Validation.travelDate := "2030-01-01";
     Validation.seats := ["A7"; "B7"];
     Validation.bookingId := None;
     Validation.currentSeats := None |}.

End Samples.

(** * Properties *)

(** ** Sorting with a consistent comparator *)

Section SortFacts.
Context {A : Type} (cmp : A -> A -> Z).

#[local] Notation "'no_later'" := (Js.no_later cmp).

Hypothesis cmp_total : forall a b, no_later a b \/ no_later b a.
Hypothesis cmp_trans : forall a b c, no_later a b -> no_later b c -> no_later a c.

Lemma sort_insert_perm x l : Js.sort_insert cmp x l ≡ₚ x :: l.
Proof.
  induction l as [|y l IH]; simpl; [done|].
  destruct (cmp x y <=? 0); [done|].
  rewrite IH. apply Permutation_swap.
Qed.

Lemma sort_perm l : Js.sort cmp l ≡ₚ l.
Proof.
  induction l as [|x l IH]; simpl; [done|].
  fold (Js.sort cmp l). by rewrite sort_insert_perm, IH.
Qed.

Lemma sort_insert_sorted x l :
  StronglySorted no_later l -> StronglySorted no_later (Js.sort_insert cmp x l).
Proof.
  induction 1 as [|y l Hl IH Hy]; simpl.
  - repeat constructor.
  - destruct (cmp x y <=? 0) eqn:E.
    + apply Z.leb_le in E. constructor; [by constructor|].
      constructor; [exact E|].
      eapply Forall_impl; [exact Hy|]. intros z Hz. by eapply cmp_trans.
    + apply Z.leb_gt in E. constructor; [exact IH|].
      rewrite sort_insert_perm. constructor; [|exact Hy].
      destruct (cmp_total x y) as [Hxy|Hyx]; [unfold Js.no_later in Hxy; lia|done].
Qed.

Lemma sort_sorted l : StronglySorted no_later (Js.sort cmp l).
Proof.
  induction l as [|x l IH]; simpl; [constructor|].
  by apply sort_insert_sorted.
Qed.

End SortFacts.

(** ** The time model *)

Section TimeModel.
Import Boarding.

Lemma nearest_integer_ratio (a : Z) (p : positive) :
  Js.nearest_integer (Qmult (Qdiv (inject_Z a) (inject_Z (Z.pos p))) (inject_Z 100))
  = (2 * (100 * a) + Z.pos p) / (2 * Z.pos p).
Proof.
  unfold Js.nearest_integer, Qdiv, Qinv, Qmult, Qplus, inject_Z, Qfloor; simpl.
  f_equal; lia.
Qed.

Lemma Z_div_rounds_to num den :
  0 < den → rounds_to num den ((2 * num + den) / (2 * den)).
Proof.
  intros Hden. unfold rounds_to.
  pose proof (Z.mul_div_le (2 * num + den) (2 * den) ltac:(lia)).
  pose proof (Z.mul_succ_div_gt (2 * num + den) (2 * den) ltac:(lia)).
  lia.
Qed.

(** The percentage of a non-negative saving out of a positive time. *)
Lemma savingsPercentage_rounds natural optimal :
  0 < natural → optimal <= natural →
  ∃ r, savingsPercentage (calculateTimeSavings natural optimal) = Js.Z_to_string r
       ∧ rounds_to (100 * (natural - optimal)) natural r.
Proof.
  intros Hn Ho. unfold calculateTimeSavings; simpl.
  unfold Js.div. destruct (Z.eqb_spec natural 0) as [->|_]; [lia|].
  destruct natural as [|p|p]; try lia. simpl Js.mul.
  exists ((2 * (100 * (Z.pos p - optimal)) + Z.pos p) / (2 * Z.pos p)).
  split; [|by apply Z_div_rounds_to].
  unfold Js.toFixed0. rewrite nearest_integer_ratio.
  replace (Qnum _ <? 0) with false; [done|].
  symmetry. apply Z.ltb_ge. simpl. lia.
Qed.

(** C2. For n >= 1 bookings the natural-order time is n * 60, the optimal
    time is 60, the saving is n * 60 - 60 and the percentage is the saving
    over the natural-order time, times 100, rounded to the nearest
    integer; for n = 5 these are 300, 60, 240 and 80. *)
Theorem time_model_of_nonempty_day {A} (bookings : list A) :
  let n := Z.of_nat (length bookings) in
  1 <= n →
  let natural := calculateNaturalOrderTime bookings in
  let optimal := optimalTimeSeconds (calculateBoardingTime bookings) in
  let savings := calculateTimeSavings natural optimal in
  natural = n * 60
  ∧ optimal = 60
  ∧ savingsSeconds savings = n * 60 - 60
  ∧ (∃ r, savingsPercentage savings = Js.Z_to_string r
          ∧ rounds_to (100 * (n * 60 - 60)) (n * 60) r)
  ∧ (n = 5 → natural = 300 ∧ optimal = 60 ∧ savingsSeconds savings = 240
             ∧ savingsPercentage savings = "80").
Proof.
  intros n Hn natural optimal savings.
  assert (Hnat : natural = n * 60) by (subst natural n; by destruct bookings).
  assert (Hopt : optimal = 60) by (subst optimal n; destruct bookings; [simpl in Hn; lia|done]).
  subst savings. rewrite Hnat, Hopt. split_and!; try done.
  - apply savingsPercentage_rounds; lia.
  - intros ->. done.
Qed.

(** An instance of C2: a day with five bookings. *)
Lemma time_model_witness :
  1 <= Z.of_nat (length Samples.fiveBookings)
  ∧ calculateNaturalOrderTime Samples.fiveBookings = 300
  ∧ optimalTimeSeconds (calculateBoardingTime Samples.fiveBookings) = 60
  ∧ savingsSeconds (calculateTimeSavings 300 60) = 240
  ∧ savingsPercentage (calculateTimeSavings 300 60) = "80".
Proof.
  assert (Hn : 1 <= Z.of_nat (length Samples.fiveBookings)) by (simpl; lia).
  split; [exact Hn|].
  destruct (time_model_of_nonempty_day Samples.fiveBookings Hn)
    as (_ & _ & _ & _ & Hfive).
  apply Hfive. reflexivity.
Defined.

(** C10. For the empty list both times are 0 and the saving is 0, but the
    percentage is computed as 0 / 0: the quotient is NaN and the
    percentage comes out as the text "NaN", not as "0". *)
Theorem time_savings_of_empty_day :
  calculateNaturalOrderTime (@nil Booking) = 0
  ∧ optimalTimeSeconds (calculateBoardingTime (@nil Booking)) = 0
  ∧ savingsSeconds (calculateTimeSavings 0 0) = 0
  ∧ Js.mul (Js.div 0 0) 100 = Js.NaN
  ∧ savingsPercentage (calculateTimeSavings 0 0) = "NaN"
  ∧ savingsPercentage (calculateTimeSavings 0 0) ≠ "0".
Proof. split_and!; done. Qed.

End TimeModel.

(** ** Strings of the host language *)

Section Strings.

Lemma append_cons c s t : String c s +:+ t = String c (s +:+ t).
Proof. reflexivity. Qed.

Lemma append_nil_l t : "" +:+ t = t.
Proof. reflexivity. Qed.

Lemma append_assoc s t u : (s +:+ t) +:+ u = s +:+ (t +:+ u).
Proof. induction s as [|c s IH]; [done|]. by rewrite !append_cons, IH. Qed.

Lemma all_chars_app p s t :
  Js.all_chars p (s +:+ t) = Js.all_chars p s && Js.all_chars p t.
Proof.
  induction s as [|c s IH]; [done|].
  rewrite append_cons. simpl. rewrite IH. by rewrite andb_assoc.
Qed.

Lemma all_chars_weaken (p q : ascii → bool) s :
  (∀ c, p c = true → q c = true) → Js.all_chars p s = true → Js.all_chars q s = true.
Proof.
  intros Hpq. induction s as [|c s IH]; [done|]. simpl.
  intros [Hc Hs]%andb_prop. rewrite (Hpq _ Hc). simpl. by apply IH.
Qed.

Lemma starts_with_app pat post : Js.starts_with pat (pat +:+ post) = true.
Proof.
  induction pat as [|c pat IH]; [done|].
  rewrite append_cons. simpl. by rewrite Ascii.eqb_refl, IH.
Qed.

Lemma drop_chars_app pat post : Js.drop_chars (String.length pat) (pat +:+ post) = post.
Proof. induction pat as [|c pat IH]; [done|]. rewrite append_cons. simpl. exact IH. Qed.

Lemma replace_first_eq pat by_ s :
  Js.replace_first pat by_ s =
  if Js.starts_with pat s then by_ +:+ Js.drop_chars (String.length pat) s
  else match s with
       | "" => ""
       | String c r => String c (Js.replace_first pat by_ r)
       end.
Proof. by destruct s. Qed.

(** The first occurrence of a pattern is the one after a prefix that does
    not hold the first character of the pattern. *)
Lemma replace_first_after h pat by_ pre post :
  Js.all_chars (λ c, negb (Ascii.eqb h c)) pre = true →
  Js.replace_first (String h pat) by_ (pre +:+ String h pat +:+ post)
  = pre +:+ by_ +:+ post.
Proof.
  induction pre as [|c pre IH]; intros Hpre.
  - rewrite !append_nil_l, replace_first_eq.
    by rewrite starts_with_app, drop_chars_app.
  - simpl in Hpre. apply andb_prop in Hpre as [Hc Hpre].
    rewrite !(append_cons c pre), replace_first_eq.
    cbn [Js.starts_with]. apply negb_true_iff in Hc. rewrite Hc. cbn [andb].
    by rewrite IH.
Qed.

Lemma string_of_uint_digits d : Js.all_chars Js.is_digit (NilEmpty.string_of_uint d) = true.
Proof. induction d; simpl; by rewrite ?IHd. Qed.

(** The decimal text of an integer holds digits and at most a sign. *)
Lemma Z_to_string_chars z :
  Js.all_chars (λ c, Js.is_digit c || Js.is_dash c) (Js.Z_to_string z) = true.
Proof.
  unfold Js.Z_to_string.
  destruct (Z.to_int z) as [d|d]; simpl;
    (eapply all_chars_weaken; [|apply string_of_uint_digits]);
    intros c ->; done.
Qed.

Lemma Z_to_string_no_brace z :
  Js.all_chars (λ c, negb (Ascii.eqb "{" c)) (Js.Z_to_string z) = true.
Proof.
  eapply all_chars_weaken; [|apply Z_to_string_chars].
  intros c Hc. apply negb_true_iff, Ascii.eqb_neq. intros <-. done.
Qed.

Lemma take_digits_all s : Js.all_chars Js.is_digit s = true → Js.take_digits s = s.
Proof.
  induction s as [|c s IH]; [done|]. simpl.
  intros [Hc Hs]%andb_prop. rewrite Hc. by rewrite IH.
Qed.

(** [parseInt] of a non-empty string of digits is its decimal value. *)
Lemma parseInt_digits c s :
  Js.all_chars Js.is_digit (String c s) = true →
  Js.parseInt (String c s) = Some (Js.double (Js.digits_value (String c s))).
Proof.
  simpl. intros [Hc Hs]%andb_prop.
  destruct c as [[] [] [] [] [] [] [] []]; try discriminate Hc;
    unfold Js.parseInt; simpl; by rewrite (take_digits_all _ Hs).
Qed.

Lemma zeros_cons k :
  String.concat "" (replicate (S k) "0") = String "0" (String.concat "" (replicate k "0")).
Proof. by destruct k. Qed.

Lemma zeros_string_of_uint k d :
  String.concat "" (replicate k "0") +:+ NilEmpty.string_of_uint d
  = NilEmpty.string_of_uint (Nat.iter k D0 d).
Proof.
  induction k as [|k IH]; [done|].
  rewrite zeros_cons, append_cons, IH. done.
Qed.

Lemma of_uint_zeros k d : Z.of_uint (Nat.iter k D0 d) = Z.of_uint d.
Proof. induction k as [|k IH]; [done|]. simpl. exact IH. Qed.

Lemma digits_value_string_of_uint u :
  Js.digits_value (NilEmpty.string_of_uint u) = Z.of_uint u.
Proof. unfold Js.digits_value. by rewrite NilEmpty.usu. Qed.

(** A sequence number, printed and padded, reads back as itself. *)
Lemma padded_number n :
  0 <= n →
  ∃ c s, Js.padStart0 6 (Js.Z_to_string n) = String c s
         ∧ Js.all_chars Js.is_digit (String c s) = true
         ∧ Js.digits_value (String c s) = n.
Proof.
  intros Hn.
  assert (∃ d, Z.to_int n = Pos d ∧ d ≠ Nil) as (d & Hd & Hnil).
  { destruct n as [|p|p]; [by eexists|eexists; split; [done|]|lia].
    apply DecimalPos.Unsigned.to_uint_nonnil. }
  assert (Hval : Z.of_uint d = n).
  { pose proof (DecimalZ.of_to n) as H. by rewrite Hd in H. }
  unfold Js.padStart0, Js.Z_to_string. rewrite Hd. cbn [NilEmpty.string_of_int].
  rewrite zeros_string_of_uint.
  set (u := Nat.iter _ D0 d).
  assert (Hu : u ≠ Nil) by (subst u; by destruct (_ - _)%nat).
  destruct (NilEmpty.string_of_uint u) as [|c s] eqn:Hs.
  { by destruct u. }
  exists c, s. split; [done|]. rewrite <- Hs. split.
  - apply string_of_uint_digits.
  - subst u. by rewrite digits_value_string_of_uint, of_uint_zeros.
Qed.

Lemma split_dash_no_dash s :
  Js.all_chars (λ c, negb (Js.is_dash c)) s = true → Js.split_dash s = [s].
Proof.
  induction s as [|c s IH]; [done|]. simpl.
  intros [Hc Hs]%andb_prop. apply negb_true_iff in Hc. rewrite Hc.
  by rewrite (IH Hs).
Qed.

(** The segment after the last dash. *)
Lemma split_dash_last pre seq :
  Js.all_chars (λ c, negb (Js.is_dash c)) seq = true →
  ∃ h t, Js.split_dash (pre +:+ String "-" seq) = (h :: t) ++ [seq].
Proof.
  intros Hseq. induction pre as [|c pre (h & t & IH)].
  - rewrite append_nil_l. simpl. rewrite (split_dash_no_dash _ Hseq).
    by exists "", [].
  - rewrite append_cons. simpl. rewrite IH.
    destruct (Js.is_dash c).
    + by exists "", (h :: t).
    + by exists (String c h), t.
Qed.

Lemma remove_dashes_no_dash s :
  Js.all_chars (λ c, negb (Js.is_dash c)) (Js.remove_chars Js.is_dash s) = true.
Proof.
  induction s as [|c s IH]; [done|]. simpl.
  destruct (Js.is_dash c) eqn:Hc; [done|]. simpl. by rewrite Hc, IH.
Qed.

Lemma digits_no_dash s :
  Js.all_chars Js.is_digit s = true →
  Js.all_chars (λ c, negb (Js.is_dash c)) s = true.
Proof.
  apply all_chars_weaken. intros c Hc.
  destruct c as [[] [] [] [] [] [] [] []]; try discriminate Hc; done.
Qed.

End Strings.

(** ** Numbers of the host language *)

Section Numbers.

Lemma log2_small a : a < 2 ^ 53 → Z.log2 a - 52 <= 0.
Proof.
  intros Ha. destruct (Z.le_gt_cases a 0) as [Hle|Hpos].
  - rewrite (Z.log2_nonpos a Hle). lia.
  - assert (Z.log2 a < 53) by (by apply Z.log2_lt_pow2). lia.
Qed.

(** Integers up to 2^53 in magnitude are numbers as they are. *)
Lemma double_exact n : - (Js.MAX_SAFE_INTEGER + 1) <= n <= Js.MAX_SAFE_INTEGER + 1 →
  Js.double n = n.
Proof.
  unfold Js.MAX_SAFE_INTEGER. intros Hn.
  destruct (decide (n = 9007199254740992)) as [->|Hmax]; [reflexivity|].
  destruct (decide (n = - 9007199254740992)) as [->|Hmin]; [reflexivity|].
  unfold Js.double. cbv zeta.
  destruct (Z.leb_spec (Z.log2 (Z.abs n) - 52) 0) as [_|He]; [done|].
  pose proof (log2_small (Z.abs n)). lia.
Qed.

(** Rounding to a number keeps the sign. *)
Lemma double_sgn n : Z.sgn (Js.double n) = Z.sgn n.
Proof.
  unfold Js.double. cbv zeta.
  destruct (Z.leb_spec (Z.log2 (Z.abs n) - 52) 0) as [_|He]; [done|].
  assert (Ha : 0 < Z.abs n).
  { destruct (Z.le_gt_cases (Z.abs n) 0) as [Hle|]; [|done].
    rewrite (Z.log2_nonpos _ Hle) in He. lia. }
  set (a := Z.abs n) in *. set (e := Z.log2 a - 52) in *.
  assert (Hq : 0 < Z.shiftr a e).
  { rewrite Z.shiftr_div_pow2 by lia.
    apply Z.div_str_pos. split; [apply Z.pow_pos_nonneg; lia|].
    transitivity (2 ^ Z.log2 a); [|by apply Z.log2_spec].
    apply Z.pow_le_mono_r; lia. }
  match goal with |- context [Z.shiftl ?q e] => set (q' := q) end.
  assert (Hq' : 0 < q') by (subst q'; destruct (orb _ _); lia).
  assert (Hpos : 0 < Z.shiftl q' e).
  { rewrite Z.shiftl_mul_pow2 by lia.
    apply Z.mul_pos_pos; [done|apply Z.pow_pos_nonneg; lia]. }
  destruct n as [|p|p]; [subst a; simpl in Ha; lia| |].
  - change (Z.sgn (Z.pos p)) with 1. rewrite Z.mul_1_l. by apply Z.sgn_pos.
  - change (Z.sgn (Z.neg p)) with (-1). apply Z.sgn_neg. lia.
Qed.

Lemma minus_nonpos a b : Js.minus a b <= 0 ↔ a <= b.
Proof.
  unfold Js.minus. rewrite <- (Z.sgn_nonpos (Js.double _)), double_sgn, Z.sgn_nonpos.
  lia.
Qed.

Lemma minus_neg a b : Js.minus a b < 0 ↔ a < b.
Proof.
  unfold Js.minus. rewrite <- (Z.sgn_neg_iff (Js.double _)), double_sgn, Z.sgn_neg_iff.
  lia.
Qed.

(** The decimal text of a natural number is a non-empty string of digits
    that reads back as the number. *)
Lemma number_text n :
  0 <= n →
  ∃ c s, Js.Z_to_string n = String c s
         ∧ Js.all_chars Js.is_digit (String c s) = true
         ∧ Js.digits_value (String c s) = n.
Proof.
  intros Hn.
  assert (∃ d, Z.to_int n = Pos d ∧ d ≠ Nil) as (d & Hd & Hnil).
  { destruct n as [|p|p]; [by eexists|eexists; split; [done|]|lia].
    apply DecimalPos.Unsigned.to_uint_nonnil. }
  assert (Hval : Z.of_uint d = n).
  { pose proof (DecimalZ.of_to n) as H. by rewrite Hd in H. }
  unfold Js.Z_to_string. rewrite Hd. cbn [NilEmpty.string_of_int].
  destruct (NilEmpty.string_of_uint d) as [|c s] eqn:Hs.
  { by destruct d. }
  exists c, s. split; [done|]. rewrite <- Hs. split.
  - apply string_of_uint_digits.
  - by rewrite digits_value_string_of_uint.
Qed.

Lemma match_digits_after column c s :
  Js.all_chars (λ a, negb (Js.is_digit a)) column = true →
  Js.all_chars Js.is_digit (String c s) = true →
  Js.match_digits (column +:+ String c s) = Some (String c s).
Proof.
  intros Hcol Hds. induction column as [|a column IH].
  - rewrite append_nil_l. simpl in Hds |- *.
    apply andb_prop in Hds as [-> Hs]. by rewrite (take_digits_all _ Hs).
  - rewrite append_cons. simpl in Hcol |- *.
    apply andb_prop in Hcol as [Ha Hcol]. apply negb_true_iff in Ha.
    rewrite Ha. by apply IH.
Qed.

(** The code unit order as a comparator. *)
Lemma defaultCompare_le a b : Js.no_later JsText.defaultCompare a b ↔ String.le a b.
Proof.
  unfold Js.no_later, JsText.defaultCompare, String.le, String.leb.
  destruct (String.compare a b); simpl; intuition lia.
Qed.

Lemma byCodeUnits_consistent : Js.consistent Samples.byCodeUnits.
Proof.
  split.
  - intros a b. unfold Samples.byCodeUnits, JsText.defaultCompare.
    rewrite (String.compare_antisym a b). by destruct (String.compare b a).
  - intros a b c Hab Hbc. apply defaultCompare_le.
    transitivity b; by apply defaultCompare_le.
Qed.


Lemma byCodeUnits_separates a b :
  Js.localeCompare (Collation := Samples.byCodeUnits) a b = 0 → a = b.
Proof.
  unfold Js.localeCompare, Samples.byCodeUnits, JsText.defaultCompare.
  destruct (String.compare a b) eqn:E; try done. intros _.
  by apply String.compare_eq_iff.
Qed.





End Numbers.

(** ** The boarding planner *)

Section Planner.
Import Boarding.
Context {collation : Js.Collation}.

Lemma consistent_total {X} (cmp : X → X → Z) :
  Js.consistent cmp → ∀ a b, cmp a b <= 0 ∨ cmp b a <= 0.
Proof.
  intros [Hsym _] a b. destruct (Z.le_gt_cases (cmp a b) 0) as [|Hpos]; [by left|].
  right. apply Z.sgn_nonpos. rewrite Hsym, (Z.sgn_pos _ Hpos). lia.
Qed.

Lemma compareBookings_spec a b :
  Js.no_later compareBookings a b ↔ boards_no_later a b.
Proof.
  unfold Js.no_later, compareBookings, boards_no_later.
  destruct (Z.eqb_spec (farthestRow b) (farthestRow a)) as [E1|E1]; simpl;
    [|rewrite minus_nonpos; intuition lia].
  destruct (Z.eqb_spec (seatsInFarthestRow b) (seatsInFarthestRow a)) as [E2|E2];
    simpl; [|rewrite minus_nonpos; intuition lia].
  destruct (Z.eqb_spec (totalSeats b) (totalSeats a)) as [E3|E3]; simpl;
    [|rewrite minus_nonpos; intuition lia].
  intuition lia.
Qed.

Lemma boards_no_later_total a b :
  Js.consistent Js.localeCompare → boards_no_later a b ∨ boards_no_later b a.
Proof.
  intros Hc. unfold boards_no_later.
  destruct (consistent_total _ Hc (bookingId (booking a)) (bookingId (booking b)));
    destruct (Z.lt_total (farthestRow a) (farthestRow b)) as [?|[?|?]];
    destruct (Z.lt_total (seatsInFarthestRow a) (seatsInFarthestRow b)) as [?|[?|?]];
    destruct (Z.lt_total (totalSeats a) (totalSeats b)) as [?|[?|?]];
    intuition lia.
Qed.

Lemma boards_no_later_trans a b c :
  Js.consistent Js.localeCompare →
  boards_no_later a b → boards_no_later b c → boards_no_later a c.
Proof.
  intros [_ Htrans]. unfold boards_no_later. intros Hab Hbc.
  pose proof (Htrans (bookingId (booking a)) (bookingId (booking b))
                (bookingId (booking c))).
  intuition lia.
Qed.



(** The row of a seat named by the column and the row number, as the
    planner reads it. *)
Lemma extractRowNumber_name column row :
  Js.all_chars (λ a, negb (Js.is_digit a)) column = true →
  0 <= row <= Js.MAX_SAFE_INTEGER →
  extractRowNumber (column +:+ Js.Z_to_string row) = row.
Proof.
  intros Hcol Hrow.
  destruct (number_text row (proj1 Hrow)) as (c & s & -> & Hds & Hval).
  unfold extractRowNumber.
  rewrite (match_digits_after column c s Hcol Hds), (parseInt_digits c s Hds), Hval.
  rewrite double_exact by (unfold Js.MAX_SAFE_INTEGER in *; lia).
  by destruct column.
Qed.








Lemma StronglySorted_weaken {X} (R R' : relation X) (l : list X) :
  (∀ a b, R a b → R' a b) → StronglySorted R l → StronglySorted R' l.
Proof.
  intros HR. induction 1 as [|x l Hl IH Hx]; constructor; [done|].
  eapply Forall_impl; [exact Hx|]. intros b. apply HR.
Qed.


(** The sequence as a whole, without the guard for the empty list. *)
Lemma calculateOptimalBoardingSequence_unfold bookings :
  calculateOptimalBoardingSequence bookings =
  imap (λ index b, {| withMetadata := b; sequenceNumber := Z.of_nat index + 1 |})
       (Js.sort compareBookings (addMetadata <$> bookings)).
Proof. by destruct bookings. Qed.


End Planner.

(** The planner on samples, with a collation that compares code units. *)

Section PlannerSamples.
Import Boarding.

(** The order on the day of [Samples.fourBookings]: row 15 first, then the
    booking with two seats in row 10, then the one with one seat in row 10,
    then row 3. *)
Example planner_back_to_front_example :
  (λ s, (bookingId (booking (withMetadata s)), sequenceNumber s))
    <$> calculateOptimalBoardingSequence (collation := Samples.byCodeUnits)
          Samples.fourBookings
  = [("BK-20300101-000004", 1); ("BK-20300101-000003", 2);
     ("BK-20300101-000002", 3); ("BK-20300101-000001", 4)].
Proof. reflexivity. Qed.




End PlannerSamples.

(** ** The validation engine *)

Section ValidationFacts.
Import Validation.

Lemma remaining_clamped r : (if 0 <? r then r else 0) = Z.max r 0.
Proof. destruct (Z.ltb_spec 0 r); lia. Qed.

Lemma SAME_MOBILE_LIMIT_filled booked remaining :
  Js.replace_first "{remaining}" (Js.Z_to_string remaining)
    (Js.replace_first "{booked}" (Js.Z_to_string booked)
       ERROR_MESSAGES.SAME_MOBILE_LIMIT)
  = "This mobile number has already booked " +:+ Js.Z_to_string booked +:+
    " seats for this date. You can book " +:+ Js.Z_to_string remaining +:+
    " more seats.".
Proof.
  change ERROR_MESSAGES.SAME_MOBILE_LIMIT with
    ("This mobile number has already booked " +:+ String "{" "booked}" +:+
     " seats for this date. You can book {remaining} more seats.").
  rewrite replace_first_after by reflexivity.
  change " seats for this date. You can book {remaining} more seats." with
    (" seats for this date. You can book " +:+ String "{" "remaining}" +:+
     " more seats.").
  rewrite <- !append_assoc.
  rewrite (append_assoc _ (String "{" "remaining}") " more seats.").
  rewrite replace_first_after; [by rewrite !append_assoc|].
  rewrite !all_chars_app, Z_to_string_no_brace. reflexivity.
Qed.

Lemma mobile_cap_iff mobile date selected alreadyBooked :
  isValid (checkSeatLimitForMobile mobile date selected alreadyBooked) = true
  ↔ selected + alreadyBooked <= 6.
Proof.
  unfold checkSeatLimitForMobile, MAX_SEATS_PER_BOOKING.
  destruct (Z.ltb_spec 6 (selected + alreadyBooked)); cbn [isValid];
    intuition (done || lia).
Qed.

(** C5. The daily cap of a mobile number holds exactly when the selected
    and the already booked seats together are at most 6; otherwise the
    message names the already booked count and max(6 - booked, 0) as the
    remaining allowance. With 4 seats booked, 2 more pass and 3 more fail
    with "booked 4 ... book 2 more". *)
Theorem mobile_daily_cap (mobile date : string) (selected alreadyBooked : Z) :
  (isValid (checkSeatLimitForMobile mobile date selected alreadyBooked) = true
   ↔ selected + alreadyBooked <= 6)
  ∧ error (checkSeatLimitForMobile mobile date selected alreadyBooked)
    = (if 6 <? selected + alreadyBooked then
         Some ("This mobile number has already booked " +:+
               Js.Z_to_string alreadyBooked +:+
               " seats for this date. You can book " +:+
               Js.Z_to_string (Z.max (6 - alreadyBooked) 0) +:+ " more seats.")
       else None)
  ∧ isValid (checkSeatLimitForMobile mobile date 2 4) = true
  ∧ checkSeatLimitForMobile mobile date 3 4
    = Invalid "This mobile number has already booked 4 seats for this date. You can book 2 more seats." 2.
Proof.
  split_and!; try reflexivity; [apply mobile_cap_iff|].
  unfold checkSeatLimitForMobile, MAX_SEATS_PER_BOOKING.
  destruct (6 <? selected + alreadyBooked); [|done].
  unfold error. by rewrite SAME_MOBILE_LIMIT_filled, remaining_clamped.
Qed.

Lemma no_errors_true m : no_errors m = true ↔ m = ∅.
Proof. unfold no_errors. rewrite bool_decide_eq_true. apply map_size_empty_iff. Qed.

Lemma no_errors_empty : no_errors ∅ = true.
Proof. by apply no_errors_true. Qed.

Lemma no_errors_set_error {V I} k (o : Outcome V I) m :
  no_errors (set_error k o m) = isValid o && no_errors m.
Proof.
  destruct o as [v|e i]; simpl; [done|].
  apply not_true_is_false. rewrite no_errors_true. apply insert_non_empty.
Qed.

Lemma no_errors_fieldErrors clock fd :
  no_errors (fieldErrors clock fd) = fieldRulesHold clock fd.
Proof.
  unfold fieldErrors, fieldRulesHold.
  rewrite !no_errors_set_error, no_errors_empty.
  destruct (isValid _), (isValid _), (isValid _); done.
Qed.

(** The validator, rule by rule: the three field rules always run; the
    duplicate-seat and daily-cap rules run when none of them failed. *)
Lemma validateBookingForm_unfold clock fd booked existing :
  validateBookingForm clock fd booked existing =
  let errs := if fieldRulesHold clock fd then bookingErrors fd booked existing
              else fieldErrors clock fd in
  ({| formIsValid := no_errors errs; errors := errs |}, normalized fd).
Proof.
  pose proof (no_errors_fieldErrors clock fd) as Hne.
  unfold validateBookingForm, normalized, fieldErrors, bookingErrors,
    conflictSet in *.
  destruct (validateMobileNumber (mobileNumber fd)) as [cleaned|e []] eqn:Hm;
    cbn [set_error] in *.
  - change (travelDate (set_mobileNumber cleaned fd)) with (travelDate fd).
    change (seats (set_mobileNumber cleaned fd)) with (seats fd).
    change (bookingId (set_mobileNumber cleaned fd)) with (bookingId fd).
    change (currentSeats (set_mobileNumber cleaned fd)) with (currentSeats fd).
    rewrite Hne. destruct (fieldRulesHold clock fd) eqn:Hf; cbn [andb negb].
    + apply no_errors_true in Hne. rewrite Hne.
      destruct (truthy (bookingId fd)); cbn [negb];
        destruct (checkDuplicateSeats _ _) as [ds|e ds]; cbn [set_error];
        rewrite ?no_errors_empty; try done;
        replace (no_errors (<["seats":=e]> ∅)) with false; try done;
        symmetry; apply not_true_is_false; rewrite no_errors_true;
        apply insert_non_empty.
    + by repeat rewrite Hne.
  - rewrite Hne.
    assert (fieldRulesHold clock fd = false) as Hf
      by (unfold fieldRulesHold; by rewrite Hm).
    rewrite Hf. cbn [andb]. by repeat rewrite ?Hne, ?Hf.
Qed.

Lemma lookup_set_error {V I} k k' (o : Outcome V I) (m : gmap string string) :
  set_error k o m !! k' =
  if decide (k = k') then
    match error o with Some e => Some e | None => m !! k' end
  else m !! k'.
Proof.
  destruct o as [v|e i]; simpl.
  - by destruct (decide _).
  - rewrite lookup_insert. by destruct (decide _).
Qed.

Lemma isValid_error {V I} (o : Outcome V I) : isValid o = true → error o = None.
Proof. by destruct o. Qed.

Lemma fieldRulesHold_true clock fd :
  fieldRulesHold clock fd = true →
  isValid (validateMobileNumber (mobileNumber fd)) = true
  ∧ isValid (validateTravelDate clock (travelDate fd)) = true
  ∧ isValid (validateSeatSelection (seats fd)) = true.
Proof. unfold fieldRulesHold. intros [[??]%andb_prop ?]%andb_prop. done. Qed.

Lemma lookup_bookingErrors fd booked existing k :
  bookingErrors fd booked existing !! k =
  if decide ("seats" = k) then
    match error (checkDuplicateSeats (seats fd) (conflictSet fd booked)) with
    | Some e => Some e
    | None =>
        error (checkSeatLimitForMobile (mobileNumber (normalized fd))
                 (travelDate fd) (Z.of_nat (length (seats fd))) existing)
    end
  else None.
Proof.
  unfold bookingErrors.
  destruct (checkDuplicateSeats _ _) as [ds|e ds]; cbn [error].
  - rewrite lookup_set_error, lookup_empty. destruct (decide _); [|done].
    by destruct (error _).
  - rewrite lookup_singleton. by destruct (decide _).
Qed.

(** C3, as the code has it. The mobile, travel-date and seat-selection
    rules are each checked whatever the other fields hold, and their
    errors accumulate per field. The duplicate-seat and daily-cap rules
    are checked only when none of these three rules failed: otherwise the
    seats entry is the one of the seat-selection rule alone. *)
Theorem field_rules_accumulate clock fd booked existing :
  let r := (validateBookingForm clock fd booked existing).1 in
  errors r !! "mobileNumber" = error (validateMobileNumber (mobileNumber fd))
  ∧ errors r !! "travelDate" = error (validateTravelDate clock (travelDate fd))
  ∧ errors r !! "seats" =
      (if fieldRulesHold clock fd then
         match error (checkDuplicateSeats (seats fd) (conflictSet fd booked)) with
         | Some e => Some e
         | None =>
             error (checkSeatLimitForMobile (mobileNumber (normalized fd))
                      (travelDate fd) (Z.of_nat (length (seats fd))) existing)
         end
       else error (validateSeatSelection (seats fd))).
Proof.
  intros r. subst r. rewrite validateBookingForm_unfold. cbn [fst errors].
  destruct (fieldRulesHold clock fd) eqn:Hf.
  - apply fieldRulesHold_true in Hf as (Hm & Hd & Hs).
    rewrite !lookup_bookingErrors, (isValid_error _ Hm), (isValid_error _ Hd).
    done.
  - unfold fieldErrors. rewrite !lookup_set_error, !lookup_empty.
    repeat (destruct (decide _); [done || by destruct (error _)|]); try done.
    split_and!; repeat (destruct (decide _); try done); by destruct (error _).
Qed.

(** C3 fails as stated: a new booking with a five-digit mobile number that
    selects the booked seat A5 (or whose mobile number has used its six
    seats) gets the mobile entry but no seats entry. *)
Lemma independent_rules_counterexample :
  let fd := Samples.shortMobileSeatA5 in
  let taken := (validateBookingForm Samples.anyDay fd ["A5"] 0).1 in
  let capped := (validateBookingForm Samples.anyDay fd [] 6).1 in
  isValid (validateMobileNumber (mobileNumber fd)) = false
  ∧ isValid (checkDuplicateSeats (seats fd) ["A5"]) = false
  ∧ isValid (checkSeatLimitForMobile (mobileNumber fd) (travelDate fd) 1 6) = false
  ∧ ¬ (is_Some (errors taken !! "mobileNumber") ∧ is_Some (errors taken !! "seats"))
  ∧ ¬ (is_Some (errors capped !! "mobileNumber") ∧ is_Some (errors capped !! "seats")).
Proof.
  split_and!; try reflexivity.
  - intros [_ [e He]]. vm_compute in He. discriminate.
  - intros [_ [e He]]. vm_compute in He. discriminate.
Qed.

Lemma includes_elem_of xs x : Js.includes xs x = true ↔ x ∈ xs.
Proof. unfold Js.includes. apply bool_decide_eq_true. Qed.

Lemma checkDuplicateSeats_error selected booked :
  is_Some (error (checkDuplicateSeats selected booked))
  ↔ ∃ seat, seat ∈ selected ∧ seat ∈ booked.
Proof.
  unfold checkDuplicateSeats.
  destruct (filter _ selected) as [|d ds] eqn:Hdup; cbn [length error].
  - change (0 <? Z.of_nat 0) with false. cbn [error]. split.
    + by intros [? ?].
    + intros (seat & Hsel & Hbook). exfalso.
      eapply (filter_nil_not_elem_of _ _ seat); [exact Hdup| |exact Hsel].
      apply Is_true_true, includes_elem_of, Hbook.
  - replace (0 <? Z.of_nat (S (length ds))) with true
      by (symmetry; apply Z.ltb_lt; lia).
    cbn [error]. split; [intros _|by eexists].
    assert (d ∈ filter (λ seat, Js.includes booked seat) selected) as Hd
      by (rewrite Hdup; left).
    apply list_elem_of_filter in Hd as [Hb Hs].
    exists d. split; [done|]. by apply includes_elem_of, Is_true_true.
Qed.

Lemma conflictSet_new fd booked :
  truthy (bookingId fd) = false → conflictSet fd booked = booked.
Proof. unfold conflictSet. by intros ->. Qed.

Lemma elem_of_conflictSet_edit fd booked cs seat :
  truthy (bookingId fd) = true → currentSeats fd = Some cs →
  seat ∈ conflictSet fd booked ↔ seat ∈ booked ∧ seat ∉ cs.
Proof.
  unfold conflictSet. intros -> ->. rewrite list_elem_of_filter.
  destruct (Js.includes cs seat) eqn:E; simpl.
  - apply includes_elem_of in E.
    split; [by intros [[] _]|]. intros [_ H]. by destruct H.
  - assert (seat ∉ cs) by (intros Hin%includes_elem_of; congruence).
    split; [intros [_ H']|intros [H' _]]; by split.
Qed.

Lemma conflictSet_no_currentSeats fd booked :
  currentSeats fd = None → conflictSet fd booked = booked.
Proof.
  unfold conflictSet. intros ->. destruct (truthy (bookingId fd)); [|done].
  induction booked as [|seat booked IH]; [done|].
  by rewrite filter_cons_True, IH.
Qed.

(** C4. With a valid mobile number, date and seat count and the daily cap
    respected, validation fails exactly when it reports a seats error.
    For a new booking (no bookingId, or an empty one) that is the case iff
    a selected seat is among the booked seats, and so it is for an edited
    booking that carries no current seats. For an edited booking with
    current seats, the booked seats that are among the current seats are
    first taken out: validation fails iff a selected seat is booked and is
    not a current seat, so selecting only current seats passes. *)
Theorem duplicate_seat_rule clock fd booked existing :
  isValid (validateMobileNumber (mobileNumber fd)) = true →
  isValid (validateTravelDate clock (travelDate fd)) = true →
  isValid (validateSeatSelection (seats fd)) = true →
  Z.of_nat (length (seats fd)) + existing <= 6 →
  let r := (validateBookingForm clock fd booked existing).1 in
  (formIsValid r = false ↔ is_Some (errors r !! "seats"))
  ∧ (truthy (bookingId fd) = false →
     (is_Some (errors r !! "seats") ↔ ∃ seat, seat ∈ seats fd ∧ seat ∈ booked))
  ∧ (truthy (bookingId fd) = true → currentSeats fd = None →
     (is_Some (errors r !! "seats") ↔ ∃ seat, seat ∈ seats fd ∧ seat ∈ booked))
  ∧ (truthy (bookingId fd) = true → ∀ cs, currentSeats fd = Some cs →
     (is_Some (errors r !! "seats")
      ↔ ∃ seat, seat ∈ seats fd ∧ seat ∈ booked ∧ seat ∉ cs)
     ∧ (seats fd ⊆ cs → formIsValid r = true)).
Proof.
  intros Hm Hd Hs Hcap r.
  assert (Hf : fieldRulesHold clock fd = true)
    by (unfold fieldRulesHold; by rewrite Hm, Hd, Hs).
  assert (Hlimit : ∀ m d, error (checkSeatLimitForMobile m d
                             (Z.of_nat (length (seats fd))) existing) = None).
  { intros m d. apply isValid_error.
    by apply (mobile_cap_iff m d). }
  assert (Hseats : errors r !! "seats"
                   = error (checkDuplicateSeats (seats fd) (conflictSet fd booked))).
  { subst r. rewrite validateBookingForm_unfold, Hf. cbn [fst errors].
    rewrite lookup_bookingErrors, Hlimit. destruct (decide _); [|done].
    by destruct (error _). }
  assert (Hvalid : formIsValid r = false ↔ is_Some (errors r !! "seats")).
  { rewrite Hseats. subst r. rewrite validateBookingForm_unfold, Hf.
    cbn [fst formIsValid]. unfold bookingErrors.
    destruct (checkDuplicateSeats _ _) as [ds|e ds]; cbn [error].
    - rewrite no_errors_set_error, no_errors_empty, andb_true_r.
      rewrite (proj2 (mobile_cap_iff _ _ _ _) Hcap).
      split; [done|by intros [??]].
    - split; [by eexists|intros _].
      apply not_true_is_false. rewrite no_errors_true. apply insert_non_empty. }
  split_and!; [exact Hvalid| | |].
  - intros Hnew. by rewrite Hseats, checkDuplicateSeats_error, conflictSet_new.
  - intros _ Hnone.
    by rewrite Hseats, checkDuplicateSeats_error, conflictSet_no_currentSeats.
  - intros Hedit cs Hcs.
    assert (Hiff : is_Some (errors r !! "seats")
                   ↔ ∃ seat, seat ∈ seats fd ∧ seat ∈ booked ∧ seat ∉ cs).
    { rewrite Hseats, checkDuplicateSeats_error.
      by setoid_rewrite (elem_of_conflictSet_edit fd booked cs _ Hedit Hcs). }
    split; [exact Hiff|]. intros Hsub.
    apply not_false_iff_true. rewrite Hvalid, Hiff.
    intros (seat & Hsel & _ & Hcur). apply Hcur, Hsub, Hsel.
Qed.

(** An instance of C4: the booking that owns A5 is edited and selects A5
    again while A5 and B1 are booked. *)
Lemma duplicate_seat_rule_witness :
  (isValid (validateMobileNumber (mobileNumber Samples.editOwnSeatA5)) = true
   ∧ isValid (validateTravelDate Samples.anyDay
                (travelDate Samples.editOwnSeatA5)) = true
   ∧ isValid (validateSeatSelection (seats Samples.editOwnSeatA5)) = true
   ∧ Z.of_nat (length (seats Samples.editOwnSeatA5)) + 0 <= 6)
  ∧ formIsValid
      (validateBookingForm Samples.anyDay Samples.editOwnSeatA5 ["A5"; "B1"] 0).1
    = true.
Proof.
  split; [split_and!; (reflexivity || (vm_compute; discriminate))|].
  destruct (duplicate_seat_rule Samples.anyDay Samples.editOwnSeatA5 ["A5"; "B1"] 0)
    as (_ & _ & _ & Hedit);
    [reflexivity..|vm_compute; discriminate|].
  apply (Hedit eq_refl ["A5"] eq_refl). intros seat Hseat. exact Hseat.
Defined.

(** A seat that another booking holds on the date is accepted when it is
    also a current seat of the booking edited: the booking of 1 January
    holds A5, is moved to 2 January, where another booking holds A5, and
    selects A5. The seats read for 2 January without the edited booking
    are A5 alone, and the validator reports no error. *)
Lemma shared_current_seat_counterexample :
  (StorageQueries.getBookedSeatsByDate "2030-01-02" (Some "BK-20300101-000002")
     Samples.twoDaysWorld).1
  = [Some (Storage.JStr "A5")]
  ∧ (StorageQueries.getSeatsCountByMobileAndDate "9876543210" "2030-01-02"
       (Some "BK-20300101-000002") Samples.twoDaysWorld).1
    = StorageQueries.Count 0
  ∧ "A5" ∈ seats Samples.movedToSecondDay
  ∧ truthy (bookingId Samples.movedToSecondDay) = true
  ∧ formIsValid
      (validateBookingForm Samples.anyDay Samples.movedToSecondDay ["A5"] 0).1
    = true
  ∧ errors
      (validateBookingForm Samples.anyDay Samples.movedToSecondDay ["A5"] 0).1
    !! "seats" = None.
Proof.
  split_and!; try reflexivity; [by left|vm_compute; reflexivity..].
Qed.

Lemma digit_6_to_9 c :
  (let n := N_of_ascii c in ((54 <=? n) && (n <=? 57))%N) = true → Js.is_digit c = true.
Proof.
  unfold Js.is_digit. cbv zeta.
  intros [H1 H2]%andb_prop. apply N.leb_le in H1, H2.
  apply andb_true_intro. split; apply N.leb_le; lia.
Qed.

Lemma validateMobileNumber_valid m cleaned :
  validateMobileNumber m = Valid cleaned →
  cleaned = Js.remove_chars (λ c, Js.is_space c || Js.is_dash c) m
  ∧ String.length cleaned = 10%nat
  ∧ Js.all_chars Js.is_digit cleaned = true.
Proof.
  unfold validateMobileNumber. destruct m as [|c m]; [done|].
  set (cl := Js.remove_chars _ _).
  destruct (bool_decide_reflect (String.length cl = 10%nat)) as [Hlen|]; [|done].
  cbn [negb]. destruct (MOBILE_PATTERN_test cl) eqn:Hpat; [|done].
  cbn [negb]. intros [= <-]. split_and!; try done.
  unfold MOBILE_PATTERN_test in Hpat. destruct cl as [|d cl']; [done|].
  apply andb_prop in Hpat as [[H1 _]%andb_prop H3].
  simpl. by rewrite (digit_6_to_9 _ H1), H3.
Qed.

(** C9, as the code has it. The validator changes no field of the
    candidate but the mobile number. Whenever the mobile rule passes,
    also when validation as a whole fails, the mobile number is replaced
    by its cleaned form of ten digits; when the mobile rule fails, the
    candidate is left as it was (and validation fails). *)
Theorem validation_normalizes_mobile_only clock fd booked existing :
  let r := (validateBookingForm clock fd booked existing).1 in
  let fd' := (validateBookingForm clock fd booked existing).2 in
  travelDate fd' = travelDate fd
  ∧ seats fd' = seats fd
  ∧ bookingId fd' = bookingId fd
  ∧ currentSeats fd' = currentSeats fd
  ∧ match validateMobileNumber (mobileNumber fd) with
    | Valid _ =>
        mobileNumber fd'
        = Js.remove_chars (λ c, Js.is_space c || Js.is_dash c) (mobileNumber fd)
        ∧ String.length (mobileNumber fd') = 10%nat
        ∧ Js.all_chars Js.is_digit (mobileNumber fd') = true
    | Invalid _ _ => fd' = fd ∧ formIsValid r = false
    end.
Proof.
  intros r fd'. subst r fd'. rewrite validateBookingForm_unfold. cbn [fst snd].
  unfold normalized.
  destruct (validateMobileNumber (mobileNumber fd)) as [cleaned|e []] eqn:Hm.
  - apply validateMobileNumber_valid in Hm as (-> & Hlen & Hdig).
    split_and!; done.
  - split_and!; try done. cbn [formIsValid].
    assert (fieldRulesHold clock fd = false) as ->
      by (unfold fieldRulesHold; by rewrite Hm).
    rewrite no_errors_fieldErrors. unfold fieldRulesHold. by rewrite Hm.
Qed.

(** C9 fails as stated: with the mobile number typed as "98765 43210" and
    no seat selected, validation fails and yet the mobile number of the
    candidate has been replaced. *)
Lemma failed_validation_counterexample :
  let r := (validateBookingForm Samples.anyDay Samples.spacedMobileNoSeat [] 0).1 in
  let fd' := (validateBookingForm Samples.anyDay Samples.spacedMobileNoSeat [] 0).2 in
  formIsValid r = false
  ∧ mobileNumber Samples.spacedMobileNoSeat = "98765 43210"
  ∧ mobileNumber fd' = "9876543210"
  ∧ fd' ≠ Samples.spacedMobileNoSeat.
Proof. split_and!; try reflexivity. intros H. vm_compute in H. discriminate. Qed.

End ValidationFacts.

(** ** The booking repository *)

Section StorageFacts.
Import Storage.

Lemma well_shaped_Some parsed data :
  well_shaped parsed = Some data ↔
  ∃ ms, parsed = JObj ms
        ∧ get parsed "bookings" = Some (JArr (bookings data))
        ∧ get parsed "lastBookingNumber" = Some (JNum (lastBookingNumber data)).
Proof.
  unfold well_shaped. split.
  - destruct (_ || _) eqn:E; [done|].
    destruct (get parsed "bookings") as [[]|] eqn:Hb; try done.
    destruct (get parsed "lastBookingNumber") as [[]|] eqn:Hn; try done.
    intros [= <-]. destruct parsed; try done. by eexists.
  - intros (ms & -> & Hb & Hn). destruct data as [bs n]. simpl in *.
    rewrite Hb, Hn. simpl. destruct ms; done.
Qed.

Lemma well_shaped_None parsed : well_shaped parsed = None ↔ malformed parsed.
Proof.
  split.
  - intros Hnone. unfold malformed.
    destruct parsed as [| | | | |ms]; try (left; congruence).
    destruct (get (JObj ms) "bookings") as [[| | | |bs|]|] eqn:Hb;
      try (right; left; congruence).
    destruct (get (JObj ms) "lastBookingNumber") as [[| |n| | |]|] eqn:Hn;
      try (right; right; congruence).
    assert (well_shaped (JObj ms) = Some {| bookings := bs; lastBookingNumber := n |})
      as Hsome by (apply well_shaped_Some; by eexists).
    congruence.
  - intros Hmal. destruct (well_shaped parsed) as [data|] eqn:Hw; [|done].
    apply well_shaped_Some in Hw as (ms & -> & Hb & Hn).
    destruct Hmal as [H|[H|H]]; exfalso; by eapply H.
Qed.

Lemma well_shaped_store_to_json data : well_shaped (store_to_json data) = Some data.
Proof. apply well_shaped_Some. by eexists. Qed.

Lemma currentStore_log e w : currentStore (log e w) = currentStore w.
Proof.
  unfold currentStore, getBookingsFromStorage, isLocalStorageAvailable.
  destruct w as [[[]|] [] [[| |p]|] mem con]; simpl; try done;
    by destruct (well_shaped p).
Qed.

Lemma available_log e w : _localStorageAvailable (log e w) = _localStorageAvailable w.
Proof. done. Qed.

(** Reading settles the probe and does not change what the next read
    returns. *)
Lemma getBookingsFromStorage_settles w :
  currentStore (getBookingsFromStorage w).2 = (getBookingsFromStorage w).1
  ∧ _localStorageAvailable (getBookingsFromStorage w).2 = Some (usesLocalStorage w).
Proof.
  unfold currentStore, usesLocalStorage, getBookingsFromStorage,
    isLocalStorageAvailable.
  destruct w as [[[]|] [] [[| |p]|] mem con]; simpl; try done;
    destruct (well_shaped p) eqn:Hp; simpl; rewrite ?Hp; done.
Qed.

(** Writing either stores [data] or leaves the store as it was. *)
Lemma saveBookingsToStorage_cases writeOk data w a :
  _localStorageAvailable w = Some a →
  _localStorageAvailable (saveBookingsToStorage writeOk data w).2 = Some a
  ∧ (((saveBookingsToStorage writeOk data w).1 = true
      ∧ currentStore (saveBookingsToStorage writeOk data w).2 = data)
     ∨ ((saveBookingsToStorage writeOk data w).1 = false
        ∧ currentStore (saveBookingsToStorage writeOk data w).2 = currentStore w)).
Proof.
  unfold currentStore, saveBookingsToStorage, getBookingsFromStorage,
    isLocalStorageAvailable.
  destruct w as [cache works item mem con]; simpl. intros ->.
  destruct a, writeOk; simpl; split; try done.
  - left. by destruct data.
  - right. split; [done|]. destruct item as [[| |p]|]; try done.
    by destruct (well_shaped p).
  - by left.
  - by left.
Qed.

Lemma saveBooking_cases writeOk b w :
  _localStorageAvailable (saveBooking writeOk b w).2 = Some (usesLocalStorage w)
  ∧ ((success (saveBooking writeOk b w).1 = false
      ∧ currentStore (saveBooking writeOk b w).2 = currentStore w)
     ∨ (success (saveBooking writeOk b w).1 = true
        ∧ resultBooking (saveBooking writeOk b w).1 = Some b
        ∧ ∃ existingIndex,
            findIndex_bookingId (bookings (currentStore w)) (bookingId b)
            = Some existingIndex
            ∧ currentStore (saveBooking writeOk b w).2
              = upserted (currentStore w) b existingIndex)).
Proof.
  destruct (getBookingsFromStorage_settles w) as [Hcur Hav].
  assert (Hw : currentStore w = (getBookingsFromStorage w).1) by done.
  rewrite !Hw. unfold saveBooking.
  destruct (getBookingsFromStorage w) as [data w1]. simpl in Hcur, Hav |- *.
  destruct (findIndex_bookingId (bookings data) (bookingId b)) as [idx|] eqn:Hidx.
  - pose proof (saveBookingsToStorage_cases writeOk (upserted data b idx) w1 _ Hav)
      as [Hav2 Hsave].
    unfold upserted in Hsave, Hav2.
    destruct idx as [i|];
      destruct (saveBookingsToStorage writeOk _ w1) as [ok w2];
      simpl in Hsave, Hav2 |- *;
      (destruct Hsave as [[-> Hs]|[-> Hs]]; simpl;
       [split; [done|]; right; split_and!; try done; by eexists
       |split; [done|]; left; by rewrite currentStore_log, Hs, Hcur]).
  - simpl. split; [done|]. left. by rewrite currentStore_log, Hcur.
Qed.


(** C8. Reading never fails. On [localStorage]: with no item the result
    is the empty store (no bookings, counter 0); with an item that parses
    to a value of the wrong shape (not an object, [bookings] not an array
    or [lastBookingNumber] not a number) the item is removed, a warning
    is logged and the result is the empty store; an item that does not
    parse gives the empty store as well. *)
Theorem loadAll_degrades_to_empty w :
  usesLocalStorage w = true →
  let store := (getBookingsFromStorage w).1 in
  let w' := (getBookingsFromStorage w).2 in
  (busBookings w = None → store = emptyStore ∧ busBookings w' = None)
  ∧ (∀ parsed, busBookings w = Some (JsonText parsed) → malformed parsed →
     store = emptyStore
     ∧ busBookings w' = None
     ∧ console w' =
         console w ++
         [Warn "Unexpected bookings storage format detected, resetting. Value:"])
  ∧ (busBookings w = Some NotJson → store = emptyStore)
  ∧ bookings emptyStore = [] ∧ lastBookingNumber emptyStore = 0.
Proof.
  unfold usesLocalStorage, getBookingsFromStorage, isLocalStorageAvailable.
  destruct w as [[[]|] [] item mem con]; simpl; try done; intros _;
    (split_and!; try done;
     [by intros ->
     |intros parsed -> Hmal%well_shaped_None; by rewrite Hmal
     |by intros ->]).
Qed.

(** An instance of C8: the stored object has a string as [bookings]. *)
Lemma loadAll_witness :
  usesLocalStorage Samples.corruptWorld = true
  ∧ (getBookingsFromStorage Samples.corruptWorld).1 = emptyStore
  ∧ busBookings (getBookingsFromStorage Samples.corruptWorld).2 = None.
Proof.
  split; [reflexivity|].
  destruct (loadAll_degrades_to_empty Samples.corruptWorld eq_refl)
    as (_ & Hbad & _).
  destruct (Hbad _ eq_refl) as (Hstore & Hitem & _); [|done].
  right; left. intros bs. simpl. discriminate.
Defined.

Lemma findIndex_bookingId_lt bs id i :
  findIndex_bookingId bs id = Some (Some i) → (i < length bs)%nat.
Proof.
  revert i. induction bs as [|b bs IH]; intros i; simpl; [done|].
  destruct b; try done;
    (destruct (has_bookingId _ id);
     [intros [= <-]; lia
     |destruct (findIndex_bookingId bs id) as [[j|]|]; simpl; try done;
      intros [= <-]; specialize (IH j eq_refl); lia]).
Qed.

Lemma strs_of_strings (ss : list string) : strs_of (Some (JArr (JStr <$> ss))) = Some ss.
Proof.
  unfold strs_of. induction ss as [|x ss IH]; [done|].
  rewrite fmap_cons. cbn [mapM]. rewrite IH. done.
Qed.

Lemma booking_of_json_to_json b : booking_of_json (booking_to_json b) = Some b.
Proof.
  destruct b as [d m ss i t st].
  unfold booking_of_json, booking_to_json; simpl get.
  cbn [str_of mbind option_bind]. by rewrite strs_of_strings.
Qed.

Lemma elem_of_upserted data b existingIndex :
  findIndex_bookingId (bookings data) (bookingId b) = Some existingIndex →
  booking_to_json b ∈ bookings (upserted data b existingIndex).
Proof.
  intros Hidx. destruct existingIndex as [i|]; simpl.
  - apply list_elem_of_lookup. exists i.
    apply list_lookup_insert_eq. by eapply findIndex_bookingId_lt.
  - apply elem_of_app. right. by left.
Qed.

(** C7. After a successful [saveBooking] the next read of the store holds
    the booking, and reading its fields back gives the booking unchanged. *)
Theorem saved_booking_round_trips writeOk b w :
  success (saveBooking writeOk b w).1 = true →
  let store := (getBookingsFromStorage (saveBooking writeOk b w).2).1 in
  ∃ stored, stored ∈ bookings store ∧ booking_of_json stored = Some b.
Proof.
  intros Hok store. exists (booking_to_json b).
  split; [|apply booking_of_json_to_json].
  destruct (saveBooking_cases writeOk b w) as [_ [[Hfail _]|(_ & _ & idx & Hidx & Hst)]];
    [congruence|].
  subst store. fold (currentStore (saveBooking writeOk b w).2). rewrite Hst.
  by apply elem_of_upserted.
Qed.

(** An instance of C7: the first booking saved on a fresh host. *)
Lemma saved_booking_witness :
  let b := Samples.aBooking "BK-20300101-000001" ["A5"; "B5"] in
  let w := freshWorld true in
  success (saveBooking true b w).1 = true
  ∧ ∃ stored, stored ∈ bookings (getBookingsFromStorage (saveBooking true b w).2).1
              ∧ booking_of_json stored = Some b.
Proof.
  intros b w. split; [reflexivity|].
  apply (saved_booking_round_trips true b w). reflexivity.
Defined.

(** The number in an identifier made by [generateBookingId]. *)
Lemma bookingNumberOf_generated date n :
  0 <= n <= Js.MAX_SAFE_INTEGER + 1 →
  bookingNumberOf (BOOKING_ID_PREFIX +:+ "-" +:+ Js.remove_chars Js.is_dash date
                   +:+ "-" +:+ Js.padStart0 6 (Js.Z_to_string n)) = Some n.
Proof.
  intros Hn. destruct (padded_number n (proj1 Hn)) as (c & s & -> & Hdig & Hval).
  unfold bookingNumberOf, BOOKING_ID_PREFIX.
  change ("BK" +:+ "-" +:+ Js.remove_chars Js.is_dash date +:+ "-" +:+ String c s)
    with (String "B" (String "K" (String "-" (Js.remove_chars Js.is_dash date)))
          +:+ String "-" (String c s)).
  destruct (split_dash_last
              (String "B" (String "K" (String "-" (Js.remove_chars Js.is_dash date))))
              (String c s) (digits_no_dash _ Hdig)) as (h & t & ->).
  rewrite last_snoc. change (default "" (Some (String c s))) with (String c s).
  rewrite parseInt_digits, Hval by done. f_equal. apply double_exact. lia.
Qed.

Lemma has_bookingId_true b id :
  has_bookingId b id = true → get b "bookingId" = Some (JStr id).
Proof.
  unfold has_bookingId. destruct (get b "bookingId") as [[]|]; try done.
  by intros ->%bool_decide_eq_true.
Qed.

Lemma findIndex_bookingId_found bs id i :
  findIndex_bookingId bs id = Some (Some i) →
  ∃ old, old ∈ bs ∧ get old "bookingId" = Some (JStr id).
Proof.
  revert i. induction bs as [|b bs IH]; intros i; simpl; [done|].
  destruct b; try done;
    (destruct (has_bookingId _ id) eqn:Hb;
     [intros _; eexists; split; [by left|by apply has_bookingId_true]
     |destruct (findIndex_bookingId bs id) as [[j|]|]; simpl; try done;
      intros _; destruct (IH j eq_refl) as (old & Hin & Hold);
      exists old; split; [by right|done]]).
Qed.





Lemma currentStore_after_read w :
  currentStore (getBookingsFromStorage w).2 = currentStore w.
Proof. apply getBookingsFromStorage_settles. Qed.

Lemma generateBookingId_eq date w :
  generateBookingId date w =
  (BOOKING_ID_PREFIX +:+ "-" +:+ Js.remove_chars Js.is_dash date +:+ "-" +:+
   Js.padStart0 6 (Js.Z_to_string (Js.double (lastSequenceNumber w + 1))),
   (getBookingsFromStorage w).2).
Proof.
  unfold generateBookingId, getNextBookingNumber, lastSequenceNumber, currentStore.
  by destruct (getBookingsFromStorage w).
Qed.









End StorageFacts.

(** ** Display helpers and form handlers *)

Section FormattingFacts.
Import Validation Formatting.

Lemma remove_chars_app p s t :
  Js.remove_chars p (s +:+ t) = Js.remove_chars p s +:+ Js.remove_chars p t.
Proof.
  induction s as [|c s IH]; [done|].
  rewrite append_cons. simpl. destruct (p c); [done|]. by rewrite append_cons, IH.
Qed.

Lemma remove_chars_none p s :
  Js.all_chars (λ c, negb (p c)) s = true → Js.remove_chars p s = s.
Proof.
  induction s as [|c s IH]; [done|]. simpl.
  intros [Hc Hs]%andb_prop. apply negb_true_iff in Hc. rewrite Hc. by rewrite IH.
Qed.

Lemma remove_chars_idem p s : Js.remove_chars p (Js.remove_chars p s) = Js.remove_chars p s.
Proof.
  induction s as [|c s IH]; [done|]. simpl.
  destruct (p c) eqn:Hc; [done|]. simpl. by rewrite Hc, IH.
Qed.

Lemma take_drop_chars n s : JsText.take_chars n s +:+ Js.drop_chars n s = s.
Proof.
  revert s. induction n as [|n IH]; intros [|c s]; simpl; try done.
  by rewrite append_cons, IH.
Qed.

Lemma drop_chars_add n m s :
  Js.drop_chars (n + m) s = Js.drop_chars m (Js.drop_chars n s).
Proof.
  revert s. induction n as [|n IH]; intros [|c s]; simpl; try done.
  by destruct m.
Qed.

Lemma parseMobileNumber_eq s :
  parseMobileNumber s = Js.remove_chars (λ c, Js.is_space c || Js.is_dash c) s.
Proof. by destruct s. Qed.

(** The three groups of the display form make up the number again. *)
Lemma formatMobileNumber_groups m :
  JsText.slice 0 3 m +:+ JsText.slice 3 6 m +:+ JsText.slice_from 6 m = m.
Proof.
  unfold JsText.slice, JsText.slice_from. simpl Js.drop_chars at 1.
  change (Js.drop_chars 6 m) with (Js.drop_chars (3 + 3) m).
  rewrite drop_chars_add, take_drop_chars. apply take_drop_chars.
Qed.

Lemma format_parse_same m :
  parseMobileNumber (formatMobileNumber m) = parseMobileNumber m.
Proof.
  rewrite !parseMobileNumber_eq. unfold formatMobileNumber.
  destruct (_ || _); [done|].
  rewrite !remove_chars_app.
  change (Js.remove_chars _ "-") with "".
  rewrite !append_nil_l, <- !remove_chars_app.
  by rewrite formatMobileNumber_groups.
Qed.

(** X1. Formatting a mobile number for display never changes what
    [parseMobileNumber] reads back: parsing the formatted text gives the
    same as parsing the number itself, and for a string without blanks
    and dashes that is the string itself. *)
Theorem format_then_parse_mobile m :
  parseMobileNumber (formatMobileNumber m) = parseMobileNumber m
  ∧ (Js.all_chars (λ c, negb (Js.is_space c || Js.is_dash c)) m = true →
     parseMobileNumber (formatMobileNumber m) = m).
Proof.
  split; [apply format_parse_same|]. intros Hm.
  rewrite format_parse_same, parseMobileNumber_eq.
  by apply remove_chars_none.
Qed.

Lemma validateMobileNumber_by_cleaned s t :
  s ≠ "" → t ≠ "" →
  Js.remove_chars (λ c, Js.is_space c || Js.is_dash c) s
  = Js.remove_chars (λ c, Js.is_space c || Js.is_dash c) t →
  validateMobileNumber s = validateMobileNumber t.
Proof.
  intros Hs Ht Heq. unfold validateMobileNumber.
  destruct s; [done|]. destruct t; [done|]. by rewrite Heq.
Qed.

Lemma cleaned_no_blank s :
  Js.all_chars (λ c, negb (Js.is_space c || Js.is_dash c))
    (Js.remove_chars (λ c, Js.is_space c || Js.is_dash c) s) = true.
Proof.
  induction s as [|c s IH]; [done|]. simpl.
  destruct (Js.is_space c || Js.is_dash c) eqn:Hc; [done|]. simpl. by rewrite Hc.
Qed.

Lemma length_10_nonempty s : String.length s = 10%nat → s ≠ "".
Proof. by destruct s. Qed.

Lemma formatMobileNumber_length_10 c :
  String.length c = 10%nat →
  formatMobileNumber c ≠ "".
Proof.
  intros Hlen. unfold formatMobileNumber. rewrite Hlen.
  destruct c as [|a c]; [done|]. simpl. done.
Qed.

Lemma validateMobileNumber_cleaned m cleaned :
  validateMobileNumber m = Valid cleaned →
  validateMobileNumber cleaned = Valid cleaned.
Proof.
  intros Hm.
  destruct (validateMobileNumber_valid _ _ Hm) as (Hc & Hlen & Hdig).
  assert (Hm0 : m ≠ "") by (by destruct m).
  rewrite <- Hm. apply validateMobileNumber_by_cleaned;
    [by apply length_10_nonempty|done|].
  rewrite Hc. apply remove_chars_idem.
Qed.

(** X2. A cleaned number is a fixed point of the mobile rule: when
    [validateMobileNumber] accepts a number, it accepts the cleaned number
    it returns, and also its display form [XXX-XXX-XXXX], with the same
    cleaned number as result. *)
Theorem cleaned_mobile_validates_to_itself m cleaned :
  validateMobileNumber m = Valid cleaned →
  validateMobileNumber cleaned = Valid cleaned
  ∧ validateMobileNumber (formatMobileNumber cleaned) = Valid cleaned.
Proof.
  intros Hm.
  destruct (validateMobileNumber_valid _ _ Hm) as (_ & Hlen & _).
  pose proof (validateMobileNumber_cleaned _ _ Hm) as H1.
  split; [exact H1|]. etrans; [|exact H1].
  apply validateMobileNumber_by_cleaned;
    [by apply formatMobileNumber_length_10|by apply length_10_nonempty|].
  pose proof (format_parse_same cleaned) as Hp.
  by rewrite !parseMobileNumber_eq in Hp.
Qed.

(** An instance of X2: the number typed with blanks and dashes. *)
Lemma cleaned_mobile_witness :
  validateMobileNumber "987-65 43210" = Valid "9876543210"
  ∧ validateMobileNumber "9876543210" = Valid "9876543210"
  ∧ validateMobileNumber (formatMobileNumber "9876543210") = Valid "9876543210".
Proof.
  split; [reflexivity|].
  apply (cleaned_mobile_validates_to_itself "987-65 43210"). reflexivity.
Defined.

Lemma take_chars_all p n s :
  Js.all_chars p s = true → Js.all_chars p (JsText.take_chars n s) = true.
Proof.
  revert s. induction n as [|n IH]; intros [|c s]; simpl; try done.
  intros [Hc Hs]%andb_prop. by rewrite Hc, IH.
Qed.

Lemma take_chars_length n s : (String.length (JsText.take_chars n s) <= n)%nat.
Proof.
  revert s. induction n as [|n IH]; intros [|c s]; simpl; try lia.
  specialize (IH s). lia.
Qed.

Lemma take_chars_short n s :
  (String.length s <= n)%nat → JsText.take_chars n s = s.
Proof.
  revert s. induction n as [|n IH]; intros [|c s]; simpl; try done; try lia.
  intros ?. rewrite IH; [done|lia].
Qed.

Lemma remove_non_digits_digits s :
  Js.all_chars Js.is_digit (Js.remove_chars (λ c, negb (Js.is_digit c)) s) = true.
Proof.
  induction s as [|c s IH]; [done|]. simpl.
  destruct (Js.is_digit c) eqn:Hc; simpl; [by rewrite Hc|done].
Qed.

(** X3. Whatever is typed into the mobile field, the form keeps digits
    only and at most ten of them, and typing the kept value again changes
    nothing. *)
Theorem handleMobileChange_keeps_ten_digits value :
  Js.all_chars Js.is_digit (handleMobileChange value) = true
  ∧ (String.length (handleMobileChange value) <= 10)%nat
  ∧ handleMobileChange (handleMobileChange value) = handleMobileChange value.
Proof.
  unfold handleMobileChange, JsText.slice. simpl Js.drop_chars.
  change (10 - 0)%nat with 10%nat.
  assert (Hdig : Js.all_chars Js.is_digit
                   (JsText.take_chars 10
                      (Js.remove_chars (λ c, negb (Js.is_digit c)) value)) = true)
    by apply take_chars_all, remove_non_digits_digits.
  split_and!; [done|apply take_chars_length|].
  rewrite (remove_chars_none _ _).
  - apply take_chars_short, take_chars_length.
  - eapply all_chars_weaken; [|exact Hdig]. intros c ->. done.
Qed.

Lemma NoDup_filter_ne (seat : string) l : NoDup l → NoDup (filter (λ s, s ≠ seat) l).
Proof. apply NoDup_filter. Qed.

(** X4. Clicking seats never selects a seat twice nor more than six
    seats: from a selection without repetition of at most six seats,
    [handleSeatSelect] gives such a selection again; a click on a selected
    seat removes it, a click on another seat adds it at the end unless six
    are selected, in which case the selection stays and an error is
    reported. *)
Theorem handleSeatSelect_keeps_selection_small seat prevSeats :
  NoDup prevSeats → (length prevSeats <= 6)%nat →
  let next := (handleSeatSelect seat prevSeats).1 in
  NoDup next
  ∧ (length next <= 6)%nat
  ∧ (seat ∈ prevSeats →
     (seat ∉ next) ∧ (∀ s, s ≠ seat → (s ∈ next ↔ s ∈ prevSeats)))
  ∧ (seat ∉ prevSeats → (length prevSeats < 6)%nat → next = prevSeats ++ [seat])
  ∧ (seat ∉ prevSeats → length prevSeats = 6%nat →
     next = prevSeats ∧ is_Some (handleSeatSelect seat prevSeats).2).
Proof.
  intros Hnd Hlen next. subst next. unfold handleSeatSelect.
  destruct (Js.includes prevSeats seat) eqn:Hin.
  - apply includes_elem_of in Hin. cbn [fst snd]. split_and!.
    + by apply NoDup_filter.
    + pose proof (length_filter (λ s, s ≠ seat) prevSeats). lia.
    + intros _. split.
      * rewrite list_elem_of_filter. by intros [? _].
      * intros s Hs. rewrite list_elem_of_filter. by split; [intros [_ ?]|].
    + done.
    + done.
  - assert (Hnot : seat ∉ prevSeats).
    { intros H%includes_elem_of. congruence. }
    destruct (Z.leb_spec 6 (Z.of_nat (length prevSeats))); cbn [fst snd].
    + split_and!; [done|lia|by intros ?|intros _ ?; lia|].
      intros _ _. split; [done|by eexists].
    + split_and!; [|rewrite length_app; simpl; lia|by intros ?|done|intros _ ?; lia].
      apply NoDup_app. split_and!; [done| |apply NoDup_singleton].
      intros x Hx ->%list_elem_of_singleton. done.
Qed.

(** An instance of X4: a seventh seat is refused. *)
Lemma handleSeatSelect_witness :
  (NoDup ["A1"; "A2"; "A3"; "A4"; "B1"; "B2"]
   ∧ (length ["A1"; "A2"; "A3"; "A4"; "B1"; "B2"] <= 6)%nat)
  ∧ (length (handleSeatSelect "C1" ["A1"; "A2"; "A3"; "A4"; "B1"; "B2"]).1 <= 6)%nat.
Proof.
  assert (Hnd : NoDup ["A1"; "A2"; "A3"; "A4"; "B1"; "B2"])
    by (apply (bool_decide_unpack (NoDup ["A1"; "A2"; "A3"; "A4"; "B1"; "B2"]));
        vm_compute; exact I).
  split; [split; [exact Hnd|simpl; lia]|].
  apply (handleSeatSelect_keeps_selection_small "C1" _ Hnd). simpl. lia.
Defined.

End FormattingFacts.

(** ** Orders that do not depend on the order of the input *)

Section OrderIndependence.
Import Boarding Formatting.
Context {collation : Js.Collation}.

(** Two arrangements of the same elements sort to the same list when the
    comparator ties no two different elements. *)
Lemma sort_permutation_eq {A} (cmp : A → A → Z) (l1 l2 : list A) :
  (∀ a b, Js.no_later cmp a b ∨ Js.no_later cmp b a) →
  (∀ a b c, Js.no_later cmp a b → Js.no_later cmp b c → Js.no_later cmp a c) →
  (∀ a b, a ∈ l1 → b ∈ l1 → Js.no_later cmp a b → Js.no_later cmp b a → a = b) →
  l1 ≡ₚ l2 → Js.sort cmp l1 = Js.sort cmp l2.
Proof.
  intros Htot Htrans Hanti Hperm.
  apply (StronglySorted_unique_strong (Js.no_later cmp)).
  - intros x1 x2 Hx1 Hx2. apply Hanti.
    + by rewrite sort_perm in Hx1.
    + by rewrite sort_perm, <- Hperm in Hx2.
  - by apply sort_sorted.
  - by apply sort_sorted.
  - by rewrite !sort_perm.
Qed.

(** X5. The display text of a selection does not depend on the order in
    which the seats were selected. *)
Theorem formatSeatsForDisplay_order_free (seats seats' : list string) :
  seats ≡ₚ seats' → formatSeatsForDisplay seats = formatSeatsForDisplay seats'.
Proof.
  intros Hperm. unfold formatSeatsForDisplay.
  destruct seats as [|s seats].
  { by apply Permutation_nil in Hperm as ->. }
  destruct seats' as [|s' seats'].
  { by apply Permutation_nil_r in Hperm. }
  f_equal. apply sort_permutation_eq; [| | |done].
  - intros a b. rewrite !defaultCompare_le. apply (total String.le).
  - intros a b c. rewrite !defaultCompare_le. apply transitivity.
  - intros a b _ _. rewrite !defaultCompare_le. apply (anti_symm String.le).
Qed.

(** An instance of X5. *)
Lemma formatSeatsForDisplay_witness :
  ["B2"; "A10"; "A1"] ≡ₚ reverse ["B2"; "A10"; "A1"]
  ∧ formatSeatsForDisplay ["B2"; "A10"; "A1"] = "A1, A10, B2"
  ∧ formatSeatsForDisplay ["B2"; "A10"; "A1"]
    = formatSeatsForDisplay (reverse ["B2"; "A10"; "A1"]).
Proof.
  assert (H : ["B2"; "A10"; "A1"] ≡ₚ reverse ["B2"; "A10"; "A1"])
    by (symmetry; apply reverse_Permutation).
  split; [exact H|]. split; [reflexivity|].
  apply (formatSeatsForDisplay_order_free _ _ H).
Defined.

Lemma NoDup_fmap_eq {X Y} (f : X → Y) (l : list X) x y :
  NoDup (f <$> l) → x ∈ l → y ∈ l → f x = f y → x = y.
Proof.
  induction l as [|z l IH]; [by intros _ ?%elem_of_nil|].
  rewrite fmap_cons. intros [Hz Hl]%NoDup_cons.
  intros [->|Hx]%elem_of_cons [->|Hy]%elem_of_cons Hf; [done| | |by apply IH].
  - exfalso. apply Hz. rewrite Hf. by apply list_elem_of_fmap_2.
  - exfalso. apply Hz. rewrite <- Hf. by apply list_elem_of_fmap_2.
Qed.

(** X6. The boarding sequence of a day does not depend on the order in
    which its bookings are stored, as long as no two bookings share an
    identifier and the host's collation, a consistent comparator, ties no
    two identifiers of the day: any rearrangement of the list gives the
    same sequence, numbers included. *)
Theorem boarding_sequence_order_free (bookings bookings' : list Booking) :
  Js.consistent Js.localeCompare →
  (∀ a b, a ∈ bookings → b ∈ bookings →
     Js.localeCompare (bookingId a) (bookingId b) = 0 → bookingId a = bookingId b) →
  NoDup (bookingId <$> bookings) → bookings ≡ₚ bookings' →
  calculateOptimalBoardingSequence bookings
  = calculateOptimalBoardingSequence bookings'.
Proof.
  intros Hc Hsep Hnd Hperm. rewrite !calculateOptimalBoardingSequence_unfold.
  f_equal. apply sort_permutation_eq.
  - intros a b. rewrite !compareBookings_spec. by apply boards_no_later_total.
  - intros a b c. rewrite !compareBookings_spec. by apply boards_no_later_trans.
  - intros a b (x & -> & Hx)%list_elem_of_fmap (y & -> & Hy)%list_elem_of_fmap.
    rewrite !compareBookings_spec. unfold boards_no_later.
    change (booking (addMetadata x)) with x.
    change (booking (addMetadata y)) with y.
    intros Hab Hba.
    assert (Js.localeCompare (bookingId x) (bookingId y) <= 0) as H1
      by intuition lia.
    assert (Js.localeCompare (bookingId y) (bookingId x) <= 0) as H2
      by intuition lia.
    f_equal. eapply (NoDup_fmap_eq bookingId); [exact Hnd|done..|].
    apply Hsep; [done..|].
    destruct Hc as [Hsym _]. specialize (Hsym (bookingId x) (bookingId y)).
    apply Z.sgn_nonpos in H1, H2. apply Z.sgn_null_iff. lia.
  - by apply fmap_Permutation.
Qed.

End OrderIndependence.

Section OrderIndependenceSamples.
Import Boarding.

(** An instance of X6: the sample day, stored back to front, on a host
    whose collation compares code units. *)
Lemma boarding_sequence_witness :
  NoDup (bookingId <$> Samples.fourBookings)
  ∧ calculateOptimalBoardingSequence (collation := Samples.byCodeUnits)
      Samples.fourBookings
    = calculateOptimalBoardingSequence (collation := Samples.byCodeUnits)
        (reverse Samples.fourBookings).
Proof.
  assert (Hnd : NoDup (bookingId <$> Samples.fourBookings)).
  { apply (bool_decide_unpack (NoDup (bookingId <$> Samples.fourBookings))).
    vm_compute. exact I. }
  split; [exact Hnd|].
  apply (boarding_sequence_order_free (collation := Samples.byCodeUnits) _ _
           byCodeUnits_consistent
           (λ a b _ _, byCodeUnits_separates (bookingId a) (bookingId b)) Hnd).
  symmetry. apply reverse_Permutation.
Defined.

End OrderIndependenceSamples.

(** ** The form validator as a whole *)

Section ValidationMore.
Import Validation.

Lemma checkDuplicateSeats_valid selected booked :
  isValid (checkDuplicateSeats selected booked) = true
  ↔ ∀ seat, seat ∈ selected → seat ∉ booked.
Proof.
  pose proof (checkDuplicateSeats_error selected booked) as H.
  destruct (checkDuplicateSeats selected booked) as [ds|e ds]; cbn [error isValid] in *.
  - split; [|done]. intros _ seat Hs Hb.
    destruct (proj2 H) as [? ?]; [by exists seat|done].
  - split; [done|]. intros Hno.
    destruct (proj1 H) as (seat & Hs & Hb); [by eexists|]. by destruct (Hno seat Hs).
Qed.

Lemma no_errors_bookingErrors fd booked existing :
  no_errors (bookingErrors fd booked existing) = true
  ↔ (∀ seat, seat ∈ seats fd → seat ∉ conflictSet fd booked)
    ∧ Z.of_nat (length (seats fd)) + existing <= 6.
Proof.
  rewrite <- checkDuplicateSeats_valid,
    <- (mobile_cap_iff (mobileNumber (normalized fd)) (travelDate fd)).
  unfold bookingErrors.
  destruct (checkDuplicateSeats _ _) as [ds|e ds]; cbn [isValid].
  - rewrite no_errors_set_error, no_errors_empty, andb_true_r. naive_solver.
  - split; [|by intros [? _]]. rewrite no_errors_true. intros H.
    by destruct (insert_non_empty (M := gmap string) ∅ "seats" e).
Qed.

(** X7. The validator accepts a candidate exactly when all five rules
    hold: the mobile, travel-date and seat-count rules, no selected seat
    among the seats the selection is checked against, and the selected
    seats together with the seats the mobile number already holds at most
    6. It accepts exactly when it reports no error, and it reports errors
    under the keys mobileNumber, travelDate and seats only. *)
Theorem validation_accepts_iff clock fd booked existing :
  let r := (validateBookingForm clock fd booked existing).1 in
  (formIsValid r = true
   ↔ isValid (validateMobileNumber (mobileNumber fd)) = true
     ∧ isValid (validateTravelDate clock (travelDate fd)) = true
     ∧ isValid (validateSeatSelection (seats fd)) = true
     ∧ (∀ seat, seat ∈ seats fd → seat ∉ conflictSet fd booked)
     ∧ Z.of_nat (length (seats fd)) + existing <= 6)
  ∧ (formIsValid r = true ↔ errors r = ∅)
  ∧ (∀ k, is_Some (errors r !! k) → k ∈ ["mobileNumber"; "travelDate"; "seats"]).
Proof.
  intros r. subst r. rewrite validateBookingForm_unfold. cbn [fst formIsValid errors].
  split_and!.
  - destruct (fieldRulesHold clock fd) eqn:Hf.
    + rewrite no_errors_bookingErrors.
      apply fieldRulesHold_true in Hf as (-> & -> & ->). naive_solver.
    + rewrite no_errors_fieldErrors, Hf. split; [done|].
      intros (Hm & Hd & Hs & _). unfold fieldRulesHold in Hf.
      by rewrite Hm, Hd, Hs in Hf.
  - apply no_errors_true.
  - intros k. destruct (fieldRulesHold clock fd).
    + rewrite lookup_bookingErrors. destruct (decide _) as [<-|]; [|by intros [??]].
      intros _. set_solver.
    + unfold fieldErrors. rewrite !lookup_set_error, lookup_empty.
      repeat (destruct (decide _) as [<-|]; [intros _; set_solver|]).
      by intros [??].
Qed.

Lemma normalized_mobile fd :
  validateMobileNumber (mobileNumber (normalized fd))
  = validateMobileNumber (mobileNumber fd).
Proof.
  unfold normalized.
  destruct (validateMobileNumber (mobileNumber fd)) as [c|e []] eqn:Hm; [|done].
  cbn [mobileNumber set_mobileNumber]. by eapply validateMobileNumber_cleaned.
Qed.

Lemma normalized_idem fd : normalized (normalized fd) = normalized fd.
Proof.
  unfold normalized at 1. rewrite normalized_mobile. unfold normalized.
  by destruct (validateMobileNumber (mobileNumber fd)).
Qed.

Lemma normalized_other_fields fd :
  travelDate (normalized fd) = travelDate fd
  ∧ seats (normalized fd) = seats fd
  ∧ bookingId (normalized fd) = bookingId fd
  ∧ currentSeats (normalized fd) = currentSeats fd.
Proof. unfold normalized. by destruct (validateMobileNumber _). Qed.

(** X8. Validating again changes nothing: on the candidate as the
    validator leaves it (mobile number cleaned), with the same booked
    seats and count, the validator returns the same result and leaves the
    candidate as it is. *)
Theorem revalidation_is_stable clock fd booked existing :
  validateBookingForm clock (validateBookingForm clock fd booked existing).2
    booked existing
  = validateBookingForm clock fd booked existing.
Proof.
  rewrite (validateBookingForm_unfold clock fd). cbn [snd].
  rewrite validateBookingForm_unfold.
  destruct (normalized_other_fields fd) as (Hd & Hs & Hi & Hc).
  assert (Hrules : fieldRulesHold clock (normalized fd) = fieldRulesHold clock fd).
  { unfold fieldRulesHold. by rewrite normalized_mobile, Hd, Hs. }
  assert (Hfield : fieldErrors clock (normalized fd) = fieldErrors clock fd).
  { unfold fieldErrors. by rewrite normalized_mobile, Hd, Hs. }
  assert (Hbook : bookingErrors (normalized fd) booked existing
                  = bookingErrors fd booked existing).
  { unfold bookingErrors, conflictSet. by rewrite normalized_idem, Hd, Hs, Hi, Hc. }
  by rewrite Hrules, Hfield, Hbook, normalized_idem.
Qed.

End ValidationMore.

(** ** Table views of the day's bookings *)

Section QueryFacts.
Import Boarding BoardingQueries.
Context {collation : Js.Collation} {A : Type} `{BookingLike A}.

Lemma sort_sorted_by {X} (cmp : X → X → Z) (R : relation X) (l : list X) :
  (∀ a b, Js.no_later cmp a b ↔ R a b) →
  (∀ a b, R a b ∨ R b a) → (∀ a b c, R a b → R b c → R a c) →
  StronglySorted R (Js.sort cmp l).
Proof.
  intros Hiff Htot Htrans.
  eapply StronglySorted_weaken; [|apply (sort_sorted cmp)].
  - intros a b. apply Hiff.
  - intros a b. rewrite !Hiff. apply Htot.
  - intros a b c. rewrite !Hiff. apply Htrans.
Qed.

(** A list that is in order already is left as it is. *)
Lemma sort_sorted_id {X} (cmp : X → X → Z) (l : list X) :
  StronglySorted (Js.no_later cmp) l → Js.sort cmp l = l.
Proof.
  induction 1 as [|x l Hl IH Hx]; [done|].
  simpl. fold (Js.sort cmp l). rewrite IH.
  destruct Hx as [|y l' Hy _]; [done|]. simpl.
  unfold Js.no_later in Hy. by destruct (Z.leb_spec (cmp x y) 0); [|lia].
Qed.

Lemma sort_insert_last {X} (cmp : X → X → Z) x (l : list X) :
  Forall (λ y, 0 < cmp x y) l → Js.sort_insert cmp x l = l ++ [x].
Proof.
  induction 1 as [|y l Hy _ IH]; [done|]. simpl.
  destruct (Z.leb_spec (cmp x y) 0); [lia|]. by rewrite IH.
Qed.

(** A list in which every element is to be placed after all later ones
    comes out reversed. *)
Lemma sort_reverses {X} (cmp : X → X → Z) (l : list X) :
  StronglySorted (λ a b, 0 < cmp a b) l → Js.sort cmp l = reverse l.
Proof.
  induction 1 as [|x l Hl IH Hx]; [done|].
  simpl. fold (Js.sort cmp l). rewrite IH, reverse_cons.
  apply sort_insert_last. by rewrite Forall_reverse.
Qed.

Lemma sortBookingsByColumn_unfold (bookings : list A) column direction :
  sortBookingsByColumn bookings column direction =
  Js.sort (λ a b, if bool_decide (direction = "desc")
                  then - columnComparison column a b
                  else columnComparison column a b) bookings.
Proof. by destruct bookings. Qed.

(** X9. Sorting the table never loses, repeats or invents a row, whatever
    the column and the direction; and for a column other than sequence,
    bookingId, seats and mobile the rows stay in the order given. *)
Theorem sortBookingsByColumn_permutes (bookings : list A) column direction :
  sortBookingsByColumn bookings column direction ≡ₚ bookings
  ∧ (column ∉ ["sequence"; "bookingId"; "seats"; "mobile"] →
     sortBookingsByColumn bookings column direction = bookings).
Proof.
  rewrite sortBookingsByColumn_unfold. split; [apply sort_perm|].
  intros Hcol. apply sort_sorted_id.
  assert (Hzero : ∀ a b, columnComparison column a b = 0).
  { intros a b. unfold columnComparison.
    destruct (bool_decide_reflect (column = "sequence")) as [->|_];
      [exfalso; apply Hcol; set_solver|].
    destruct (bool_decide_reflect (column = "bookingId")) as [->|_];
      [exfalso; apply Hcol; set_solver|].
    destruct (bool_decide_reflect (column = "seats")) as [->|_];
      [exfalso; apply Hcol; set_solver|].
    destruct (bool_decide_reflect (column = "mobile")) as [->|_];
      [exfalso; apply Hcol; set_solver|].
    done. }
  apply (StronglySorted_weaken (λ _ _, True)).
  - intros a b _. unfold Js.no_later. rewrite Hzero. by destruct (bool_decide _).
  - clear. induction bookings; constructor; [done|]. by apply Forall_true.
Qed.

Lemma columnComparison_sequence (a b : A) :
  columnComparison "sequence" a b
  = orZero (sequenceNumberOf a) - orZero (sequenceNumberOf b).
Proof. done. Qed.

Lemma columnComparison_bookingId (a b : A) :
  columnComparison "bookingId" a b
  = Js.localeCompare (bookingId (bookingOf a)) (bookingId (bookingOf b)).
Proof. done. Qed.

Lemma columnComparison_mobile (a b : A) :
  columnComparison "mobile" a b
  = Js.localeCompare (mobileNumber (bookingOf a)) (mobileNumber (bookingOf b)).
Proof. done. Qed.

Lemma consistent_flip {X} (cmp : X → X → Z) :
  Js.consistent cmp → ∀ a b, - cmp a b <= 0 ↔ cmp b a <= 0.
Proof.
  intros [Hsym _] a b. specialize (Hsym a b).
  destruct (Z.sgn_spec (cmp a b)) as [[? E1]|[[? E1]|[? E1]]],
    (Z.sgn_spec (cmp b a)) as [[? E2]|[[? E2]|[? E2]]];
    rewrite E1, E2 in Hsym; lia.
Qed.

(** Sorting by a text column with the host's collation. *)
Lemma sort_by_collation (text : A → string) (bookings : list A) direction :
  Js.consistent Js.localeCompare →
  StronglySorted
    (λ a b, if bool_decide (direction = "desc")
            then Js.localeCompare (text b) (text a) <= 0
            else Js.localeCompare (text a) (text b) <= 0)
    (Js.sort (λ a b, if bool_decide (direction = "desc")
                     then - Js.localeCompare (text a) (text b)
                     else Js.localeCompare (text a) (text b)) bookings).
Proof.
  intros Hc. destruct (bool_decide (direction = "desc")); apply sort_sorted_by.
  - intros a b. apply (consistent_flip _ Hc).
  - intros a b. apply (consistent_total _ Hc).
  - intros a b c Hab Hbc. destruct Hc as [_ Htrans]. by eapply Htrans.
  - done.
  - intros a b. apply (consistent_total _ Hc).
  - intros a b c Hab Hbc. destruct Hc as [_ Htrans]. by eapply Htrans.
Qed.

(** X10. By the column sequence the table comes out in ascending order of
    the sequence numbers (a missing one counting as 0), and in descending
    order for the direction desc. By bookingId and by mobile it comes out
    in the order of the host's collation, a consistent comparator:
    ascending, and descending for the direction desc. Every direction
    other than desc sorts ascending. *)
Theorem sortBookingsByColumn_sorts (bookings : list A) direction :
  StronglySorted
    (λ a b, if bool_decide (direction = "desc")
            then orZero (sequenceNumberOf b) <= orZero (sequenceNumberOf a)
            else orZero (sequenceNumberOf a) <= orZero (sequenceNumberOf b))
    (sortBookingsByColumn bookings "sequence" direction)
  ∧ (Js.consistent Js.localeCompare →
     StronglySorted
       (λ a b, if bool_decide (direction = "desc")
               then Js.localeCompare (bookingId (bookingOf b))
                      (bookingId (bookingOf a)) <= 0
               else Js.localeCompare (bookingId (bookingOf a))
                      (bookingId (bookingOf b)) <= 0)
       (sortBookingsByColumn bookings "bookingId" direction)
     ∧ StronglySorted
         (λ a b, if bool_decide (direction = "desc")
                 then Js.localeCompare (mobileNumber (bookingOf b))
                        (mobileNumber (bookingOf a)) <= 0
                 else Js.localeCompare (mobileNumber (bookingOf a))
                        (mobileNumber (bookingOf b)) <= 0)
         (sortBookingsByColumn bookings "mobile" direction)).
Proof.
  rewrite !sortBookingsByColumn_unfold. split.
  - destruct (bool_decide (direction = "desc")); apply sort_sorted_by;
      intros; unfold Js.no_later; cbv beta iota;
      rewrite ?columnComparison_sequence; lia.
  - intros Hc. split.
    + apply (sort_by_collation (λ a, bookingId (bookingOf a)) _ _ Hc).
    + apply (sort_by_collation (λ a, mobileNumber (bookingOf a)) _ _ Hc).
Qed.

Lemma toLowerChar_idem c : JsText.toLowerChar (JsText.toLowerChar c) = JsText.toLowerChar c.
Proof. destruct c as [[] [] [] [] [] [] [] []]; reflexivity. Qed.

Lemma is_space_toLowerChar c : Js.is_space (JsText.toLowerChar c) = Js.is_space c.
Proof. destruct c as [[] [] [] [] [] [] [] []]; reflexivity. Qed.

Lemma toLowerCase_idem s : JsText.toLowerCase (JsText.toLowerCase s) = JsText.toLowerCase s.
Proof. induction s as [|c s IH]; [done|]. simpl. by rewrite toLowerChar_idem, IH. Qed.

Lemma drop_spaces_toLowerCase s :
  Js.drop_spaces (JsText.toLowerCase s) = JsText.toLowerCase (Js.drop_spaces s).
Proof.
  induction s as [|c s IH]; [done|]. simpl.
  rewrite is_space_toLowerChar. by destruct (Js.is_space c).
Qed.

Lemma trimEnd_toLowerCase s :
  JsText.trimEnd (JsText.toLowerCase s) = JsText.toLowerCase (JsText.trimEnd s).
Proof.
  induction s as [|c s IH]; [done|]. simpl. rewrite IH, is_space_toLowerChar.
  destruct (JsText.trimEnd s); simpl; [by destruct (Js.is_space c)|done].
Qed.

Lemma trim_toLowerCase s :
  JsText.trim (JsText.toLowerCase s) = JsText.toLowerCase (JsText.trim s).
Proof. unfold JsText.trim. by rewrite drop_spaces_toLowerCase, trimEnd_toLowerCase. Qed.

Lemma toLowerCase_empty s : JsText.toLowerCase s = "" ↔ s = "".
Proof. by destruct s. Qed.

Lemma filterBookingsBySearch_blank (bookings : list A) t :
  JsText.trim t = "" → filterBookingsBySearch bookings t = bookings.
Proof.
  intros Ht. unfold filterBookingsBySearch. rewrite Ht.
  by rewrite orb_true_r.
Qed.

Lemma filterBookingsBySearch_lower (bookings : list A) searchTerm :
  filterBookingsBySearch bookings (JsText.toLowerCase searchTerm)
  = filterBookingsBySearch bookings searchTerm.
Proof.
  unfold filterBookingsBySearch.
  rewrite toLowerCase_idem, trim_toLowerCase.
  assert (Hblank : bool_decide (JsText.toLowerCase searchTerm = "")
                   || bool_decide (JsText.toLowerCase (JsText.trim searchTerm) = "")
                   = bool_decide (searchTerm = "")
                     || bool_decide (JsText.trim searchTerm = "")).
  { f_equal; apply bool_decide_ext, toLowerCase_empty. }
  by rewrite Hblank.
Qed.

(** X11. The search leaves the rows in their order and adds none; a term
    that is empty or blank keeps every row; and the case of the term does
    not matter: the term and its lower-case form find the same rows. *)
Theorem filterBookingsBySearch_term (bookings : list A) searchTerm :
  sublist (filterBookingsBySearch bookings searchTerm) bookings
  ∧ (JsText.trim searchTerm = "" →
     filterBookingsBySearch bookings searchTerm = bookings)
  ∧ filterBookingsBySearch bookings (JsText.toLowerCase searchTerm)
    = filterBookingsBySearch bookings searchTerm.
Proof.
  split_and!.
  - unfold filterBookingsBySearch. destruct (_ || _); [done|apply sublist_filter].
  - apply filterBookingsBySearch_blank.
  - apply filterBookingsBySearch_lower.
Qed.

Lemma starts_with_trimEnd s : Js.starts_with (JsText.trimEnd s) s = true.
Proof.
  induction s as [|c s IH]; [done|]. simpl.
  destruct (JsText.trimEnd s) as [|d r] eqn:Ht.
  - destruct (Js.is_space c); simpl; [done|]. by rewrite Ascii.eqb_refl.
  - change (Js.starts_with (String c (String d r)) (String c s))
      with (Ascii.eqb c c && Js.starts_with (String d r) s).
    by rewrite Ascii.eqb_refl, IH.
Qed.

Lemma includes_starts_with pat s : Js.starts_with pat s = true → JsText.includes pat s = true.
Proof. intros Hs. destruct s; simpl; by rewrite Hs. Qed.

Lemma includes_drop_spaces pat s :
  JsText.includes pat (Js.drop_spaces s) = true → JsText.includes pat s = true.
Proof.
  induction s as [|c s IH]; [done|]. simpl Js.drop_spaces.
  destruct (Js.is_space c); [|done]. intros Hs.
  cbn [JsText.includes]. rewrite (IH Hs). apply orb_true_r.
Qed.

(** A string holds its trimmed form. *)
Lemma includes_trim s : JsText.includes (JsText.trim s) s = true.
Proof.
  apply includes_drop_spaces, includes_starts_with, starts_with_trimEnd.
Qed.

Lemma toLowerCase_digits s :
  Js.all_chars Js.is_digit s = true → JsText.toLowerCase s = s.
Proof.
  induction s as [|c s IH]; [done|]. simpl.
  intros [Hc Hs]%andb_prop. rewrite (IH Hs). f_equal.
  destruct c as [[] [] [] [] [] [] [] []]; try discriminate Hc; reflexivity.
Qed.

(** X12. Every row is found by its own booking identifier, in whatever
    case it is typed, and by its own mobile number when that consists of
    digits. *)
Theorem filterBookingsBySearch_finds_own (bookings : list A) (b : A) :
  b ∈ bookings →
  b ∈ filterBookingsBySearch bookings (bookingId (bookingOf b))
  ∧ b ∈ filterBookingsBySearch bookings (JsText.toLowerCase (bookingId (bookingOf b)))
  ∧ (Js.all_chars Js.is_digit (mobileNumber (bookingOf b)) = true →
     b ∈ filterBookingsBySearch bookings (mobileNumber (bookingOf b))).
Proof.
  intros Hb.
  assert (Hid : b ∈ filterBookingsBySearch bookings (bookingId (bookingOf b))).
  { unfold filterBookingsBySearch. destruct (_ || _); [done|].
    apply list_elem_of_filter. split; [|done].
    by rewrite includes_trim. }
  split_and!; [done| |].
  - by rewrite filterBookingsBySearch_lower.
  - intros Hdig. unfold filterBookingsBySearch. destruct (_ || _); [done|].
    apply list_elem_of_filter. split; [|done].
    rewrite (toLowerCase_digits _ Hdig), includes_trim. by rewrite orb_true_r.
Qed.

End QueryFacts.

(** An instance of X12: the third booking of the sample day. *)
Lemma filterBookingsBySearch_witness :
  Samples.aBooking "BK-20300101-000003" ["C10"; "D10"] ∈ Samples.fourBookings
  ∧ BoardingQueries.filterBookingsBySearch Samples.fourBookings "bk-20300101-000003"
    = [Samples.aBooking "BK-20300101-000003" ["C10"; "D10"]]
  ∧ Samples.aBooking "BK-20300101-000003" ["C10"; "D10"]
    ∈ BoardingQueries.filterBookingsBySearch Samples.fourBookings "BK-20300101-000003".
Proof.
  assert (Hin : Samples.aBooking "BK-20300101-000003" ["C10"; "D10"]
                ∈ Samples.fourBookings).
  { unfold Samples.fourBookings. do 2 right. left. }
  split; [exact Hin|]. split; [reflexivity|].
  exact (proj1 (filterBookingsBySearch_finds_own Samples.fourBookings _ Hin)).
Defined.

(** ** The planner's sequence in the table and at the gate *)

Section PlannerViews.
Import Boarding BoardingQueries.
Context {collation : Js.Collation}.

Lemma imap_increasing {X Y} (key : Y → Z) (f : nat → X → Y) (l : list X) :
  (∀ i j x y, (i < j)%nat → key (f i x) < key (f j y)) →
  StronglySorted (λ a b, key a < key b) (imap f l).
Proof.
  revert f. induction l as [|x l IH]; intros f Hf; [constructor|].
  rewrite imap_cons. constructor.
  - apply IH. intros i j a b Hij. apply Hf. lia.
  - apply Forall_forall. intros y (i & z & -> & _)%elem_of_lookup_imap.
    apply Hf. lia.
Qed.

(** The sequence numbers of the planner's output grow along the list. *)
Lemma sequence_numbers_increase bookings :
  StronglySorted (λ s t, sequenceNumber s < sequenceNumber t)
    (calculateOptimalBoardingSequence bookings).
Proof.
  rewrite calculateOptimalBoardingSequence_unfold.
  apply (imap_increasing sequenceNumber). intros i j x y Hij. simpl. lia.
Qed.

(** X13. Sorting the planner's sequence by the column sequence gives the
    sequence back in the direction asc and the sequence reversed in the
    direction desc. *)
Theorem sorted_by_sequence_is_boarding_order (bookings : list Booking) :
  sortBookingsByColumn (calculateOptimalBoardingSequence bookings) "sequence" "asc"
  = calculateOptimalBoardingSequence bookings
  ∧ sortBookingsByColumn (calculateOptimalBoardingSequence bookings) "sequence" "desc"
    = reverse (calculateOptimalBoardingSequence bookings).
Proof.
  rewrite !sortBookingsByColumn_unfold. split.
  - apply sort_sorted_id.
    apply (StronglySorted_weaken (λ s t, sequenceNumber s < sequenceNumber t));
      [|apply sequence_numbers_increase].
    intros s t Hst. unfold Js.no_later.
    destruct (bool_decide_reflect ("asc" = "desc")) as [?|_]; [done|].
    rewrite columnComparison_sequence. simpl. lia.
  - apply sort_reverses.
    apply (StronglySorted_weaken (λ s t, sequenceNumber s < sequenceNumber t));
      [|apply sequence_numbers_increase].
    intros s t Hst.
    destruct (bool_decide_reflect ("desc" = "desc")) as [_|?]; [|done].
    rewrite columnComparison_sequence. simpl. lia.
Qed.

End PlannerViews.

(** ** Who boards next, and how far boarding is *)

Section GateFacts.
Import Boarding BoardingQueries.
Context {collation : Js.Collation}.

Lemma StronglySorted_filter {X} (R : relation X) (P : X → Prop)
    `{!∀ x, Decision (P x)} (l : list X) :
  StronglySorted R l → StronglySorted R (filter P l).
Proof.
  induction 1 as [|x l Hl IH Hx]; [constructor|].
  rewrite filter_cons. destruct (decide (P x)); [|done].
  constructor; [done|]. apply Forall_forall. intros y [_ Hy]%list_elem_of_filter.
  by eapply Forall_forall in Hx.
Qed.

Lemma filter_none {X} (P : X → Prop) `{!∀ x, Decision (P x)} (l : list X) :
  (∀ x, x ∈ l → ¬ P x) → filter P l = [].
Proof.
  induction l as [|x l IH]; intros Hno; [done|].
  rewrite filter_cons. destruct (decide (P x)) as [Hx|_].
  - destruct (Hno x); [by left|done].
  - apply IH. intros y Hy. apply Hno. by right.
Qed.

Lemma getNextPassengerToBoard_unfold {A} `{BookingLike A} (bookings : list A) :
  getNextPassengerToBoard bookings =
  head (filter (λ b, boardingStatus (bookingOf b) ≠ "boarded")
               (Js.sort sequenceDifference bookings)).
Proof. by destruct bookings. Qed.

Lemma areAllPassengersBoarded_spec {A} `{BookingLike A} (bookings : list A) :
  areAllPassengersBoarded bookings = true
  ↔ ∀ b, b ∈ bookings → boardingStatus (bookingOf b) = "boarded".
Proof.
  assert (Hall : forallb (λ b, bool_decide (boardingStatus (bookingOf b) = "boarded"))
                   bookings = true
                 ↔ ∀ b, b ∈ bookings → boardingStatus (bookingOf b) = "boarded").
  { rewrite <- Is_true_true, forallb_True, Forall_forall.
    apply forall_proper. intros b.
    by rewrite bool_decide_spec. }
  destruct bookings; [|done]. split; [|done]. by intros _ b ?%elem_of_nil.
Qed.

(** X14. Nobody is next exactly when all have boarded; otherwise the
    booking returned is one of the given bookings and has not boarded. *)
Theorem next_passenger_iff_not_all_boarded {A} `{BookingLike A} (bookings : list A) :
  (getNextPassengerToBoard bookings = None
   ↔ areAllPassengersBoarded bookings = true)
  ∧ (∀ next, getNextPassengerToBoard bookings = Some next →
       next ∈ bookings ∧ boardingStatus (bookingOf next) ≠ "boarded").
Proof.
  rewrite getNextPassengerToBoard_unfold, areAllPassengersBoarded_spec. split.
  - rewrite head_None. split.
    + intros Hnil b Hb. destruct (decide (boardingStatus (bookingOf b) = "boarded"))
        as [|Hne]; [done|].
      exfalso. eapply (filter_nil_not_elem_of _ _ b); [exact Hnil|exact Hne|].
      by rewrite sort_perm.
    + intros Hall. apply filter_none. intros b Hb Hne.
      apply Hne, Hall. by rewrite sort_perm in Hb.
  - intros next Hnext%head_Some_elem_of%list_elem_of_filter.
    destruct Hnext as [Hst Hin]. by rewrite sort_perm in Hin.
Qed.

Lemma sequenceDifference_sequenced (s t : SequencedBooking) :
  sequenceDifference s t = sequenceNumber s - sequenceNumber t.
Proof. done. Qed.

(** X15. Among bookings that carry sequence numbers, the next to board
    is a booking that has not boarded with the least sequence number of
    those; on the planner's sequence it is the first one in the sequence
    that has not boarded. *)
Theorem next_passenger_is_first_in_sequence (sequence : list SequencedBooking) :
  match getNextPassengerToBoard sequence with
  | Some next =>
      next ∈ sequence
      ∧ boardingStatus (bookingOf next) ≠ "boarded"
      ∧ ∀ other, other ∈ sequence → boardingStatus (bookingOf other) ≠ "boarded" →
                 sequenceNumber next <= sequenceNumber other
  | None => ∀ other, other ∈ sequence → boardingStatus (bookingOf other) = "boarded"
  end
  ∧ ∀ bookings,
      getNextPassengerToBoard (calculateOptimalBoardingSequence bookings)
      = head (filter (λ s, boardingStatus (bookingOf s) ≠ "boarded")
                     (calculateOptimalBoardingSequence bookings)).
Proof.
  split.
  - rewrite getNextPassengerToBoard_unfold.
    assert (Hsorted : StronglySorted (λ s t, sequenceNumber s <= sequenceNumber t)
                        (Js.sort sequenceDifference sequence)).
    { apply sort_sorted_by; intros; unfold Js.no_later;
        rewrite ?sequenceDifference_sequenced; lia. }
    apply (StronglySorted_filter _
             (λ b, boardingStatus (bookingOf b) ≠ "boarded")) in Hsorted.
    destruct (filter _ (Js.sort sequenceDifference sequence)) as [|next rest] eqn:Hf;
      cbn [head].
    + intros other Hin.
      destruct (decide (boardingStatus (bookingOf other) = "boarded")) as [|Hne];
        [done|].
      exfalso. eapply (filter_nil_not_elem_of _ _ other); [exact Hf|exact Hne|].
      by rewrite sort_perm.
    + assert (Hnext : next ∈ filter (λ b, boardingStatus (bookingOf b) ≠ "boarded")
                               (Js.sort sequenceDifference sequence))
        by (rewrite Hf; left).
      apply list_elem_of_filter in Hnext as [Hst Hin]. rewrite sort_perm in Hin.
      split_and!; [done..|]. intros other Ho Hno.
      assert (Hother : other ∈ next :: rest).
      { rewrite <- Hf. apply list_elem_of_filter. by rewrite sort_perm. }
      apply StronglySorted_cons in Hsorted as [Hle _].
      apply elem_of_cons in Hother as [->|Hother]; [lia|].
      by eapply Forall_forall in Hle.
  - intros bookings. rewrite getNextPassengerToBoard_unfold. do 2 f_equal.
    apply sort_sorted_id.
    apply (StronglySorted_weaken (λ s t, sequenceNumber s < sequenceNumber t));
      [|apply sequence_numbers_increase].
    intros s t Hst. unfold Js.no_later. rewrite sequenceDifference_sequenced. lia.
Qed.

Lemma foldl_passengers (acc : Z) (bookings : list Booking) :
  foldl (λ sum booking, sum + Z.of_nat (length (seats booking))) acc bookings
  = acc + passengers bookings.
Proof.
  unfold passengers. revert acc.
  induction bookings as [|b bookings IH]; intros acc; simpl; [lia|].
  rewrite IH, (IH (0 + _)). lia.
Qed.

Lemma passengers_cons b bookings :
  passengers (b :: bookings) = Z.of_nat (length (seats b)) + passengers bookings.
Proof. unfold passengers at 1. simpl. by rewrite foldl_passengers. Qed.

Lemma passengers_split (P : Booking → Prop) `{!∀ b, Decision (P b)} bookings :
  passengers bookings
  = passengers (filter P bookings) + passengers (filter (λ b, ¬ P b) bookings)
  ∧ 0 <= passengers (filter P bookings).
Proof.
  induction bookings as [|b bookings [IH1 IH2]]; [done|].
  rewrite !filter_cons, passengers_cons.
  destruct (decide (P b)), (decide (¬ P b)); try done;
    rewrite ?passengers_cons; lia.
Qed.

Lemma calculateBoardingStatistics_unfold bookings :
  calculateBoardingStatistics bookings =
  {| totalBookings := Z.of_nat (length bookings);
     totalPassengers := passengers bookings;
     boardedPassengers :=
       passengers (filter (λ b, boardingStatus b = "boarded") bookings);
     notBoardedPassengers :=
       passengers bookings
       - passengers (filter (λ b, boardingStatus b = "boarded") bookings);
     boardingProgress :=
       JsText.round
         (if 0 <? passengers bookings
          then Js.mul
                 (Js.div (passengers (filter (λ b, boardingStatus b = "boarded")
                                             bookings))
                    (passengers bookings)) 100
          else Js.Fin (inject_Z 0)) |}.
Proof. by destruct bookings. Qed.

(** X16. The statistics split the passengers of the day: the boarded and
    the not boarded passengers add up to all passengers, the not boarded
    ones are the passengers of the bookings whose status is not boarded,
    no count is negative, and the number of bookings is the length of the
    list. *)
Theorem statistics_split_passengers (bookings : list Booking) :
  let st := calculateBoardingStatistics bookings in
  totalBookings st = Z.of_nat (length bookings)
  ∧ boardedPassengers st + notBoardedPassengers st = totalPassengers st
  ∧ notBoardedPassengers st
    = passengers (filter (λ b, boardingStatus b ≠ "boarded") bookings)
  ∧ 0 <= boardedPassengers st <= totalPassengers st
  ∧ 0 <= notBoardedPassengers st.
Proof.
  intros st. subst st. rewrite calculateBoardingStatistics_unfold; simpl.
  destruct (passengers_split (λ b, boardingStatus b = "boarded") bookings)
    as [Hsplit Hpos].
  destruct (passengers_split (λ b, boardingStatus b ≠ "boarded") bookings)
    as [_ Hpos'].
  split_and!; lia.
Qed.

(** X17. The boarding progress is a whole number from 0 to 100: it is 0
    when the day has no passenger (the division is not made) or nobody
    has boarded, and 100 when every passenger has boarded. *)
Theorem statistics_progress_in_range (bookings : list Booking) :
  let st := calculateBoardingStatistics bookings in
  ∃ percent, boardingProgress st = Js.Fin (inject_Z percent)
             ∧ 0 <= percent <= 100
             ∧ (totalPassengers st = 0 → percent = 0)
             ∧ (boardedPassengers st = 0 → percent = 0)
             ∧ (0 < totalPassengers st →
                boardedPassengers st = totalPassengers st → percent = 100).
Proof.
  intros st. subst st. rewrite calculateBoardingStatistics_unfold; simpl.
  destruct (passengers_split (λ b, boardingStatus b = "boarded") bookings)
    as [Hsplit Hpos].
  destruct (passengers_split (λ b, boardingStatus b ≠ "boarded") bookings)
    as [_ Hpos'].
  set (t := passengers bookings) in *.
  set (b := passengers (filter _ bookings)) in *.
  destruct (Z.ltb_spec 0 t) as [Ht|Ht].
  - unfold Js.div. destruct (Z.eqb_spec t 0) as [?|_]; [lia|].
    destruct t as [|p|p]; try lia. simpl Js.mul. unfold JsText.round.
    exists ((2 * (100 * b) + Z.pos p) / (2 * Z.pos p)).
    split; [f_equal; f_equal; apply nearest_integer_ratio|].
    assert (Hb : 0 <= b <= Z.pos p) by lia.
    pose proof (Z.mul_div_le (2 * (100 * b) + Z.pos p) (2 * Z.pos p) ltac:(lia)).
    pose proof (Z.mul_succ_div_gt (2 * (100 * b) + Z.pos p) (2 * Z.pos p) ltac:(lia)).
    split_and!; try nia.
  - exists 0. split; [done|]. split_and!; lia.
Qed.

End GateFacts.

(** ** Saving, cancelling and marking bookings *)

Section RepositoryFacts.
Import Storage StorageQueries.

(** A write succeeds exactly in the in-memory mode or when the host
    accepts it; then the store is the one written, otherwise it is as
    before. *)
Lemma saveBookingsToStorage_exact writeOk data w a :
  _localStorageAvailable w = Some a →
  (saveBookingsToStorage writeOk data w).1 = negb a || writeOk
  ∧ currentStore (saveBookingsToStorage writeOk data w).2
    = (if negb a || writeOk then data else currentStore w)
  ∧ _localStorageAvailable (saveBookingsToStorage writeOk data w).2 = Some a.
Proof.
  unfold currentStore, saveBookingsToStorage, getBookingsFromStorage,
    isLocalStorageAvailable.
  destruct w as [cache works item mem con]; simpl. intros ->.
  destruct a, writeOk; simpl; split_and!; try done; try (by destruct data).
  destruct item as [[| |p]|]; try done. by destruct (well_shaped p).
Qed.

Lemma usesLocalStorage_settled w a :
  _localStorageAvailable w = Some a → usesLocalStorage w = a.
Proof.
  unfold usesLocalStorage, isLocalStorageAvailable. by intros ->.
Qed.

Lemma saveBooking_exact writeOk b w :
  match findIndex_bookingId (bookings (currentStore w)) (bookingId b) with
  | None =>
      success (saveBooking writeOk b w).1 = false
      ∧ currentStore (saveBooking writeOk b w).2 = currentStore w
  | Some existingIndex =>
      success (saveBooking writeOk b w).1 = negb (usesLocalStorage w) || writeOk
      ∧ currentStore (saveBooking writeOk b w).2
        = (if negb (usesLocalStorage w) || writeOk
           then upserted (currentStore w) b existingIndex
           else currentStore w)
      ∧ (success (saveBooking writeOk b w).1 = true →
         message (saveBooking writeOk b w).1
         = match existingIndex with
           | Some _ => "Booking updated successfully!"
           | None => "Booking created successfully!"
           end)
  end.
Proof.
  destruct (getBookingsFromStorage_settles w) as [Hcur Hav].
  assert (Hw : currentStore w = (getBookingsFromStorage w).1) by done.
  rewrite !Hw. unfold saveBooking.
  destruct (getBookingsFromStorage w) as [data w1]. simpl in Hcur, Hav |- *.
  destruct (findIndex_bookingId (bookings data) (bookingId b)) as [idx|] eqn:Hidx.
  - destruct (saveBookingsToStorage_exact writeOk (upserted data b idx) w1 _ Hav)
      as (Hok & Hst & _).
    unfold upserted in Hok, Hst.
    destruct idx as [i|];
      destruct (saveBookingsToStorage writeOk _ w1) as [ok w2];
      simpl in Hok, Hst |- *; subst ok;
      destruct (negb (usesLocalStorage w) || writeOk); simpl;
      rewrite ?currentStore_log, Hst, ?Hcur; done.
  - simpl. by rewrite currentStore_log, Hcur.
Qed.


Lemma filter_out_bookingId_filter bs id remaining :
  filter_out_bookingId bs id = Some remaining →
  remaining = filter (λ b, has_bookingId b id = false) bs.
Proof.
  revert remaining. induction bs as [|b bs IH]; intros remaining; simpl.
  - by intros [= <-].
  - destruct (filter_out_bookingId bs id) as [r|]; [|by destruct b].
    rewrite (IH r eq_refl). rewrite filter_cons.
    destruct b; try done;
      (destruct (has_bookingId _ id) eqn:Hb; intros [= <-];
       case_decide; congruence).
Qed.

Lemma filter_out_bookingId_None bs id :
  filter_out_bookingId bs id = None ↔ JNull ∈ bs.
Proof.
  induction bs as [|b bs IH]; simpl.
  - split; [done|]. by intros ?%elem_of_nil.
  - rewrite elem_of_cons, <- IH.
    destruct b; [naive_solver|..];
      (destruct (filter_out_bookingId bs id); naive_solver).
Qed.

Lemma length_filter_same {X} (P : X → Prop) `{∀ x, Decision (P x)} (l : list X) :
  length (filter P l) = length l ↔ Forall P l.
Proof.
  induction l as [|x l IH]; [by split|].
  rewrite filter_cons, Forall_cons. pose proof (length_filter P l) as Hle.
  destruct (decide (P x)); simpl.
  - rewrite <- IH. split; [intros [= ->]; done|intros [_ ->]; done].
  - split; [lia|by intros [? _]].
Qed.

Lemma deleteBooking_exact writeOk id w :
  match filter_out_bookingId (bookings (currentStore w)) id with
  | None =>
      deleted (deleteBooking writeOk id w).1 = false
      ∧ currentStore (deleteBooking writeOk id w).2 = currentStore w
  | Some remaining =>
      if bool_decide (length remaining = length (bookings (currentStore w))) then
        deleted (deleteBooking writeOk id w).1 = false
        ∧ deleteMessage (deleteBooking writeOk id w).1 = "Booking not found."
        ∧ currentStore (deleteBooking writeOk id w).2 = currentStore w
      else
        deleted (deleteBooking writeOk id w).1 = negb (usesLocalStorage w) || writeOk
        ∧ deleteMessage (deleteBooking writeOk id w).1
          = (if negb (usesLocalStorage w) || writeOk
             then "Booking cancelled successfully!" else "Unable to cancel booking.")
        ∧ currentStore (deleteBooking writeOk id w).2
          = (if negb (usesLocalStorage w) || writeOk
             then {| bookings := remaining;
                     lastBookingNumber := lastBookingNumber (currentStore w) |}
             else currentStore w)
  end.
Proof.
  destruct (getBookingsFromStorage_settles w) as [Hcur Hav].
  assert (Hw : currentStore w = (getBookingsFromStorage w).1) by done.
  rewrite !Hw. unfold deleteBooking.
  destruct (getBookingsFromStorage w) as [data w1]. simpl in Hcur, Hav |- *.
  destruct (filter_out_bookingId (bookings data) id) as [remaining|].
  - destruct (bool_decide_reflect (length remaining = length (bookings data))).
    + simpl. by rewrite Hcur.
    + destruct (saveBookingsToStorage_exact writeOk
                  {| bookings := remaining;
                     lastBookingNumber := lastBookingNumber data |} w1 _ Hav)
        as (Hok & Hst & _).
      destruct (saveBookingsToStorage writeOk _ w1) as [ok w2].
      simpl in Hok, Hst |- *. subst ok. rewrite Hst, Hcur.
      by destruct (negb (usesLocalStorage w) || writeOk).
  - simpl. by rewrite currentStore_log, Hcur.
Qed.

(** X19. [deleteBooking] succeeds exactly when no stored element is
    null, some stored booking carries the identifier and the write is
    accepted. On success every booking with that identifier is gone, the
    other bookings are kept in their order, and the counter is as before,
    so the number of a cancelled booking is not handed out again. When it
    does not succeed the store is as before, and an identifier that no
    stored booking carries is reported as not found. *)
Theorem deleteBooking_removes writeOk id w :
  let before := currentStore w in
  let result := (deleteBooking writeOk id w).1 in
  let after := currentStore (deleteBooking writeOk id w).2 in
  (deleted result = true
   ↔ (JNull ∉ bookings before)
     ∧ (∃ b, b ∈ bookings before ∧ has_bookingId b id = true)
     ∧ (usesLocalStorage w = false ∨ writeOk = true))
  ∧ (deleted result = true →
     bookings after = filter (λ b, has_bookingId b id = false) (bookings before)
     ∧ (length (bookings after) < length (bookings before))%nat
     ∧ lastBookingNumber after = lastBookingNumber before
     ∧ deleteMessage result = "Booking cancelled successfully!")
  ∧ (deleted result = false → after = before)
  ∧ (JNull ∉ bookings before →
     (∀ b, b ∈ bookings before → has_bookingId b id = false) →
     deleteMessage result = "Booking not found.").
Proof.
  intros before result after. subst before result after.
  pose proof (deleteBooking_exact writeOk id w) as H.
  pose proof (filter_out_bookingId_None (bookings (currentStore w)) id) as Hnone.
  destruct (filter_out_bookingId _ id) as [remaining|] eqn:Hrem.
  - assert (Hnull : JNull ∉ bookings (currentStore w)).
    { intros Hin. by apply Hnone in Hin. }
    apply filter_out_bookingId_filter in Hrem. subst remaining.
    pose proof (length_filter_same (λ b, has_bookingId b id = false)
                  (bookings (currentStore w))) as Hsame.
    pose proof (length_filter (λ b, has_bookingId b id = false)
                  (bookings (currentStore w))) as Hle.
    destruct (bool_decide_reflect
                (length (filter (λ b, has_bookingId b id = false)
                           (bookings (currentStore w)))
                 = length (bookings (currentStore w)))) as [Hlen|Hlen].
    + destruct H as (Hd & Hm & Hst). rewrite Hd, Hm, Hst.
      apply Hsame in Hlen. rewrite Forall_forall in Hlen.
      split_and!; try done. split; [done|].
      intros (_ & (b & Hb & Hid) & _). rewrite (Hlen b Hb) in Hid. done.
    + destruct H as (Hd & Hm & Hst). rewrite Hd, Hm, Hst.
      assert (Hex : ∃ b, b ∈ bookings (currentStore w) ∧ has_bookingId b id = true).
      { assert (Hnot : ¬ Forall (λ b, has_bookingId b id = false)
                           (bookings (currentStore w))) by by rewrite <- Hsame.
        apply not_Forall_Exists in Hnot; [|apply _].
        apply Exists_exists in Hnot as (b & Hb & Hid). exists b. split; [done|].
        simpl in Hid. by destruct (has_bookingId b id). }
      split_and!.
      * destruct (usesLocalStorage w), writeOk; simpl; split; try done;
          try (by intros (_ & _ & [?|?])); intros _; split_and!; auto.
      * intros Htrue. rewrite Htrue. simpl. split_and!; [done|lia|done..].
      * by intros ->.
      * intros _ Hall. destruct Hex as (b & Hb & Hid).
        rewrite (Hall b Hb) in Hid. done.
  - destruct H as [Hd Hst]. rewrite Hd, Hst.
    assert (Hnull : JNull ∈ bookings (currentStore w)) by by apply Hnone.
    split_and!; try done. split; [done|]. by intros [? _].
Qed.

Lemma findIndex_bookingId_first bs id i :
  findIndex_bookingId bs id = Some (Some i) →
  ∃ old, bs !! i = Some old ∧ has_bookingId old id = true
         ∧ ∀ j b, (j < i)%nat → bs !! j = Some b → has_bookingId b id = false.
Proof.
  revert i. induction bs as [|x bs IH]; intros i; simpl; [done|].
  assert (Hstep :
    (if has_bookingId x id then Some (Some 0%nat)
     else (λ i : option nat, S <$> i) <$> findIndex_bookingId bs id) = Some (Some i) →
    ∃ old, (x :: bs) !! i = Some old ∧ has_bookingId old id = true
           ∧ ∀ j b, (j < i)%nat → (x :: bs) !! j = Some b → has_bookingId b id = false).
  { destruct (has_bookingId x id) eqn:Hx.
    - intros [= <-]. exists x. split_and!; [done..|]. intros j b Hj. lia.
    - destruct (findIndex_bookingId bs id) as [[k|]|]; simpl; try done.
      intros [= <-]. destruct (IH k eq_refl) as (old & Hk & Hold & Hbefore).
      exists old. split_and!; [done..|].
      intros [|j] b Hj; simpl; [by intros [= <-]|].
      apply Hbefore. lia. }
  destruct x; try done; apply Hstep.
Qed.

Lemma assoc_set_member k v members k' :
  assoc k' (set_member k v members)
  = if bool_decide (k = k') then Some v else assoc k' members.
Proof.
  induction members as [|[k0 v0] members IH]; simpl.
  - done.
  - destruct (bool_decide_reflect (k0 = k)) as [->|Hne]; simpl.
    + by destruct (bool_decide_reflect (k = k')).
    + rewrite IH. destruct (bool_decide_reflect (k0 = k')) as [->|?]; [|done].
      by destruct (bool_decide_reflect (k = k')) as [->|?].
Qed.

Lemma updateBoardingStatus_exact writeOk id status w :
  match findIndex_bookingId (bookings (currentStore w)) id with
  | None =>
      updated (updateBoardingStatus writeOk id status w).1 = false
      ∧ currentStore (updateBoardingStatus writeOk id status w).2 = currentStore w
  | Some None =>
      updated (updateBoardingStatus writeOk id status w).1 = false
      ∧ updateMessage (updateBoardingStatus writeOk id status w).1
        = "Booking not found."
      ∧ currentStore (updateBoardingStatus writeOk id status w).2 = currentStore w
  | Some (Some i) =>
      let booking :=
        set_property "boardingStatus" (JStr status)
          (default JNull (bookings (currentStore w) !! i)) in
      updated (updateBoardingStatus writeOk id status w).1
      = negb (usesLocalStorage w) || writeOk
      ∧ updatedBooking (updateBoardingStatus writeOk id status w).1 = Some booking
      ∧ currentStore (updateBoardingStatus writeOk id status w).2
        = (if negb (usesLocalStorage w) || writeOk
           then {| bookings := <[i := booking]> (bookings (currentStore w));
                   lastBookingNumber := lastBookingNumber (currentStore w) |}
           else currentStore w)
  end.
Proof.
  destruct (getBookingsFromStorage_settles w) as [Hcur Hav].
  assert (Hw : currentStore w = (getBookingsFromStorage w).1) by done.
  rewrite !Hw. unfold updateBoardingStatus.
  destruct (getBookingsFromStorage w) as [data w1]. simpl in Hcur, Hav |- *.
  destruct (findIndex_bookingId (bookings data) id) as [[i|]|].
  - destruct (saveBookingsToStorage_exact writeOk
                {| bookings :=
                     <[i := set_property "boardingStatus" (JStr status)
                              (default JNull (bookings data !! i))]> (bookings data);
                   lastBookingNumber := lastBookingNumber data |} w1 _ Hav)
      as (Hok & Hst & _).
    destruct (saveBookingsToStorage writeOk _ w1) as [ok w2].
    simpl in Hok, Hst |- *. subst ok. rewrite Hst, Hcur.
    by destruct (negb (usesLocalStorage w) || writeOk).
  - simpl. by rewrite Hcur.
  - simpl. by rewrite currentStore_log, Hcur.
Qed.

(** X20. [updateBoardingStatus] succeeds exactly when the search finds a
    stored booking with the identifier (meeting no null element before
    it) and the write is accepted. On success the first stored booking
    with that identifier has the new boarding status and its other
    properties as before, every other booking and the counter are as
    before, and the booking returned is the stored one. When it does not
    succeed the store is as before. *)
Theorem updateBoardingStatus_marks_first writeOk id status w :
  let before := currentStore w in
  let result := (updateBoardingStatus writeOk id status w).1 in
  let after := currentStore (updateBoardingStatus writeOk id status w).2 in
  (updated result = true
   ↔ (∃ i, findIndex_bookingId (bookings before) id = Some (Some i))
     ∧ (usesLocalStorage w = false ∨ writeOk = true))
  ∧ (updated result = true →
     ∃ i old new,
       bookings before !! i = Some old
       ∧ has_bookingId old id = true
       ∧ (∀ j b, (j < i)%nat → bookings before !! j = Some b →
                 has_bookingId b id = false)
       ∧ bookings after = <[i := new]> (bookings before)
       ∧ get new "boardingStatus" = Some (JStr status)
       ∧ (∀ k, k ≠ "boardingStatus" → get new k = get old k)
       ∧ lastBookingNumber after = lastBookingNumber before
       ∧ updatedBooking result = Some new)
  ∧ (updated result = false → after = before).
Proof.
  intros before result after. subst before result after.
  pose proof (updateBoardingStatus_exact writeOk id status w) as H.
  destruct (findIndex_bookingId _ id) as [[i|]|] eqn:Hidx.
  - cbv zeta in H. destruct H as (Hok & Hres & Hst). rewrite Hok, Hres, Hst.
    destruct (findIndex_bookingId_first _ _ _ Hidx) as (old & Hi & Hold & Hfirst).
    rewrite Hi. cbn [default from_option].
    split_and!.
    + destruct (usesLocalStorage w), writeOk; simpl; split; try done;
        try (by intros (_ & [?|?])); intros _; split; eauto.
    + intros Htrue. rewrite Htrue. exists i, old. eexists. split_and!; try done.
      * apply has_bookingId_true in Hold. destruct old; try done.
        simpl. rewrite assoc_set_member. by rewrite bool_decide_eq_true_2.
      * intros k Hk. destruct old; try done.
        simpl. rewrite assoc_set_member. by rewrite bool_decide_eq_false_2.
    + by intros ->.
  - destruct H as (Hok & _ & Hst). rewrite Hok, Hst.
    split_and!; try done. split; [done|]. by intros [[? ?] _].
  - destruct H as (Hok & Hst). rewrite Hok, Hst.
    split_and!; try done. split; [done|]. by intros [[? ?] _].
Qed.

(** ** Queries *)

Lemma getBookingsByDate_eq date w :
  (getBookingsByDate date w).1
  = default [] (filter_elements (λ booking, has_string "travelDate" booking date)
                  (bookings (currentStore w)))
  ∧ currentStore (getBookingsByDate date w).2 = currentStore w.
Proof.
  destruct (getBookingsFromStorage_settles w) as [Hcur _].
  assert (Hw : currentStore w = (getBookingsFromStorage w).1) by done.
  rewrite !Hw. unfold getBookingsByDate.
  destruct (getBookingsFromStorage w) as [data w1]. simpl in Hcur |- *.
  destruct (filter_elements _ _); simpl; by rewrite ?currentStore_log.
Qed.

Lemma getBookingsByMobileAndDate_eq mobile date exclude w :
  (getBookingsByMobileAndDate mobile date exclude w).1
  = default []
      (filter_elements
         (λ booking, has_string "mobileNumber" booking mobile
                     && has_string "travelDate" booking date
                     && not_excluded exclude booking)
         (bookings (currentStore w)))
  ∧ currentStore (getBookingsByMobileAndDate mobile date exclude w).2 = currentStore w.
Proof.
  destruct (getBookingsFromStorage_settles w) as [Hcur _].
  assert (Hw : currentStore w = (getBookingsFromStorage w).1) by done.
  rewrite !Hw. unfold getBookingsByMobileAndDate.
  destruct (getBookingsFromStorage w) as [data w1]. simpl in Hcur |- *.
  destruct (filter_elements _ _); simpl; by rewrite ?currentStore_log.
Qed.

Lemma getBookedSeatsByDate_eq date exclude w :
  (getBookedSeatsByDate date exclude w).1
  = match filter_elements (not_excluded exclude) (getBookingsByDate date w).1 with
    | Some others => others ≫= seats_items
    | None => []
    end
  ∧ currentStore (getBookedSeatsByDate date exclude w).2 = currentStore w.
Proof.
  destruct (getBookingsByDate_eq date w) as [_ Hst].
  unfold getBookedSeatsByDate.
  destruct (getBookingsByDate date w) as [found w1]. simpl in Hst |- *.
  destruct (filter_elements _ _); simpl; by rewrite ?currentStore_log.
Qed.

Lemma getSeatsCountByMobileAndDate_eq mobile date exclude w :
  (getSeatsCountByMobileAndDate mobile date exclude w).1
  = default (Count 0)
      (sum_seats (Count 0) (getBookingsByMobileAndDate mobile date exclude w).1)
  ∧ currentStore (getSeatsCountByMobileAndDate mobile date exclude w).2
    = currentStore w.
Proof.
  destruct (getBookingsByMobileAndDate_eq mobile date exclude w) as [_ Hst].
  unfold getSeatsCountByMobileAndDate.
  destruct (getBookingsByMobileAndDate mobile date exclude w) as [found w1].
  simpl in Hst |- *.
  destruct (sum_seats _ _); simpl; by rewrite ?currentStore_log.
Qed.

(** X21. The queries change nothing that a later read can see, and
    their answers depend on the stored bookings and the counter only:
    whether the store is kept in localStorage or in memory, and what
    the console holds, makes no difference. In particular asking for the
    next identifier does not use it up. *)
Theorem queries_leave_the_store date mobile exclude w :
  (currentStore (getBookingsFromStorage w).2 = currentStore w
   ∧ currentStore (getBookingsByDate date w).2 = currentStore w
   ∧ currentStore (getBookingsByMobileAndDate mobile date exclude w).2 = currentStore w
   ∧ currentStore (getBookedSeatsByDate date exclude w).2 = currentStore w
   ∧ currentStore (getSeatsCountByMobileAndDate mobile date exclude w).2 = currentStore w
   ∧ currentStore (generateBookingId date w).2 = currentStore w)
  ∧ ∀ w', currentStore w' = currentStore w →
      (getBookingsByDate date w').1 = (getBookingsByDate date w).1
      ∧ (getBookingsByMobileAndDate mobile date exclude w').1
        = (getBookingsByMobileAndDate mobile date exclude w).1
      ∧ (getBookedSeatsByDate date exclude w').1 = (getBookedSeatsByDate date exclude w).1
      ∧ (getSeatsCountByMobileAndDate mobile date exclude w').1
        = (getSeatsCountByMobileAndDate mobile date exclude w).1
      ∧ (generateBookingId date w').1 = (generateBookingId date w).1.
Proof.
  split.
  - split_and!.
    + apply currentStore_after_read.
    + apply getBookingsByDate_eq.
    + apply getBookingsByMobileAndDate_eq.
    + apply getBookedSeatsByDate_eq.
    + apply getSeatsCountByMobileAndDate_eq.
    + rewrite generateBookingId_eq. apply currentStore_after_read.
  - intros w' Hw'.
    assert (Hd : (getBookingsByDate date w').1 = (getBookingsByDate date w).1).
    { by rewrite (proj1 (getBookingsByDate_eq date w')),
        (proj1 (getBookingsByDate_eq date w)), Hw'. }
    assert (Hm : (getBookingsByMobileAndDate mobile date exclude w').1
                 = (getBookingsByMobileAndDate mobile date exclude w).1).
    { by rewrite (proj1 (getBookingsByMobileAndDate_eq mobile date exclude w')),
        (proj1 (getBookingsByMobileAndDate_eq mobile date exclude w)), Hw'. }
    split_and!; [done..| | |].
    + by rewrite (proj1 (getBookedSeatsByDate_eq date exclude w')),
        (proj1 (getBookedSeatsByDate_eq date exclude w)), Hd.
    + by rewrite (proj1 (getSeatsCountByMobileAndDate_eq mobile date exclude w')),
        (proj1 (getSeatsCountByMobileAndDate_eq mobile date exclude w)), Hm.
    + rewrite !generateBookingId_eq. unfold lastSequenceNumber. by rewrite Hw'.
Qed.

(** *** On a store of booking objects *)

Lemma filter_elements_bookings (p : json → bool) (P : Booking → Prop)
    `{∀ b, Decision (P b)} (l : list Booking) :
  (∀ b, p (booking_to_json b) = bool_decide (P b)) →
  filter_elements p (booking_to_json <$> l) = Some (booking_to_json <$> filter P l).
Proof.
  intros Hp. induction l as [|b l IH]; [done|].
  rewrite fmap_cons, filter_cons.
  change (filter_elements p (booking_to_json b :: (booking_to_json <$> l)))
    with (match filter_elements p (booking_to_json <$> l) with
          | None => None
          | Some r => Some (if p (booking_to_json b) then booking_to_json b :: r else r)
          end).
  rewrite IH, Hp. by destruct (decide (P b)) as [HP|HP];
    [rewrite bool_decide_eq_true_2|rewrite bool_decide_eq_false_2].
Qed.

Lemma has_travelDate b date :
  has_string "travelDate" (booking_to_json b) date = bool_decide (travelDate b = date).
Proof. done. Qed.

Lemma has_mobileNumber b mobile :
  has_string "mobileNumber" (booking_to_json b) mobile
  = bool_decide (mobileNumber b = mobile).
Proof. done. Qed.

Lemma not_excluded_booking exclude b :
  not_excluded exclude (booking_to_json b)
  = bool_decide (Some (bookingId b) ≠ exclude).
Proof.
  destruct exclude as [id|]; simpl.
  - change (has_string "bookingId" (booking_to_json b) id)
      with (bool_decide (bookingId b = id)).
    destruct (bool_decide_reflect (bookingId b = id)) as [->|Hne]; simpl.
    + by rewrite bool_decide_eq_false_2 by (by intros []).
    + rewrite bool_decide_eq_true_2; [done|]. by intros [= ?].
  - done.
Qed.

Lemma seats_items_bookings (l : list Booking) :
  (booking_to_json <$> l) ≫= seats_items = (Some ∘ JStr) <$> (l ≫= seats).
Proof.
  induction l as [|b l IH]; [done|].
  rewrite fmap_cons, !bind_cons, fmap_app, IH. f_equal.
  change (seats_items (booking_to_json b)) with (Some <$> (JStr <$> seats b)).
  by rewrite <- list_fmap_compose.
Qed.

Lemma sum_seats_bookings n (l : list Booking) :
  sum_seats (Count n) (booking_to_json <$> l)
  = Some (Count (n + Z.of_nat (length (l ≫= seats)))).
Proof.
  revert n. induction l as [|b l IH]; intros n.
  - simpl. do 2 f_equal. lia.
  - rewrite fmap_cons, bind_cons, length_app.
    change (sum_seats (Count n) (booking_to_json b :: (booking_to_json <$> l)))
      with (sum_seats (Count (n + Z.of_nat (length (JStr <$> seats b))))
              (booking_to_json <$> l)).
    rewrite IH, length_fmap. do 2 f_equal. lia.
Qed.

Lemma getBookingsByDate_bookings w stored date :
  holds (currentStore w) stored →
  (getBookingsByDate date w).1
  = booking_to_json <$> filter (λ b, travelDate b = date) stored.
Proof.
  intros Hst. rewrite (proj1 (getBookingsByDate_eq date w)), Hst.
  rewrite (filter_elements_bookings _ (λ b, travelDate b = date)); [done|].
  intros b. apply has_travelDate.
Qed.

Lemma getBookedSeatsByDate_bookings w stored date exclude :
  holds (currentStore w) stored →
  (getBookedSeatsByDate date exclude w).1
  = (Some ∘ JStr)
    <$> (filter (λ b, Some (bookingId b) ≠ exclude ∧ travelDate b = date) stored
         ≫= seats).
Proof.
  intros Hst. rewrite (proj1 (getBookedSeatsByDate_eq date exclude w)).
  rewrite (getBookingsByDate_bookings w stored date Hst).
  rewrite (filter_elements_bookings _ (λ b, Some (bookingId b) ≠ exclude));
    [|intros b; apply not_excluded_booking].
  by rewrite seats_items_bookings, list_filter_filter.
Qed.

Lemma getSeatsCountByMobileAndDate_bookings w stored mobile date exclude :
  holds (currentStore w) stored →
  (getSeatsCountByMobileAndDate mobile date exclude w).1
  = Count (Z.of_nat (length
      (filter (λ b, mobileNumber b = mobile ∧ travelDate b = date
                    ∧ Some (bookingId b) ≠ exclude) stored ≫= seats))).
Proof.
  intros Hst. rewrite (proj1 (getSeatsCountByMobileAndDate_eq mobile date exclude w)).
  rewrite (proj1 (getBookingsByMobileAndDate_eq mobile date exclude w)), Hst.
  rewrite (filter_elements_bookings _
             (λ b, mobileNumber b = mobile ∧ travelDate b = date
                   ∧ Some (bookingId b) ≠ exclude)).
  - cbn [from_option id]. by rewrite sum_seats_bookings.
  - intros b. rewrite has_mobileNumber, has_travelDate, not_excluded_booking.
    destruct (bool_decide_reflect (mobileNumber b = mobile)),
      (bool_decide_reflect (travelDate b = date)),
      (bool_decide_reflect (Some (bookingId b) ≠ exclude)); simpl;
      symmetry; (by apply bool_decide_eq_true_2)
                || (apply bool_decide_eq_false_2; tauto).
Qed.

(** X22. On a store that holds booking objects the queries return what
    their names say: the bookings of the date in stored order; the seats
    of those bookings, in stored order, without the excluded booking's;
    and the number of seats the mobile number holds on the date, without
    the excluded booking's, which is a number. *)
Theorem queries_on_stored_bookings w stored date mobile exclude :
  holds (currentStore w) stored →
  (getBookingsByDate date w).1
  = booking_to_json <$> filter (λ b, travelDate b = date) stored
  ∧ (getBookedSeatsByDate date exclude w).1
    = (Some ∘ JStr)
      <$> (filter (λ b, Some (bookingId b) ≠ exclude ∧ travelDate b = date) stored
           ≫= seats)
  ∧ (getSeatsCountByMobileAndDate mobile date exclude w).1
    = Count (Z.of_nat (length
        (filter (λ b, mobileNumber b = mobile ∧ travelDate b = date
                      ∧ Some (bookingId b) ≠ exclude) stored ≫= seats))).
Proof.
  intros Hst. split_and!.
  - by apply getBookingsByDate_bookings.
  - by apply getBookedSeatsByDate_bookings.
  - by apply getSeatsCountByMobileAndDate_bookings.
Qed.

(** An instance of X22: the sample day, asked for the seats other than
    the second booking's. *)
Lemma queries_on_stored_bookings_witness :
  (getBookedSeatsByDate "2030-01-01" (Some "BK-20300101-000002") Samples.dayWorld).1
  = (Some ∘ JStr) <$> ["A3"; "B2"; "C10"; "D10"; "D15"]
  ∧ (getSeatsCountByMobileAndDate "9876543210" "2030-01-01" None Samples.dayWorld).1
    = Count 7.
Proof.
  pose proof (queries_on_stored_bookings Samples.dayWorld Samples.fourBookings
                "2030-01-01" "9876543210" (Some "BK-20300101-000002") eq_refl)
    as (_ & Hseats & _).
  pose proof (queries_on_stored_bookings Samples.dayWorld Samples.fourBookings
                "2030-01-01" "9876543210" None eq_refl) as (_ & _ & Hcount).
  split; [exact Hseats|exact Hcount].
Defined.

(** *** Creating a booking that the validator has accepted *)

Lemma findIndex_bookingId_bookings (l : list Booking) id :
  findIndex_bookingId (booking_to_json <$> l) id ≠ None.
Proof.
  induction l as [|b l IH]; [done|]. rewrite fmap_cons.
  change (findIndex_bookingId (booking_to_json b :: (booking_to_json <$> l)) id)
    with (if has_bookingId (booking_to_json b) id then Some (Some 0%nat)
          else (λ i : option nat, S <$> i)
               <$> findIndex_bookingId (booking_to_json <$> l) id).
  destruct (has_bookingId _ id); [done|].
  by destruct (findIndex_bookingId (booking_to_json <$> l) id).
Qed.

(** On a store whose counter bounds the stored numbers and is a safe
    integer a new booking is added after the stored ones. *)
Lemma createBooking_appends writeOk date mobile selected now w stored :
  holds (currentStore w) stored →
  store_ok (currentStore w) →
  lastBookingNumber (currentStore w) <= Js.MAX_SAFE_INTEGER →
  success (createBooking writeOk date mobile selected now w).1 = true →
  let b := {| travelDate := date; mobileNumber := mobile; seats := selected;
              bookingId := (generateBookingId date w).1; bookingTime := now;
              boardingStatus := "not_boarded" |} in
  resultBooking (createBooking writeOk date mobile selected now w).1 = Some b
  ∧ holds (currentStore (createBooking writeOk date mobile selected now w).2)
      (stored ++ [b]).
Proof.
  intros Hst Hok Hsafe. unfold createBooking. rewrite generateBookingId_eq. cbn [fst].
  set (id := BOOKING_ID_PREFIX +:+ _).
  set (b := {| travelDate := date; bookingId := id |}).
  set (w0 := (getBookingsFromStorage w).2).
  assert (Hw0 : currentStore w0 = currentStore w) by apply currentStore_after_read.
  assert (Hid : bookingNumberOf id = Some (lastBookingNumber (currentStore w) + 1)).
  { subst id. unfold lastSequenceNumber.
    rewrite double_exact by (destruct Hok; lia).
    apply bookingNumberOf_generated. destruct Hok. lia. }
  pose proof (saveBooking_exact writeOk b w0) as H.
  pose proof (saveBooking_cases writeOk b w0) as [_ Hcases].
  rewrite Hw0 in H.
  destruct (findIndex_bookingId (bookings (currentStore w)) (bookingId b))
    as [[i|]|] eqn:Hidx.
  - destruct (findIndex_bookingId_found _ _ _ Hidx) as (old & Hin & Hold).
    destruct Hok as [_ Hbound]. specialize (Hbound old id _ Hin Hold Hid). lia.
  - destruct H as (Hsucc & Hstore & _). intros Htrue.
    rewrite Htrue in Hsucc. rewrite <- Hsucc in Hstore.
    destruct Hcases as [[Hf _]|(_ & Hres & _)]; [congruence|].
    split; [done|]. unfold holds. rewrite Hstore. simpl.
    by rewrite Hst, fmap_app.
  - destruct H as [Hfail _]. intros Htrue. congruence.
Qed.

Lemma seat_values_inj (l k : list string) :
  (Some ∘ JStr) <$> l = (Some ∘ JStr) <$> k → l = k.
Proof.
  revert k. induction l as [|x l IH]; intros [|y k]; simpl; try done.
  intros [= -> Hk]. f_equal. by apply IH.
Qed.

Lemma accepted_new_booking clock fd booked existing :
  Validation.bookingId fd = None →
  Validation.formIsValid (Validation.validateBookingForm clock fd booked existing).1
  = true →
  (∀ seat, seat ∈ Validation.seats fd → seat ∉ booked)
  ∧ Z.of_nat (length (Validation.seats fd)) + existing <= 6.
Proof.
  intros Hnew. rewrite validateBookingForm_unfold. cbn [fst Validation.formIsValid].
  destruct (Validation.fieldRulesHold clock fd) eqn:Hf.
  - rewrite no_errors_bookingErrors. unfold Validation.conflictSet.
    by rewrite Hnew.
  - by rewrite no_errors_fieldErrors, Hf.
Qed.

(** X23. A new booking that the validator has accepted against the
    seats and the count the queries return, and that is then created on
    the same store, leaves the day consistent: the stored bookings are
    as before with the new one after them, the seats booked for the date
    are the earlier ones followed by the new ones, and the mobile number
    holds at most 6 seats on the date. No seat is booked twice afterwards
    exactly when none was before and the selection names no seat twice;
    the validator does not look for a seat that is selected twice. The
    store is one of booking objects whose counter bounds the stored
    numbers and is a safe integer. *)
Theorem accepted_booking_keeps_day_consistent
    clock writeOk fd now w stored booked existing :
  holds (currentStore w) stored →
  store_ok (currentStore w) →
  lastBookingNumber (currentStore w) <= Js.MAX_SAFE_INTEGER →
  Validation.bookingId fd = None →
  (getBookedSeatsByDate (Validation.travelDate fd) None w).1
  = (Some ∘ JStr) <$> booked →
  (getSeatsCountByMobileAndDate (Validation.mobileNumber fd)
     (Validation.travelDate fd) None w).1 = Count existing →
  Validation.formIsValid (Validation.validateBookingForm clock fd booked existing).1
  = true →
  let created :=
    createBooking writeOk (Validation.travelDate fd) (Validation.mobileNumber fd)
      (Validation.seats fd) now w in
  success created.1 = true →
  (∃ b, resultBooking created.1 = Some b
        ∧ holds (currentStore created.2) (stored ++ [b]))
  ∧ (getBookedSeatsByDate (Validation.travelDate fd) None created.2).1
    = (Some ∘ JStr) <$> (booked ++ Validation.seats fd)
  ∧ (NoDup (booked ++ Validation.seats fd)
     ↔ NoDup booked ∧ NoDup (Validation.seats fd))
  ∧ (getSeatsCountByMobileAndDate (Validation.mobileNumber fd)
       (Validation.travelDate fd) None created.2).1
    = Count (existing + Z.of_nat (length (Validation.seats fd)))
  ∧ existing + Z.of_nat (length (Validation.seats fd)) <= 6.
Proof.
  intros Hst Hok Hsafe Hnew Hbooked Hcount Hvalid created Hsucc. subst created.
  destruct (accepted_new_booking clock fd booked existing Hnew Hvalid)
    as [Hfree Hcap].
  destruct (createBooking_appends writeOk _ _ _ now w stored Hst Hok Hsafe Hsucc)
    as [Hres Hst'].
  set (b := {| travelDate := Validation.travelDate fd;
               bookingTime := now |}) in Hres, Hst'.
  rewrite (getBookedSeatsByDate_bookings w stored _ None Hst) in Hbooked.
  apply seat_values_inj in Hbooked.
  rewrite (getSeatsCountByMobileAndDate_bookings w stored _ _ None Hst) in Hcount.
  injection Hcount as Hcount.
  split_and!.
  - by exists b.
  - rewrite (getBookedSeatsByDate_bookings _ _ _ None Hst').
    rewrite filter_app, bind_app, Hbooked. do 2 f_equal.
    rewrite filter_cons_True by done. simpl. by rewrite app_nil_r.
  - rewrite NoDup_app. split; [by intros (? & _ & ?)|].
    intros [Hb Hs]. split_and!; [done| |done].
    intros seat Hin Hsel. by apply (Hfree seat Hsel).
  - rewrite (getSeatsCountByMobileAndDate_bookings _ _ _ _ None Hst').
    rewrite filter_app, bind_app, length_app, <- Hcount. f_equal.
    rewrite filter_cons_True by done. simpl. rewrite app_nil_r. lia.
  - lia.
Qed.

Lemma dayWorld_ok : store_ok (currentStore Samples.dayWorld).
Proof.
  split; [simpl; lia|]. intros b id k Hb Hid Hk. simpl in Hb.
  repeat (apply elem_of_cons in Hb as [->|Hb];
          [injection Hid as <-; vm_compute in Hk; injection Hk as <-;
           simpl; lia|]).
  by apply elem_of_nil in Hb.
Qed.

(** An instance of X23: two free seats for a mobile number that holds
    none yet, on the sample day. *)
Lemma accepted_booking_witness :
  let w := Samples.dayWorld in
  let fd := Samples.newSeatsA7B7 in
  let now := "2029-12-31T11:00:00.000Z" in
  let booked := ["A3"; "B2"; "A10"; "B9"; "C10"; "D10"; "D15"] in
  let created := createBooking true "2030-01-01" "9123456780" ["A7"; "B7"] now w in
  (getBookedSeatsByDate "2030-01-01" None w).1 = (Some ∘ JStr) <$> booked
  ∧ (getSeatsCountByMobileAndDate "9123456780" "2030-01-01" None w).1 = Count 0
  ∧ Validation.formIsValid
      (Validation.validateBookingForm Samples.anyDay fd booked 0).1 = true
  ∧ success created.1 = true
  ∧ (getBookedSeatsByDate "2030-01-01" None created.2).1
    = (Some ∘ JStr) <$> (booked ++ ["A7"; "B7"])
  ∧ (getSeatsCountByMobileAndDate "9123456780" "2030-01-01" None created.2).1
    = Count 2.
Proof.
  intros w fd now booked created.
  split; [reflexivity|]. split; [reflexivity|].
  split; [vm_compute; reflexivity|]. split; [reflexivity|].
  destruct (accepted_booking_keeps_day_consistent Samples.anyDay true fd now w
              Samples.fourBookings booked 0 eq_refl dayWorld_ok
              ltac:(vm_compute; discriminate) eq_refl eq_refl
              eq_refl eq_refl eq_refl) as (_ & Hseats & _ & Hcount & _).
  split; [exact Hseats|exact Hcount].
Defined.

(** *** Clearing *)

Lemma usesLocalStorage_set_item item w :
  usesLocalStorage (set_item item w) = usesLocalStorage w.
Proof.
  unfold usesLocalStorage, isLocalStorageAvailable.
  destruct w as [[[]|] [] ? ? ?]; done.
Qed.

(** X24. [clearAllBookings] reports whether the removal was accepted.
    When it was and the bookings are kept in localStorage, the store is
    empty afterwards and the counter starts again, so that the next
    identifier carries the number 1 once more. When the bookings are
    kept in memory they all stay, whatever is reported; they also stay
    when the removal was refused. *)
Theorem clearAllBookings_resets removeOk w :
  let cleared := clearAllBookings removeOk w in
  cleared.1 = removeOk
  ∧ usesLocalStorage cleared.2 = usesLocalStorage w
  ∧ (removeOk = true → usesLocalStorage w = true →
     currentStore cleared.2 = emptyStore
     ∧ ∀ date, (generateBookingId date cleared.2).1
               = "BK-" +:+ Js.remove_chars Js.is_dash date +:+ "-000001")
  ∧ (usesLocalStorage w = false → currentStore cleared.2 = currentStore w)
  ∧ (removeOk = false → currentStore cleared.2 = currentStore w).
Proof.
  intros cleared. subst cleared. unfold clearAllBookings.
  destruct removeOk; cbn [fst snd].
  - split_and!; [done|apply usesLocalStorage_set_item| | |done].
    + intros _ Huses.
      assert (Hempty : currentStore (set_item None w) = emptyStore).
      { revert Huses. unfold usesLocalStorage, currentStore, getBookingsFromStorage,
          isLocalStorageAvailable.
        destruct w as [[[]|] [] ? ? ?]; simpl; congruence. }
      split; [done|]. intros date. rewrite generateBookingId_eq.
      unfold lastSequenceNumber. by rewrite Hempty.
    + unfold usesLocalStorage, currentStore, getBookingsFromStorage,
        isLocalStorageAvailable.
      destruct w as [[[]|] [] ? ? ?]; simpl; congruence.
  - split_and!; [done| |done|..]; [|intros; apply currentStore_log..].
    unfold usesLocalStorage, isLocalStorageAvailable.
    destruct w as [[[]|] [] ? ? ?]; done.
Qed.

End RepositoryFacts.

(** ** Marking passengers at the gate *)

Section ToggleFacts.
Import Storage StorageQueries.

Lemma set_status_booking status b :
  set_property "boardingStatus" (JStr status) (booking_to_json b)
  = booking_to_json (with_status status b).
Proof. done. Qed.

Lemma has_bookingId_booking b id :
  has_bookingId (booking_to_json b) id = bool_decide (bookingId b = id).
Proof. done. Qed.

(** The search looks at the identifiers only. *)
Lemma findIndex_bookingId_ids (l k : list Booking) id :
  bookingId <$> l = bookingId <$> k →
  findIndex_bookingId (booking_to_json <$> l) id
  = findIndex_bookingId (booking_to_json <$> k) id.
Proof.
  revert k. induction l as [|b l IH]; intros [|c k]; try done.
  rewrite !fmap_cons. intros [= Hb Hl].
  change (findIndex_bookingId (booking_to_json b :: (booking_to_json <$> l)) id)
    with (if has_bookingId (booking_to_json b) id then Some (Some 0%nat)
          else (λ i : option nat, S <$> i)
               <$> findIndex_bookingId (booking_to_json <$> l) id).
  change (findIndex_bookingId (booking_to_json c :: (booking_to_json <$> k)) id)
    with (if has_bookingId (booking_to_json c) id then Some (Some 0%nat)
          else (λ i : option nat, S <$> i)
               <$> findIndex_bookingId (booking_to_json <$> k) id).
  by rewrite !has_bookingId_booking, Hb, (IH k Hl).
Qed.

(** A successful update on a store of booking objects, in terms of the
    bookings. *)
Lemma updateBoardingStatus_bookings writeOk id status w stored :
  holds (currentStore w) stored →
  updated (updateBoardingStatus writeOk id status w).1 = true →
  ∃ i b,
    findIndex_bookingId (booking_to_json <$> stored) id = Some (Some i)
    ∧ stored !! i = Some b
    ∧ bookingId b = id
    ∧ holds (currentStore (updateBoardingStatus writeOk id status w).2)
        (<[i := with_status status b]> stored)
    ∧ lastBookingNumber (currentStore (updateBoardingStatus writeOk id status w).2)
      = lastBookingNumber (currentStore w).
Proof.
  intros Hst Hup.
  pose proof (updateBoardingStatus_exact writeOk id status w) as H.
  rewrite Hst in H.
  destruct (findIndex_bookingId (booking_to_json <$> stored) id) as [[i|]|] eqn:Hidx.
  - cbv zeta in H. destruct H as (Hok & _ & Hstore).
    rewrite Hup in Hok. rewrite <- Hok in Hstore.
    destruct (findIndex_bookingId_first _ _ _ Hidx) as (old & Hi & Hold & _).
    rewrite list_lookup_fmap in Hi.
    destruct (stored !! i) as [b|] eqn:Hb; [|done]. injection Hi as <-.
    rewrite has_bookingId_booking in Hold. apply bool_decide_eq_true in Hold.
    exists i, b. split_and!; [done..| |by rewrite Hstore].
    unfold holds. rewrite Hstore. cbn [bookings].
    rewrite list_lookup_fmap, Hb.
    change (default JNull (booking_to_json <$> Some b)) with (booking_to_json b).
    by rewrite set_status_booking, list_fmap_insert.
  - destruct H as [Hf _]. congruence.
  - destruct H as [Hf _]. congruence.
Qed.

(** X25. Toggling the boarding status of a booking twice, each time
    with the status shown for it, restores the store: on a store of
    booking objects in which the bookings with the identifier carry one
    of the two statuses, two successful toggles leave the bookings and
    the counter as they were; after the first one the first booking with
    the identifier carries the other status and nothing else differs. *)
Theorem toggling_twice_restores writeOk1 writeOk2 id current w stored :
  holds (currentStore w) stored →
  current ∈ ["boarded"; "not_boarded"] →
  (∀ b, b ∈ stored → bookingId b = id → boardingStatus b = current) →
  let other := if bool_decide (current = "boarded") then "not_boarded" else "boarded" in
  let first := handleToggleBoardingStatus writeOk1 id current w in
  let second := handleToggleBoardingStatus writeOk2 id other first.2 in
  updated first.1 = true →
  updated second.1 = true →
  (∃ i b, stored !! i = Some b ∧ bookingId b = id
          ∧ holds (currentStore first.2) (<[i := with_status other b]> stored))
  ∧ currentStore second.2 = currentStore w.
Proof.
  intros Hst Hcur Hshown other first second Hfirst Hsecond.
  subst first second. unfold handleToggleBoardingStatus in *.
  fold other in Hfirst, Hsecond |- *.
  set (back := if bool_decide (other = "boarded") then "not_boarded" else "boarded")
    in *.
  assert (Hback : back = current).
  { subst back other. set_unfold.
    destruct Hcur as [->|[->|[]]]; done. }
  destruct (updateBoardingStatus_bookings writeOk1 id other w stored Hst Hfirst)
    as (i & b & Hidx & Hb & Hid & Hst1 & Hlast1).
  destruct (updateBoardingStatus_bookings writeOk2 id back _ _ Hst1 Hsecond)
    as (j & c & Hidx2 & Hc & _ & Hst2 & Hlast2).
  split; [by exists i, b|].
  rewrite (findIndex_bookingId_ids _ stored) in Hidx2.
  2:{ rewrite list_fmap_insert. apply list_insert_id.
      by rewrite list_lookup_fmap, Hb. }
  rewrite Hidx in Hidx2. injection Hidx2 as <-.
  rewrite list_lookup_insert_eq in Hc by (by eapply lookup_lt_Some).
  injection Hc as <-.
  rewrite list_insert_insert_eq in Hst2.
  assert (Hsame : with_status back (with_status other b) = b).
  { rewrite Hback, <- (Hshown b); [by destruct b|by eapply list_elem_of_lookup_2|done]. }
  rewrite Hsame, list_insert_id in Hst2 by done.
  unfold holds in Hst, Hst2. rewrite Hlast1 in Hlast2.
  destruct (currentStore (updateBoardingStatus writeOk2 id back _).2) as [bs2 n2],
    (currentStore w) as [bs n].
  simpl in Hst, Hst2, Hlast2. by rewrite Hst, Hst2, Hlast2.
Qed.

(** An instance of X25: the third booking of the sample day is marked
    and unmarked. *)
Lemma toggling_twice_witness :
  let w := Samples.dayWorld in
  let first := handleToggleBoardingStatus true "BK-20300101-000003" "not_boarded" w in
  let second :=
    handleToggleBoardingStatus true "BK-20300101-000003" "boarded" first.2 in
  updated first.1 = true
  ∧ updated second.1 = true
  ∧ currentStore second.2 = currentStore w.
Proof.
  intros w first second. split; [reflexivity|]. split; [reflexivity|].
  refine (proj2 (toggling_twice_restores true true "BK-20300101-000003"
                   "not_boarded" w Samples.fourBookings eq_refl _ _ eq_refl eq_refl)).
  - set_solver.
  - intros b Hb _. simpl in Hb. set_unfold.
    destruct Hb as [->|[->|[->|[->|[]]]]]; reflexivity.
Defined.

End ToggleFacts.

(** ** Seat identifiers *)

Section SeatMapFacts.
Import Boarding SeatMap.

(** X26. The seat map and the boarding planner agree on rows: the
    identifier made of a column name without digits and a row number
    that is a safe integer (at most 2^53 - 1) reads back as that row, so
    every seat the map renders in its row r (1 to 15) is taken by the
    planner to be in row r; the map renders 60 seats, the total the
    constants give, under pairwise different identifiers. *)
Theorem seat_map_rows_read_back :
  (∀ column row,
     Js.all_chars (λ a, negb (Js.is_digit a)) column = true →
     0 <= row <= Js.MAX_SAFE_INTEGER →
     extractRowNumber (column +:+ Js.Z_to_string row) = row)
  ∧ (∀ r ids seat,
       generateSeatRows !! r = Some ids → seat ∈ ids →
       extractRowNumber seat = Z.of_nat r + 1
       ∧ 1 <= extractRowNumber seat <= SEAT_ROWS)
  ∧ Z.of_nat (length (concat generateSeatRows)) = TOTAL_SEATS
  ∧ NoDup (concat generateSeatRows).
Proof.
  split_and!.
  - apply extractRowNumber_name.
  - intros r ids seat Hr Hseat. unfold generateSeatRows in Hr.
    rewrite !list_lookup_fmap in Hr.
    destruct (seq 1 (Z.to_nat SEAT_ROWS) !! r) as [n|] eqn:Hn; [|done].
    apply lookup_seq in Hn as [-> Hlt]. injection Hr as <-.
    change (Z.to_nat SEAT_ROWS) with 15%nat in Hlt.
    assert (Hrow : extractRowNumber seat = Z.of_nat (1 + r)).
    { unfold rowSeatIds in Hseat. simpl in Hseat. set_unfold.
      destruct Hseat as [->|[->|[->|[->|[]]]]];
        apply extractRowNumber_name;
        (done || (unfold Js.MAX_SAFE_INTEGER; lia)). }
    rewrite Hrow. unfold SEAT_ROWS. lia.
  - reflexivity.
  - apply (bool_decide_unpack (NoDup (concat generateSeatRows))).
    vm_compute. exact I.
Qed.

End SeatMapFacts.

(** ** Editing a booking that the validator has accepted *)

Section EditFacts.
Import Storage StorageQueries.

Lemma findIndex_bookingId_NoDup (l : list Booking) i b :
  NoDup (bookingId <$> l) → l !! i = Some b →
  findIndex_bookingId (booking_to_json <$> l) (bookingId b) = Some (Some i).
Proof.
  revert i. induction l as [|c l IH]; intros i Hnd Hi; [done|].
  rewrite fmap_cons in Hnd. apply NoDup_cons in Hnd as [Hc Hnd].
  rewrite fmap_cons.
  change (findIndex_bookingId (booking_to_json c :: (booking_to_json <$> l))
            (bookingId b))
    with (if has_bookingId (booking_to_json c) (bookingId b) then Some (Some 0%nat)
          else (λ i : option nat, S <$> i)
               <$> findIndex_bookingId (booking_to_json <$> l) (bookingId b)).
  change (has_bookingId (booking_to_json c) (bookingId b))
    with (bool_decide (bookingId c = bookingId b)).
  destruct i as [|i]; simpl in Hi.
  - injection Hi as ->. by rewrite bool_decide_eq_true_2.
  - rewrite bool_decide_eq_false_2.
    + by rewrite (IH i Hnd Hi).
    + intros Heq. apply Hc. rewrite Heq. apply list_elem_of_fmap_2.
      by eapply list_elem_of_lookup_2.
Qed.

(** The bookings that satisfy [P], after the booking at [i] has been
    replaced by one that satisfies [P]: the others that satisfy [P], with
    the new one among them. *)
Lemma filter_insert_others (P : Booking → Prop) `{∀ b, Decision (P b)}
    (l : list Booking) i old new :
  NoDup (bookingId <$> l) → l !! i = Some old → P new →
  filter P (<[i := new]> l) ≫= seats
  ≡ₚ (filter (λ b, P b ∧ Some (bookingId b) ≠ Some (bookingId old)) l ≫= seats)
     ++ seats new.
Proof.
  intros Hnd Hi Hnew.
  pose proof (take_drop_middle l i old Hi) as Hl.
  assert (Hlen : (i < length l)%nat) by by eapply lookup_lt_Some.
  rewrite insert_take_drop by done.
  remember (take i l) as front eqn:Efront.
  remember (drop (S i) l) as back eqn:Eback.
  clear Efront Eback Hi Hlen. subst l.
  rewrite fmap_app, fmap_cons in Hnd.
  apply NoDup_app in Hnd as (_ & Hfront & Hback%NoDup_cons).
  destruct Hback as [Hback _].
  assert (Hothers : ∀ part : list Booking,
            (∀ b, b ∈ part → bookingId b ≠ bookingId old) →
            filter (λ b, P b ∧ Some (bookingId b) ≠ Some (bookingId old)) part
            = filter P part).
  { intros part Hpart. induction part as [|b part IH]; [done|].
    assert (Hb : bookingId b ≠ bookingId old) by (apply Hpart; by left).
    rewrite !filter_cons, IH by (intros c Hc; apply Hpart; by right).
    destruct (decide (P b)) as [HP|HP].
    - rewrite decide_True; [done|]. split; [done|]. by intros [= ?].
    - rewrite decide_False; [done|]. by intros [? _]. }
  rewrite !filter_app, filter_cons_True by done.
  rewrite (filter_cons_False _ old) by (by intros [_ []]).
  rewrite !Hothers.
  - rewrite !bind_app, bind_cons. solve_Permutation.
  - intros b Hb Heq. apply Hback. rewrite <- Heq. by apply list_elem_of_fmap_2.
  - intros b Hb Heq. apply (Hfront (bookingId old));
      [rewrite <- Heq; by apply list_elem_of_fmap_2|by left].
Qed.

Lemma accepted_edit clock fd booked existing id current :
  Validation.bookingId fd = Some id → id ≠ "" →
  Validation.currentSeats fd = Some current →
  Validation.formIsValid (Validation.validateBookingForm clock fd booked existing).1
  = true →
  (∀ seat, seat ∈ Validation.seats fd → seat ∈ booked → seat ∈ current)
  ∧ Z.of_nat (length (Validation.seats fd)) + existing <= 6.
Proof.
  intros Hid Hne Hcur. rewrite validateBookingForm_unfold.
  cbn [fst Validation.formIsValid].
  destruct (Validation.fieldRulesHold clock fd) eqn:Hf.
  - rewrite no_errors_bookingErrors. intros [Hfree Hcap]. split; [|done].
    intros seat Hsel Hbooked. destruct (decide (seat ∈ current)) as [|Hnot]; [done|].
    destruct (Hfree seat Hsel).
    apply (elem_of_conflictSet_edit fd booked current); [|done..].
    rewrite Hid. by destruct id.
  - by rewrite no_errors_fieldErrors, Hf.
Qed.

(** X27. An edit that the validator has accepted keeps the day
    consistent. The store is one of booking objects with pairwise
    different identifiers; the booking edited is stored, and the
    validator has accepted the candidate against the seats and the count
    that the queries return for the candidate's date when the edited
    booking is excluded. If no seat of the edited booking is among those
    seats, then after the successful update the booking stands where it
    stood with its identifier, time and status, the seats booked for the
    date are those of the others together with the new ones, and the
    mobile number holds at most 6 seats on the date. No seat is booked
    twice afterwards exactly when none of the others' was before and the
    selection names no seat twice; the validator does not look for a seat
    that is selected twice. *)
Theorem accepted_edit_keeps_day_consistent
    clock writeOk fd w stored old booked existing :
  holds (currentStore w) stored →
  NoDup (bookingId <$> stored) →
  old ∈ stored →
  bookingId old ≠ "" →
  Validation.bookingId fd = Some (bookingId old) →
  Validation.currentSeats fd = Some (seats old) →
  (getBookedSeatsByDate (Validation.travelDate fd) (Some (bookingId old)) w).1
  = (Some ∘ JStr) <$> booked →
  (getSeatsCountByMobileAndDate (Validation.mobileNumber fd)
     (Validation.travelDate fd) (Some (bookingId old)) w).1 = Count existing →
  (∀ seat, seat ∈ seats old → seat ∉ booked) →
  Validation.formIsValid (Validation.validateBookingForm clock fd booked existing).1
  = true →
  let saved :=
    updateBooking writeOk old (Validation.travelDate fd)
      (Validation.mobileNumber fd) (Validation.seats fd) w in
  success saved.1 = true →
  ∃ i new seatsAfter,
    stored !! i = Some old
    ∧ resultBooking saved.1 = Some new
    ∧ bookingId new = bookingId old
    ∧ bookingTime new = bookingTime old
    ∧ boardingStatus new = boardingStatus old
    ∧ seats new = Validation.seats fd
    ∧ holds (currentStore saved.2) (<[i := new]> stored)
    ∧ (getBookedSeatsByDate (Validation.travelDate fd) None saved.2).1
      = (Some ∘ JStr) <$> seatsAfter
    ∧ seatsAfter ≡ₚ booked ++ Validation.seats fd
    ∧ (NoDup seatsAfter ↔ NoDup booked ∧ NoDup (Validation.seats fd))
    ∧ (getSeatsCountByMobileAndDate (Validation.mobileNumber fd)
         (Validation.travelDate fd) None saved.2).1
      = Count (existing + Z.of_nat (length (Validation.seats fd)))
    ∧ existing + Z.of_nat (length (Validation.seats fd)) <= 6.
Proof.
  intros Hst Hnd Hold Hne Hid Hcur Hbooked Hcount Hown Hvalid saved Hsucc.
  subst saved. unfold updateBooking in *.
  set (new := {| travelDate := Validation.travelDate fd;
                 bookingId := bookingId old |}) in *.
  destruct (accepted_edit clock fd booked existing _ _ Hid Hne Hcur Hvalid)
    as [Hfree Hcap].
  apply list_elem_of_lookup in Hold as [i Hi].
  pose proof (findIndex_bookingId_NoDup stored i old Hnd Hi) as Hidx.
  pose proof (saveBooking_exact writeOk new w) as H.
  pose proof (saveBooking_cases writeOk new w) as [_ Hcases].
  rewrite Hst in H. change (bookingId new) with (bookingId old) in H.
  rewrite Hidx in H. destruct H as (Hok & Hstore & _).
  rewrite Hsucc in Hok. rewrite <- Hok in Hstore.
  destruct Hcases as [[Hf _]|(_ & Hres & _)]; [congruence|].
  assert (Hst' : holds (currentStore (saveBooking writeOk new w).2)
                   (<[i := new]> stored)).
  { unfold holds in Hst |- *. rewrite Hstore. cbn [upserted bookings].
    by rewrite Hst, list_fmap_insert. }
  rewrite (getBookedSeatsByDate_bookings w stored _ _ Hst) in Hbooked.
  apply seat_values_inj in Hbooked.
  rewrite (getSeatsCountByMobileAndDate_bookings w stored _ _ _ Hst) in Hcount.
  injection Hcount as Hcount.
  pose proof (getBookedSeatsByDate_bookings _ _ (Validation.travelDate fd) None Hst')
    as Hq.
  pose proof (getSeatsCountByMobileAndDate_bookings _ _ (Validation.mobileNumber fd)
                (Validation.travelDate fd) None Hst') as Hc.
  assert (Hbind : ∀ l k : list Booking, l = k → l ≫= seats = k ≫= seats)
    by (by intros ?? ->).
  match type of Hq with _ = _ <$> ?l => set (seatsAfter := l) in * end.
  assert (Hseats : seatsAfter ≡ₚ booked ++ Validation.seats fd).
  { subst seatsAfter.
    rewrite (filter_insert_others _ stored i old new Hnd Hi) by done.
    apply Permutation_app; [|done]. rewrite <- Hbooked.
    erewrite Hbind; [done|]. apply list_filter_iff. intros b. naive_solver. }
  exists i, new, seatsAfter. split_and!; try done.
  - rewrite Hseats, NoDup_app. split; [by intros (? & _ & ?)|].
    intros [Hb Hs]. split_and!; [done| |done].
    intros seat Hin Hsel. apply (Hown seat); [|done]. by apply Hfree.
  - rewrite Hc. f_equal.
    match goal with
    | |- context [@filter _ _ _ ?P ?dec (<[i := new]> stored)] =>
        pose proof (Permutation_length
                      (@filter_insert_others P dec stored i old new Hnd Hi
                         ltac:(done))) as Hlen
    end.
    rewrite Hlen, length_app, <- Hcount, Nat2Z.inj_add, Z.add_comm.
    rewrite (Z.add_comm (Z.of_nat (length (_ ≫= seats)))).
    do 3 f_equal. apply Hbind, list_filter_iff. intros b. naive_solver.
  - lia.
Qed.

(** An instance of X27: the second booking of the sample day gives up
    seat B9 for A11. *)
Lemma accepted_edit_witness :
  let w := Samples.dayWorld in
  let fd := Samples.editSecondBooking in
  let old := Samples.aBooking "BK-20300101-000002" ["A10"; "B9"] in
  let booked := ["A3"; "B2"; "C10"; "D10"; "D15"] in
  let saved := updateBooking true old "2030-01-01" "9123456780" ["A10"; "A11"] w in
  Validation.formIsValid
    (Validation.validateBookingForm Samples.anyDay fd booked 0).1 = true
  ∧ success saved.1 = true
  ∧ ∃ seatsAfter,
      (getBookedSeatsByDate "2030-01-01" None saved.2).1 = (Some ∘ JStr) <$> seatsAfter
      ∧ seatsAfter ≡ₚ booked ++ ["A10"; "A11"]
      ∧ NoDup seatsAfter.
Proof.
  intros w fd old booked saved.
  split; [vm_compute; reflexivity|]. split; [reflexivity|].
  assert (Hids : NoDup (bookingId <$> Samples.fourBookings)).
  { apply (bool_decide_unpack (NoDup (bookingId <$> Samples.fourBookings))).
    vm_compute. exact I. }
  assert (Hold : old ∈ Samples.fourBookings) by (right; left).
  assert (Hown : ∀ seat, seat ∈ seats old → seat ∉ booked).
  { intros seat Hin. simpl in Hin. subst booked. set_unfold.
    destruct Hin as [->|[->|[]]]; intros [?|[?|[?|[?|[?|[]]]]]]; done. }
  destruct (accepted_edit_keeps_day_consistent Samples.anyDay true fd w
              Samples.fourBookings old booked 0 eq_refl Hids Hold
              ltac:(done) eq_refl eq_refl eq_refl eq_refl Hown eq_refl eq_refl)
    as (i & new & seatsAfter & _ & _ & _ & _ & _ & _ & _ & Hq & Hperm & Hnd & _).
  exists seatsAfter. split_and!; [exact Hq|exact Hperm|].
  apply Hnd. split.
  - apply (bool_decide_unpack (NoDup booked)). vm_compute. exact I.
  - apply (bool_decide_unpack (NoDup ["A10"; "A11"])). vm_compute. exact I.
Defined.

End EditFacts.
